(** * Task manager: the route handlers over a model of the table store

    The repository is a Next.js application whose route handlers
    (app/api/tasks/route.ts, app/api/auth/route.ts, the user directory
    route and app/api/setup-db/route.ts) translate HTTP calls into
    filtered reads and writes of two tables, [users] and [tasks], held
    by an external PostgREST backend reached through the supabase-js
    query builder.

    The development has three layers:
    - the JavaScript values the handlers test (strings that may be
      [undefined] or [null], truthiness, strict equality);
    - the table store: rows as the schema in setup-db/route.ts declares
      them, and the query-builder operations the handlers call
      ([select], [eq], [in], [single], [insert], [update], [delete]),
      each returning the [{ data, error }] pair the handlers destructure;
    - the handlers, written in a small state-and-exit monad so that
      [return NextResponse.json(...)] and [throw error] read as in the
      source, with the [try]/[catch] of each handler on the outside. *)

From Stdlib Require Import String List Bool ZArith Lia Permutation.
Import ListNotations.
Local Open Scope string_scope.
Local Open Scope Z_scope.

(** ** JavaScript values *)

(** A string-valued field of a JSON body or a query parameter.
    [searchParams.get] yields [Null] or [Str]; a destructured JSON
    field may also be [Undefined]. *)
Inductive JsStr : Type :=
| Undefined
| Null
| Str (s : string).

(** The [completed] field of the body of [PUT]. The handler does not
    check its type, so it is whatever JSON the client sent: absent,
    [null], a boolean, a string, or another value (a number, an array,
    an object), of which the handler tests only whether it is truthy
    and the backend reads only the JSON text. *)
Inductive JsAny : Type :=
| BUndefined
| BNull
| BVal (b : bool)
| BStr (s : string)
| BOther (is_truthy : bool) (text : string).

(** [if (v)] / [!v] on a string-or-nothing value: only a non-empty
    string is truthy. *)
Definition truthy (v : JsStr) : bool :=
  match v with
  | Str s => negb (String.eqb s "")
  | _ => false
  end.

(** [if (v)] on such a value: [false], [null], [undefined], the empty
    string and the number zero are falsy, everything else is truthy. *)
Definition truthyb (v : JsAny) : bool :=
  match v with
  | BVal b => b
  | BStr s => negb (String.eqb s "")
  | BOther is_truthy _ => is_truthy
  | _ => false
  end.

(** [a === b]. *)
Definition strict_eq (a b : JsStr) : bool :=
  match a, b with
  | Undefined, Undefined => true
  | Null, Null => true
  | Str x, Str y => String.eqb x y
  | _, _ => false
  end.

(** [v === "lit"]. *)
Definition eq_lit (v : JsStr) (lit : string) : bool := strict_eq v (Str lit).

(** A nullable column read back into JavaScript. *)
Definition of_column (c : option string) : JsStr :=
  match c with
  | Some s => Str s
  | None => Null
  end.

(** A JavaScript value written to a nullable column: [undefined] keys
    are dropped by JSON.stringify and [null] is SQL NULL. *)
Definition to_column (v : JsStr) : option string :=
  match v with
  | Str s => Some s
  | _ => None
  end.

(** ** Rows (schema of setup-db/route.ts) *)

Module User.
Record row : Type := {
  id : string;
  username : string;
  password_hash : string;
  role : string;
  supervisor_id : option string;
  created_at : string
}.
End User.

Module Task.
Record row : Type := {
  id : string;
  user_id : option string;
  created_by : option string;
  title : string;
  completed : option bool;
  completed_at : option string;
  created_at : string
}.
End Task.

(** Projections and embeddings a [select] can ask for. *)
Module View.
(** [users:user_id(username, role)] and
    [users:user_id(username, role, supervisor_id)]: the outer [option]
    of [supervisor_id] says whether the column was selected. *)
Record owner : Type := {
  username : string;
  role : string;
  supervisor_id : option (option string)
}.

(** A task row as listed: [users] is [None] when no embedding was
    asked for, [Some None] when the owner reference is dangling or
    NULL. *)
Record task : Type := {
  row : Task.row;
  users : option (option owner)
}.

(** [select("id, username")], [select("id, username, role")],
    [select("id, username, role, supervisor_id")], [select("role")],
    [select("supervisor_id")], [select("id")]: a column that was not
    selected is [None]. *)
Record user : Type := {
  id : option string;
  uname : option string;
  urole : option string;
  usupervisor_id : option (option string)
}.

(** [const { password_hash, ...userWithoutPassword } = user]. *)
Record sanitized : Type := {
  sid : string;
  susername : string;
  srole : string;
  ssupervisor_id : option string;
  screated_at : string
}.
End View.

(** ** The table store *)

(** The backend is a service outside the repository; globals.d.ts only
    declares the query builder the handlers call on it. The store below
    is an in-memory stand-in for it: the two tables with the
    constraints of the schema, and operations that answer as
    supabase-js over PostgREST does, always by resolving to a
    [{ data, error }] pair and never by throwing.

    [Db] holds the two tables, and for each whether the backend answers
    reads and writes on it (a missing table, a row-level-security
    denial or an unreachable backend all surface as a non-null
    [error]). A table is a list, and a read returns its rows in the
    order of the list; that order is the model's own, as no handler
    asks for an ordering and the backend promises none. *)
Record Db : Type := {
  users : list User.row;
  tasks : list Task.row;
  users_read : bool;
  users_write : bool;
  tasks_read : bool;
  tasks_write : bool
}.

Inductive PgError : Type :=
| Unavailable            (* table missing, denied, or backend unreachable *)
| PGRST116               (* .single(): zero or several rows *)
| UniqueViolation        (* 23505 *)
| ForeignKeyViolation    (* 23503 *)
| NotNullViolation       (* 23502 *)
| InvalidText.           (* 22P02: a value the column type cannot read *)

Definition message (e : PgError) : string :=
  match e with
  | Unavailable => "backend unavailable"
  | PGRST116 => "JSON object requested, multiple (or no) rows returned"
  | UniqueViolation => "duplicate key value violates unique constraint"
  | ForeignKeyViolation => "insert or update violates foreign key constraint"
  | NotNullViolation => "null value violates not-null constraint"
  | InvalidText => "invalid input syntax for type boolean"
  end.

(** What every awaited query resolves to. *)
Record Result (A : Type) : Type := {
  data : option A;
  error : option PgError
}.
Arguments data {A} _.
Arguments error {A} _.

Definition ok {A : Type} (a : A) : Result A :=
  {| data := Some a; error := None |}.
Definition done {A : Type} : Result A :=
  {| data := None; error := None |}.
Definition failed {A : Type} (e : PgError) : Result A :=
  {| data := None; error := Some e |}.

(** [.single()]: the result must be exactly one row, otherwise the
    query resolves to an error (code PGRST116, the code the client
    component tests for) and [data] is null. *)
Definition single {A : Type} (r : Result (list A)) : Result A :=
  match error r with
  | Some e => failed e
  | None =>
      match data r with
      | Some [x] => ok x
      | _ => failed PGRST116
      end
  end.

(** [.eq(column, value)] on a nullable text/uuid column: only a string
    matches a row. *)
Definition col_eq (c : option string) (v : JsStr) : bool :=
  match c, v with
  | Some a, Str b => String.eqb a b
  | _, _ => false
  end.

(** [.in(column, values)]. *)
Definition col_in (c : option string) (vs : list string) : bool :=
  match c with
  | Some a => existsb (String.eqb a) vs
  | None => false
  end.

(** What the process provides besides the store: whether the module
    level [supabase] client was created, the clock, the id the backend
    would give the next inserted row, bcrypt, and how the backend reads
    a text as a boolean ([None] when it refuses the text). *)
Record Runtime : Type := {
  supabase : bool;
  toISOString : string;                      (* new Date().toISOString() *)
  Date_now : string;                         (* `${Date.now()}` *)
  uuid_generate_v4 : string;
  genSalt : string;                          (* bcrypt.genSalt(10) *)
  hash : string -> string -> string;         (* bcrypt.hash *)
  compare : string -> string -> bool;        (* bcrypt.compare *)
  boolin : string -> option bool             (* text input of BOOLEAN *)
}.

(** A JavaScript value written to the boolean column [completed]: a
    JSON boolean is stored as it is and [null] as NULL; any other value
    reaches the column as its text and is stored as the backend reads
    that text. [None] is a text the column refuses. *)
Definition to_columnb (rt : Runtime) (v : JsAny) : option (option bool) :=
  match v with
  | BUndefined | BNull => Some None
  | BVal b => Some (Some b)
  | BStr s => option_map Some (boolin rt s)
  | BOther _ text => option_map Some (boolin rt text)
  end.

(** ** Responses *)

Record SetupStatus : Type := {
  usersTableExists : bool;
  tasksTableExists : bool;
  rlsUserIssue : bool;
  rlsTaskIssue : bool;
  rlsUserError : option string;
  rlsTaskError : option string;
  usersError : option string;
  tasksError : option string
}.

(** The JSON bodies the handlers build, one constructor per shape. *)
Inductive Body : Type :=
| body_error (msg : string)                        (* { error } *)
| body_error_details (msg details : string)        (* { error, details } *)
| body_tasks (d : option (list View.task))         (* { tasks } *)
| body_task (d : option Task.row)                  (* { task } *)
| body_task_rows (d : option (list Task.row))      (* { task }, no .single() *)
| body_user (d : View.sanitized)                   (* { user } *)
| body_user_view (d : option View.user)            (* { user }, projected *)
| body_users (d : option (list View.user))         (* { users } *)
| body_supervisors (d : option (list View.user))   (* { supervisors } *)
| body_success                                     (* { success: true } *)
| body_setup (s : SetupStatus).  (* { success, message, status, ... } *)

Record Response : Type := {
  status : Z;
  body : Body
}.

(** [NextResponse.json(b)] and [NextResponse.json(b, { status })]. *)
Definition json (b : Body) : Response := {| status := 200; body := b |}.
Definition json_status (b : Body) (s : Z) : Response :=
  {| status := s; body := b |}.

(** The top-level keys of a body. *)
Definition keys (b : Body) : list string :=
  match b with
  | body_error _ => ["error"]
  | body_error_details _ _ => ["error"; "details"]
  | body_tasks _ => ["tasks"]
  | body_task _ => ["task"]
  | body_task_rows _ => ["task"]
  | body_user _ => ["user"]
  | body_user_view _ => ["user"]
  | body_users _ => ["users"]
  | body_supervisors _ => ["supervisors"]
  | body_success => ["success"]
  | body_setup _ =>
      ["success"; "message"; "status"; "setupInstructions"; "rlsInstructions"]
  end.

(** ** Handler monad: store state, early [return], [throw] *)

(** What a handler body can throw: a query error rethrown by
    [throw error], or the exception of [await request.json()] on a body
    that is not a JSON object. *)
Inductive Exn : Type :=
| QueryError (e : PgError)
| SyntaxError
| TypeError.

Definition exn_message (x : Exn) : string :=
  match x with
  | QueryError e => message e
  | SyntaxError => "Unexpected end of JSON input"
  | TypeError => "Cannot destructure a null value"
  end.

Inductive Outcome (A : Type) : Type :=
| Val (a : A)
| Return (r : Response)
| Throw (e : Exn).
Arguments Val {A} _.
Arguments Return {A} _.
Arguments Throw {A} _.

Definition M (A : Type) : Type := Db -> Outcome A * Db.

Definition ret {A : Type} (a : A) : M A := fun db => (Val a, db).

Definition bind {A B : Type} (m : M A) (k : A -> M B) : M B :=
  fun db =>
    match m db with
    | (Val a, db') => k a db'
    | (Return r, db') => (Return r, db')
    | (Throw e, db') => (Throw e, db')
    end.

Declare Scope handler_scope.
Delimit Scope handler_scope with handler.
Notation "x <- m ;; k" := (bind m (fun x => k))
  (at level 100, m at next level, right associativity) : handler_scope.
Notation "m ;;; k" := (bind m (fun _ => k))
  (at level 100, right associativity) : handler_scope.
Local Open Scope handler_scope.

(** [return r] in the middle of a handler. *)
Definition return_ {A : Type} (r : Response) : M A := fun db => (Return r, db).

(** [throw e]. *)
Definition throw {A : Type} (e : Exn) : M A := fun db => (Throw e, db).

(** [if (error) throw error]. *)
Definition throw_if (e : option PgError) : M unit :=
  match e with
  | Some x => throw (QueryError x)
  | None => ret tt
  end.

(** [try { body } catch (error) { return json({ error: msg, details:
    error.message }, 500) }]. *)
Definition try_catch_details (msg : string) (m : M Response) (db : Db)
  : Response * Db :=
  match m db with
  | (Val r, db') => (r, db')
  | (Return r, db') => (r, db')
  | (Throw e, db') =>
      (json_status (body_error_details msg (exn_message e)) 500, db')
  end.

(** [await request.json()] destructured into the fields a handler
    names: [None] is a body that does not parse to an object. *)
Definition request_json {A : Type} (parsed : option A) : M A :=
  match parsed with
  | Some b => ret b
  | None => throw SyntaxError
  end.

(** [if (c) { body }] with nothing after it in the branch. *)
Definition when (c : bool) (m : M unit) : M unit :=
  if c then m else ret tt.

(** [try { body } catch (error) { return json({ error: msg }, 500) }]:
    what was written to the store before the [throw] stays written. *)
Definition try_catch (msg : string) (m : M Response) (db : Db)
  : Response * Db :=
  match m db with
  | (Val r, db') => (r, db')
  | (Return r, db') => (r, db')
  | (Throw _, db') => (json_status (body_error msg) 500, db')
  end.

(** ** Query-builder operations *)

(** [select("*")]: the whole row. *)
Definition all {A : Type} (x : A) : A := x.

(** [await query.single()]. *)
Definition single_ {A : Type} (q : M (Result (list A))) : M (Result A) :=
  fun db => let (o, db') := q db in
            (match o with
             | Val r => Val (single r)
             | Return r => Return r
             | Throw e => Throw e
             end, db').

(** [from("users").select(cols)] with the filter [p] built by [.eq] and
    [.in]. *)
Definition select_users {A : Type} (cols : User.row -> A)
    (p : User.row -> bool) : M (Result (list A)) :=
  fun db =>
    (Val (if users_read db
          then ok (map cols (filter p (users db)))
          else failed Unavailable), db).

(** [from("tasks").select(cols)]. *)
Definition select_tasks {A : Type} (cols : Task.row -> A)
    (p : Task.row -> bool) : M (Result (list A)) :=
  fun db =>
    (Val (if tasks_read db
          then ok (map cols (filter p (tasks db)))
          else failed Unavailable), db).

(** [select("*")] as it reaches a [{ tasks }] body: no embedding. *)
Definition star (t : Task.row) : View.task :=
  {| View.row := t; View.users := None |}.

(** The user a task's [user_id] refers to. *)
Definition owner_of (us : list User.row) (t : Task.row) : option User.row :=
  match Task.user_id t with
  | Some uid => find (fun u => String.eqb (User.id u) uid) us
  | None => None
  end.

(** [users:user_id(username, role)]. *)
Definition username_role (u : User.row) : View.owner :=
  {| View.username := User.username u;
     View.role := User.role u;
     View.supervisor_id := None |}.

(** [users:user_id(username, role, supervisor_id)]. *)
Definition username_role_supervisor_id (u : User.row) : View.owner :=
  {| View.username := User.username u;
     View.role := User.role u;
     View.supervisor_id := Some (User.supervisor_id u) |}.

(** [from("tasks").select("*, users:user_id(...)")]: every task row
    with its owner embedded (null when there is none); the embedding
    reads the users table too. *)
Definition select_tasks_embed (cols : User.row -> View.owner)
    (p : Task.row -> bool) : M (Result (list View.task)) :=
  fun db =>
    (Val (if tasks_read db && users_read db
          then ok (map (fun t =>
                          {| View.row := t;
                             View.users :=
                               Some (option_map cols (owner_of (users db) t)) |})
                       (filter p (tasks db)))
          else failed Unavailable), db).

(** [.limit(n)]. *)
Definition limit {A : Type} (n : nat) (r : Result (list A))
  : Result (list A) :=
  {| data := option_map (firstn n) (data r); error := error r |}.

Definition has_user (us : list User.row) (i : string) : bool :=
  existsb (fun u => String.eqb (User.id u) i) us.

(** A foreign key into [users(id)]: NULL passes, a value must exist. *)
Definition fk_ok (us : list User.row) (c : option string) : bool :=
  match c with
  | Some i => has_user us i
  | None => true
  end.

Module NewTask.
(** The object handed to [from("tasks").insert([...])]. *)
Record t : Type := {
  title : JsStr;
  user_id : JsStr;
  created_by : JsStr;
  completed : bool            (* always the literal [false] in the source *)
}.
End NewTask.

(** The row the backend builds: [id] and [created_at] from their
    defaults. *)
Definition new_task_row (rt : Runtime) (title : string) (v : NewTask.t)
  : Task.row :=
  {| Task.id := uuid_generate_v4 rt;
     Task.user_id := to_column (NewTask.user_id v);
     Task.created_by := to_column (NewTask.created_by v);
     Task.title := title;
     Task.completed := Some (NewTask.completed v);
     Task.completed_at := None;
     Task.created_at := toISOString rt |}.

Definition with_tasks (db : Db) (ts : list Task.row) : Db :=
  {| users := users db; tasks := ts;
     users_read := users_read db; users_write := users_write db;
     tasks_read := tasks_read db; tasks_write := tasks_write db |}.

Definition with_users (db : Db) (us : list User.row) : Db :=
  {| users := us; tasks := tasks db;
     users_read := users_read db; users_write := users_write db;
     tasks_read := tasks_read db; tasks_write := tasks_write db |}.

(** [from("tasks").insert([v])], followed by [.select()] when
    [returning]: title NOT NULL, both references checked, primary key
    unique. A failed insert writes nothing. *)
Definition insert_task (rt : Runtime) (returning : bool) (v : NewTask.t)
  : M (Result (list Task.row)) :=
  fun db =>
    if negb (tasks_write db && (negb returning || tasks_read db))
    then (Val (failed Unavailable), db)
    else
      match to_column (NewTask.title v) with
      | None => (Val (failed NotNullViolation), db)
      | Some title =>
          let r := new_task_row rt title v in
          if negb (fk_ok (users db) (Task.user_id r)
                   && fk_ok (users db) (Task.created_by r))
          then (Val (failed ForeignKeyViolation), db)
          else if existsb (fun x => String.eqb (Task.id x) (Task.id r))
                          (tasks db)
          then (Val (failed UniqueViolation), db)
          else (Val (if returning then ok [r] else done),
                with_tasks db (tasks db ++ [r]))
      end.

Module TaskPatch.
(** The object handed to [from("tasks").update(...)]: [Undefined]
    is a key that was never assigned. *)
Record t : Type := {
  completed : JsAny;
  completed_at : JsStr
}.

(** [const updatePayload: any = {}]. *)
Definition empty : t :=
  {| completed := BUndefined; completed_at := Undefined |}.

Definition is_empty (p : t) : bool :=
  match completed p, completed_at p with
  | BUndefined, Undefined => true
  | _, _ => false
  end.

(** Whether the backend can read the payload's [completed]. *)
Definition readable (rt : Runtime) (p : t) : bool :=
  match to_columnb rt (completed p) with
  | Some _ => true
  | None => false
  end.

(** The row after the assignments of a readable payload. *)
Definition apply (rt : Runtime) (p : t) (r : Task.row) : Task.row :=
  {| Task.id := Task.id r;
     Task.user_id := Task.user_id r;
     Task.created_by := Task.created_by r;
     Task.title := Task.title r;
     Task.completed :=
       match completed p, to_columnb rt (completed p) with
       | BUndefined, _ | _, None => Task.completed r
       | _, Some c => c
       end;
     Task.completed_at :=
       match completed_at p with
       | Undefined => Task.completed_at r
       | v => to_column v
       end;
     Task.created_at := Task.created_at r |}.
End TaskPatch.

(** [from("tasks").update(payload)] filtered by [p], then [.select()]:
    one statement that rewrites every matching row and returns the
    rewritten rows. With no column to set, PostgREST changes nothing
    and returns no row; a value the boolean column cannot read fails
    the statement, which then writes nothing. A rewritten row keeps
    its place in the list, which says nothing about where the backend
    would list it. *)
Definition update_tasks (rt : Runtime) (payload : TaskPatch.t)
    (p : Task.row -> bool) : M (Result (list Task.row)) :=
  fun db =>
    if negb (tasks_write db && tasks_read db)
    then (Val (failed Unavailable), db)
    else if TaskPatch.is_empty payload
    then (Val (ok []), db)
    else if negb (TaskPatch.readable rt payload)
    then (Val (failed InvalidText), db)
    else
      (Val (ok (map (TaskPatch.apply rt payload) (filter p (tasks db)))),
       with_tasks db
         (map (fun r => if p r then TaskPatch.apply rt payload r else r)
              (tasks db))).

(** [from("tasks").delete()] filtered by [p]. *)
Definition delete_tasks (p : Task.row -> bool) : M (Result unit) :=
  fun db =>
    if negb (tasks_write db)
    then (Val (failed Unavailable), db)
    else (Val done, with_tasks db (filter (fun r => negb (p r)) (tasks db))).

Module NewUser.
(** The object handed to [from("users").insert([...])]. *)
Record t : Type := {
  username : JsStr;
  password_hash : JsStr;
  role : JsStr;
  supervisor_id : JsStr
}.
End NewUser.

(** [from("users").insert([v])], followed by [.select()] when
    [returning]: username and password_hash NOT NULL, role NOT NULL
    DEFAULT 'User', username UNIQUE, supervisor_id a reference. *)
Definition insert_user (rt : Runtime) (returning : bool) (v : NewUser.t)
  : M (Result (list User.row)) :=
  fun db =>
    if negb (users_write db && (negb returning || users_read db))
    then (Val (failed Unavailable), db)
    else
      match to_column (NewUser.username v),
            to_column (NewUser.password_hash v),
            match NewUser.role v with
            | Undefined => Some "User"
            | w => to_column w
            end
      with
      | Some name, Some pw, Some rl =>
          let r := {| User.id := uuid_generate_v4 rt;
                      User.username := name;
                      User.password_hash := pw;
                      User.role := rl;
                      User.supervisor_id := to_column (NewUser.supervisor_id v);
                      User.created_at := toISOString rt |} in
          if negb (fk_ok (users db) (User.supervisor_id r))
          then (Val (failed ForeignKeyViolation), db)
          else if existsb (fun x => String.eqb (User.id x) (User.id r)
                                    || String.eqb (User.username x) name)
                          (users db)
          then (Val (failed UniqueViolation), db)
          else (Val (if returning then ok [r] else done),
                with_users db (users db ++ [r]))
      | _, _, _ => (Val (failed NotNullViolation), db)
      end.

Module UserPatch.
(** The object handed to [from("users").update(...)]. *)
Record t : Type := {
  role : JsStr;
  supervisor_id : JsStr
}.

(** [const updateData: any = {}]. *)
Definition empty : t := {| role := Undefined; supervisor_id := Undefined |}.

Definition is_empty (p : t) : bool :=
  match role p, supervisor_id p with
  | Undefined, Undefined => true
  | _, _ => false
  end.

Definition apply (p : t) (r : User.row) : User.row :=
  {| User.id := User.id r;
     User.username := User.username r;
     User.password_hash := User.password_hash r;
     User.role :=
       match role p with
       | Str s => s
       | _ => User.role r
       end;
     User.supervisor_id :=
       match supervisor_id p with
       | Undefined => User.supervisor_id r
       | v => to_column v
       end;
     User.created_at := User.created_at r |}.
End UserPatch.

(** [from("users").update(payload)] filtered by [p], then
    [.select(cols)]. A NULL role or a dangling supervisor reference
    fails the statement when a row would be rewritten. *)
Definition update_users {A : Type} (payload : UserPatch.t)
    (p : User.row -> bool) (cols : User.row -> A) : M (Result (list A)) :=
  fun db =>
    if negb (users_write db && users_read db)
    then (Val (failed Unavailable), db)
    else if UserPatch.is_empty payload
    then (Val (ok []), db)
    else
      match filter p (users db) with
      | [] => (Val (ok []), db)
      | hit =>
          match UserPatch.role payload with
          | Null => (Val (failed NotNullViolation), db)
          | _ =>
              if negb (fk_ok (users db)
                         (to_column (UserPatch.supervisor_id payload)))
              then (Val (failed ForeignKeyViolation), db)
              else
                (Val (ok (map (fun r => cols (UserPatch.apply payload r)) hit)),
                 with_users db
                   (map (fun r => if p r then UserPatch.apply payload r else r)
                        (users db)))
          end
      end.

(** What the references do when users are deleted:
    [tasks.user_id ... ON DELETE CASCADE],
    [tasks.created_by ... ON DELETE SET NULL],
    [users.supervisor_id ... ON DELETE SET NULL]. *)
Definition set_null (gone : list string) (c : option string) : option string :=
  if col_in c gone then None else c.

(** [from("users").delete()] filtered by [p]. *)
Definition delete_users (p : User.row -> bool) : M (Result unit) :=
  fun db =>
    if negb (users_write db)
    then (Val (failed Unavailable), db)
    else
      let gone := map User.id (filter p (users db)) in
      (Val done,
       {| users :=
            map (fun r =>
                   {| User.id := User.id r;
                      User.username := User.username r;
                      User.password_hash := User.password_hash r;
                      User.role := User.role r;
                      User.supervisor_id := set_null gone (User.supervisor_id r);
                      User.created_at := User.created_at r |})
                (filter (fun r => negb (p r)) (users db));
          tasks :=
            map (fun r =>
                   {| Task.id := Task.id r;
                      Task.user_id := Task.user_id r;
                      Task.created_by := set_null gone (Task.created_by r);
                      Task.title := Task.title r;
                      Task.completed := Task.completed r;
                      Task.completed_at := Task.completed_at r;
                      Task.created_at := Task.created_at r |})
                (filter (fun r => negb (col_in (Task.user_id r) gone))
                        (tasks db));
          users_read := users_read db; users_write := users_write db;
          tasks_read := tasks_read db; tasks_write := tasks_write db |}).

(** [!rows || rows.length === 0]. *)
Definition none_or_empty {A : Type} (d : option (list A)) : bool :=
  match d with
  | None => true
  | Some [] => true
  | Some _ => false
  end.

(** [rows.map(f)] on an array known to be present. *)
Definition js_map {A B : Type} (f : A -> B) (d : option (list A)) : list B :=
  match d with
  | Some l => map f l
  | None => []
  end.

Definition not_initialized : Response :=
  json_status
    (body_error "Supabase client not initialized. Check environment variables.")
    500.

(** ** app/api/tasks/route.ts *)

Module TasksRoute.

(** [GET]: query parameters [userId], [role], [supervisorId]. *)
Definition GET (rt : Runtime) (userId role supervisorId : JsStr)
  : Db -> Response * Db :=
  try_catch "Error fetching tasks"
    (if negb (supabase rt) then ret not_initialized
     else if negb (truthy userId)
     then ret (json_status (body_error "User ID is required") 400)
     else if eq_lit role "User" then
       r <- select_tasks star (fun t => col_eq (Task.user_id t) userId) ;;
       throw_if (error r) ;;;
       ret (json (body_tasks (data r)))
     else if eq_lit role "Supervisor" then
       su <- select_users User.id
               (fun u => col_eq (User.supervisor_id u) userId) ;;
       throw_if (error su) ;;;
       if none_or_empty (data su)
       then ret (json (body_tasks (Some [])))
       else
         let supervisedUserIds := js_map (fun i => i) (data su) in
         r <- select_tasks_embed username_role
                (fun t => col_in (Task.user_id t) supervisedUserIds) ;;
         throw_if (error r) ;;;
         ret (json (body_tasks (data r)))
     else if eq_lit role "Manager" then
       query <-
         (if truthy supervisorId then
            su <- select_users User.id
                    (fun u => col_eq (User.supervisor_id u) supervisorId) ;;
            throw_if (error su) ;;;
            if none_or_empty (data su)
            then return_ (json (body_tasks (Some [])))
            else
              let supervisedUserIds := js_map (fun i => i) (data su) in
              ret (fun t => col_in (Task.user_id t) supervisedUserIds)
          else ret (fun _ : Task.row => true)) ;;
       r <- select_tasks_embed username_role_supervisor_id query ;;
       throw_if (error r) ;;;
       ret (json (body_tasks (data r)))
     else
       r <- select_tasks star (fun t => col_eq (Task.user_id t) userId) ;;
       throw_if (error r) ;;;
       ret (json (body_tasks (data r)))).


(** The JSON body of [POST]. *)
Record PostBody : Type := {
  post_title : JsStr;
  post_userId : JsStr;
  post_createdBy : JsStr;
  post_role : JsStr;
  post_assignedUserId : JsStr
}.

(** [{ title, user_id: owner, created_by: userId, completed: false }]. *)
Definition new_task (title owner userId : JsStr) : NewTask.t :=
  {| NewTask.title := title;
     NewTask.user_id := owner;
     NewTask.created_by := userId;
     NewTask.completed := false |}.

Definition POST (rt : Runtime) (request : option PostBody)
  : Db -> Response * Db :=
  try_catch "Error creating task"
    (if negb (supabase rt) then ret not_initialized
     else
       b <- request_json request ;;
       let title := post_title b in
       let userId := post_userId b in
       let role := post_role b in
       let assignedUserId := post_assignedUserId b in
       if negb (truthy title)
       then ret (json_status (body_error "Title is required") 400)
       else if eq_lit role "User" then
         if negb (truthy userId)
         then ret (json_status (body_error "User ID is required") 400)
         else
           r <- single_ (insert_task rt true (new_task title userId userId)) ;;
           throw_if (error r) ;;;
           ret (json (body_task (data r)))
       else if eq_lit role "Supervisor" || eq_lit role "Manager" then
         if negb (truthy assignedUserId) then
           r <- insert_task rt true (new_task title userId userId) ;;
           throw_if (error r) ;;;
           ret (json (body_task_rows (data r)))
         else
           when (eq_lit role "Supervisor")
             (u <- single_ (select_users User.supervisor_id
                              (fun u => col_eq (Some (User.id u))
                                               assignedUserId)) ;;
              throw_if (error u) ;;;
              match data u with
              | None =>
                  return_ (json_status
                    (body_error
                       "You can only assign tasks to users you supervise")
                    403)
              | Some supervisor_id =>
                  when (negb (strict_eq (of_column supervisor_id) userId))
                    (return_ (json_status
                       (body_error
                          "You can only assign tasks to users you supervise")
                       403))
              end) ;;;
           r <- single_ (insert_task rt true
                           (new_task title assignedUserId userId)) ;;
           throw_if (error r) ;;;
           ret (json (body_task (data r)))
       else
         if negb (truthy userId)
         then ret (json_status (body_error "User ID is required") 400)
         else
           r <- single_ (insert_task rt true (new_task title userId userId)) ;;
           throw_if (error r) ;;;
           ret (json (body_task (data r)))).

(** The JSON body of [PUT]. *)
Record PutBody : Type := {
  put_id : JsStr;
  put_completed : JsAny;
  put_role : JsStr;
  put_userId : JsStr
}.

(** The update payload of [PUT]: empty unless [completed] was sent,
    and then the value as it was sent together with a timestamp chosen
    by its truthiness. *)
Definition updatePayload (rt : Runtime) (completed : JsAny) : TaskPatch.t :=
  match completed with
  | BUndefined => TaskPatch.empty
  | _ =>
      {| TaskPatch.completed := completed;
         TaskPatch.completed_at :=
           if truthyb completed then Str (toISOString rt) else Null |}
  end.

Definition PUT (rt : Runtime) (request : option PutBody)
  : Db -> Response * Db :=
  try_catch "Error updating task"
    (if negb (supabase rt) then ret not_initialized
     else
       b <- request_json request ;;
       let id := put_id b in
       let completed := put_completed b in
       let role := put_role b in
       let userId := put_userId b in
       if strict_eq id Undefined
       then ret (json_status (body_error "Task ID is required") 400)
       else
         f <- single_ (select_tasks all
                         (fun t => col_eq (Some (Task.id t)) id)) ;;
         throw_if (error f) ;;;
         match data f with
         | None => ret (json_status (body_error "Task not found") 404)
         | Some task =>
             when (eq_lit role "User"
                   && negb (strict_eq (of_column (Task.user_id task)) userId))
               (return_ (json_status
                  (body_error "You can only update your own tasks") 403)) ;;;
             when (eq_lit role "Supervisor")
               (taskOwner <-
                   single_ (select_users User.supervisor_id
                              (fun u => col_eq (Some (User.id u))
                                               (of_column (Task.user_id task)))) ;;
                 throw_if (error taskOwner) ;;;
                 match data taskOwner with
                 | None =>
                     return_ (json_status
                       (body_error
                          "You can only update tasks for users you supervise")
                       403)
                 | Some supervisor_id =>
                     when (negb (strict_eq (of_column supervisor_id) userId))
                       (return_ (json_status
                          (body_error
                             "You can only update tasks for users you supervise")
                          403))
                 end) ;;;
             r <- single_ (update_tasks rt (updatePayload rt completed)
                             (fun t => col_eq (Some (Task.id t)) id)) ;;
             throw_if (error r) ;;;
             ret (json (body_task (data r)))
         end).

(** [DELETE]: query parameters [id], [userId], [role]. *)
Definition DELETE (rt : Runtime) (id userId role : JsStr)
  : Db -> Response * Db :=
  try_catch "Error deleting task"
    (if negb (supabase rt) then ret not_initialized
     else if negb (truthy id) || negb (truthy userId) || negb (truthy role)
     then ret (json_status
                 (body_error "Task ID, User ID, and Role are required") 400)
     else
       f <- single_ (select_tasks all
                       (fun t => col_eq (Some (Task.id t)) id)) ;;
       throw_if (error f) ;;;
       match data f with
       | None => ret (json_status (body_error "Task not found") 404)
       | Some task =>
           when (eq_lit role "User"
                 && negb (strict_eq (of_column (Task.user_id task)) userId))
             (return_ (json_status
                (body_error "You can only delete your own tasks") 403)) ;;;
           when (eq_lit role "Supervisor")
             (taskOwner <-
                 single_ (select_users User.supervisor_id
                            (fun u => col_eq (Some (User.id u))
                                             (of_column (Task.user_id task)))) ;;
               throw_if (error taskOwner) ;;;
               match data taskOwner with
               | None =>
                   return_ (json_status
                     (body_error
                        "You can only delete tasks for users you supervise")
                     403)
               | Some supervisor_id =>
                   when (negb (strict_eq (of_column supervisor_id) userId))
                     (return_ (json_status
                        (body_error
                           "You can only delete tasks for users you supervise")
                        403))
               end) ;;;
           d <- delete_tasks (fun t => col_eq (Some (Task.id t)) id) ;;
           throw_if (error d) ;;;
           ret (json body_success)
       end).

End TasksRoute.

(** The projections the user queries select. *)
Definition id_username (u : User.row) : View.user :=
  {| View.id := Some (User.id u);
     View.uname := Some (User.username u);
     View.urole := None;
     View.usupervisor_id := None |}.

Definition id_username_role (u : User.row) : View.user :=
  {| View.id := Some (User.id u);
     View.uname := Some (User.username u);
     View.urole := Some (User.role u);
     View.usupervisor_id := None |}.

Definition id_username_role_supervisor_id (u : User.row) : View.user :=
  {| View.id := Some (User.id u);
     View.uname := Some (User.username u);
     View.urole := Some (User.role u);
     View.usupervisor_id := Some (User.supervisor_id u) |}.

(** [role !== "Supervisor" && role !== "Manager"] on a stored role. *)
Definition not_supervisor_or_manager (role : string) : bool :=
  negb (String.eqb role "Supervisor") && negb (String.eqb role "Manager").

(** ** app/api/auth/route.ts *)

Module AuthRoute.

(** The JSON body of [POST]; [isLogin] is only tested for truth. *)
Record PostBody : Type := {
  username : JsStr;
  password : JsStr;
  isLogin : bool;
  role : JsStr;
  supervisorId : JsStr
}.

(** The string inside a value already tested truthy. *)
Definition text (v : JsStr) : string :=
  match v with
  | Str s => s
  | _ => ""
  end.

(** [const { password_hash, ...userWithoutPassword } = user]. *)
Definition userWithoutPassword (u : User.row) : View.sanitized :=
  {| View.sid := User.id u;
     View.susername := User.username u;
     View.srole := User.role u;
     View.ssupervisor_id := User.supervisor_id u;
     View.screated_at := User.created_at u |}.

(** [role || "User"]. *)
Definition or_User (role : JsStr) : JsStr :=
  if truthy role then role else Str "User".

Definition POST (rt : Runtime) (request : option PostBody)
  : Db -> Response * Db :=
  try_catch "Internal server error"
    (if negb (supabase rt) then ret not_initialized
     else
       b <- request_json request ;;
       if negb (truthy (username b)) || negb (truthy (password b))
       then ret (json_status
                   (body_error "Username and password are required") 400)
       else if isLogin b then
         u <- single_ (select_users all
                         (fun u => col_eq (Some (User.username u))
                                          (username b))) ;;
         match error u, data u with
         | None, Some user =>
             if negb (compare rt (text (password b)) (User.password_hash user))
             then ret (json_status
                         (body_error "Invalid username or password") 401)
             else ret (json (body_user (userWithoutPassword user)))
         | _, _ =>
             ret (json_status (body_error "Invalid username or password") 401)
         end
       else
         e <- single_ (select_users all
                         (fun u => col_eq (Some (User.username u))
                                          (username b))) ;;
         match data e with
         | Some existingUser =>
             ret (json_status (body_error "Username already exists") 409)
         | None =>
             let salt := genSalt rt in
             let hashedPassword := hash rt (text (password b)) salt in
             supervisor_id <-
               (if truthy (supervisorId b) then
                  s <- single_ (select_users User.role
                                  (fun u => col_eq (Some (User.id u))
                                                   (supervisorId b))) ;;
                  match error s, data s with
                  | None, Some supervisor_role =>
                      if not_supervisor_or_manager supervisor_role
                      then return_ (json_status
                             (body_error
                                "Assigned supervisor must have Supervisor or Manager role")
                             400)
                      else ret (supervisorId b)
                  | _, _ =>
                      return_ (json_status
                                 (body_error "Invalid supervisor ID") 400)
                  end
                else ret Undefined) ;;
             let userData :=
               {| NewUser.username := username b;
                  NewUser.password_hash := Str hashedPassword;
                  NewUser.role := or_User (role b);
                  NewUser.supervisor_id := supervisor_id |} in
             n <- single_ (insert_user rt true userData) ;;
             match error n with
             | Some _ =>
                 ret (json_status (body_error "Error creating user") 500)
             | None =>
                 match data n with
                 | Some newUser =>
                     ret (json (body_user (userWithoutPassword newUser)))
                 | None => throw TypeError
                 end
             end
         end).

(** [GET]: query parameters [role] and [userId]. *)
Definition GET (rt : Runtime) (role userId : JsStr) : Db -> Response * Db :=
  try_catch "Error fetching users"
    (if negb (supabase rt) then ret not_initialized
     else if eq_lit role "supervisors" then
       r <- select_users id_username
              (fun u => col_in (Some (User.role u))
                               ["Supervisor"; "Manager"]) ;;
       throw_if (error r) ;;;
       ret (json (body_supervisors (data r)))
     else if eq_lit role "supervised" && truthy userId then
       c <- single_ (select_users User.role
                       (fun u => col_eq (Some (User.id u)) userId)) ;;
       throw_if (error c) ;;;
       match data c with
       | None => ret (json_status (body_error "Unauthorized") 403)
       | Some currentUser_role =>
           if not_supervisor_or_manager currentUser_role
           then ret (json_status (body_error "Unauthorized") 403)
           else
             r <- select_users id_username_role
                    (fun u => col_eq (User.supervisor_id u) userId) ;;
             throw_if (error r) ;;;
             ret (json (body_users (data r)))
       end
     else if eq_lit role "all" && truthy userId then
       c <- single_ (select_users User.role
                       (fun u => col_eq (Some (User.id u)) userId)) ;;
       throw_if (error c) ;;;
       match data c with
       | None => ret (json_status (body_error "Unauthorized") 403)
       | Some currentUser_role =>
           if negb (String.eqb currentUser_role "Manager")
           then ret (json_status (body_error "Unauthorized") 403)
           else
             r <- select_users id_username_role_supervisor_id
                    (fun _ => true) ;;
             throw_if (error r) ;;;
             ret (json (body_users (data r)))
       end
     else ret (json_status (body_error "Invalid request") 400)).

End AuthRoute.

(** ** The user directory route (GET by [type], PUT) *)

Module UsersRoute.

(** [GET]: query parameters [type] and [userId]. *)
Definition GET (rt : Runtime) (requestType userId : JsStr)
  : Db -> Response * Db :=
  try_catch "Error fetching users"
    (if negb (supabase rt) then ret not_initialized
     else if eq_lit requestType "supervisors" then
       r <- select_users id_username
              (fun u => col_in (Some (User.role u))
                               ["Supervisor"; "Manager"]) ;;
       throw_if (error r) ;;;
       ret (json (body_supervisors (data r)))
     else if negb (truthy userId)
     then ret (json_status (body_error "User ID is required") 400)
     else
       c <- single_ (select_users User.role
                       (fun u => col_eq (Some (User.id u)) userId)) ;;
       throw_if (error c) ;;;
       match data c with
       | None => ret (json_status (body_error "User not found") 404)
       | Some currentUser_role =>
           if eq_lit requestType "supervised" then
             if not_supervisor_or_manager currentUser_role
             then ret (json_status (body_error "Permission denied") 403)
             else
               r <- select_users id_username_role
                      (fun u => col_eq (User.supervisor_id u) userId) ;;
               throw_if (error r) ;;;
               ret (json (body_users (data r)))
           else if eq_lit requestType "all" then
             if negb (String.eqb currentUser_role "Manager")
             then ret (json_status (body_error "Permission denied") 403)
             else
               r <- select_users id_username_role_supervisor_id
                      (fun _ => true) ;;
               throw_if (error r) ;;;
               ret (json (body_users (data r)))
           else ret (json_status (body_error "Invalid request type") 400)
       end).

(** The JSON body of [PUT]. *)
Record PutBody : Type := {
  userId : JsStr;
  targetUserId : JsStr;
  role : JsStr;
  supervisorId : JsStr;
  managerId : JsStr
}.

(** [updateData]: the role only when a Manager sends one, the
    supervisor whenever the key is present, the empty string meaning
    no supervisor. *)
Definition updateData (currentUser_role : string) (role supervisorId : JsStr)
  : UserPatch.t :=
  {| UserPatch.role :=
       if truthy role && String.eqb currentUser_role "Manager"
       then role else Undefined;
     UserPatch.supervisor_id :=
       match supervisorId with
       | Undefined => Undefined
       | v => if strict_eq v (Str "") then Null else v
       end |}.

Definition PUT (rt : Runtime) (request : option PutBody)
  : Db -> Response * Db :=
  try_catch "Error updating user"
    (if negb (supabase rt) then ret not_initialized
     else
       b <- request_json request ;;
       if negb (truthy (userId b)) || negb (truthy (targetUserId b))
       then ret (json_status
                   (body_error "User ID and target user ID are required") 400)
       else
         c <- single_ (select_users User.role
                         (fun u => col_eq (Some (User.id u)) (userId b))) ;;
         throw_if (error c) ;;;
         match data c with
         | None => ret (json_status (body_error "User not found") 404)
         | Some currentUser_role =>
             when (truthy (role b)
                   && negb (String.eqb currentUser_role "Manager"))
               (return_ (json_status (body_error "Permission denied") 403)) ;;;
             when (String.eqb currentUser_role "Supervisor")
               (t <- single_ (select_users User.supervisor_id
                                (fun u => col_eq (Some (User.id u))
                                                 (targetUserId b))) ;;
                throw_if (error t) ;;;
                match data t with
                | None =>
                    return_ (json_status
                      (body_error "You can only update users assigned to you")
                      403)
                | Some supervisor_id =>
                    when (negb (strict_eq (of_column supervisor_id) (userId b)))
                      (return_ (json_status
                         (body_error
                            "You can only update users assigned to you")
                         403))
                end) ;;;
             r <- single_ (update_users
                             (updateData currentUser_role (role b)
                                (supervisorId b))
                             (fun u => col_eq (Some (User.id u))
                                              (targetUserId b))
                             id_username_role_supervisor_id) ;;
             throw_if (error r) ;;;
             ret (json (body_user_view (data r)))
         end).

End UsersRoute.

(** ** app/api/setup-db/route.ts *)

Module SetupDbRoute.

Definition is_some {A : Type} (o : option A) : bool :=
  match o with
  | Some _ => true
  | None => false
  end.

(** The row-level-security probe on [users]: insert a throw-away
    user and delete it again. *)
Definition probe_users (rt : Runtime) : M (option PgError) :=
  let testUsername := "test_" ++ Date_now rt in
  i <- insert_user rt false
         {| NewUser.username := Str testUsername;
            NewUser.password_hash := Str "test_password";
            NewUser.role := Undefined;
            NewUser.supervisor_id := Undefined |} ;;
  match error i with
  | Some insertError => ret (Some insertError)
  | None =>
      delete_users (fun u => col_eq (Some (User.username u))
                                    (Str testUsername)) ;;;
      ret None
  end.

(** The probe on [tasks]: insert a task for the first user there is
    and delete every task of that title. *)
Definition probe_tasks (rt : Runtime) : M (option PgError) :=
  u <- single_ (q <- select_users User.id (fun _ => true) ;; ret (limit 1 q)) ;;
  match data u with
  | None => ret None
  | Some testUser_id =>
      i <- insert_task rt false
             {| NewTask.title := Str "Test task";
                NewTask.user_id := Str testUser_id;
                NewTask.created_by := Undefined;
                NewTask.completed := false |} ;;
      match error i with
      | Some insertTaskError => ret (Some insertTaskError)
      | None =>
          delete_tasks (fun t => String.eqb (Task.title t) "Test task") ;;;
          ret None
      end
  end.

Definition GET (rt : Runtime) : Db -> Response * Db :=
  try_catch_details "Error checking database"
    (if negb (supabase rt) then ret not_initialized
     else
       us <- (q <- select_users User.id (fun _ => true) ;; ret (limit 1 q)) ;;
       ts <- (q <- select_tasks Task.id (fun _ => true) ;; ret (limit 1 q)) ;;
       let usersError := error us in
       let tasksError := error ts in
       rlsUserError <-
         (if negb (is_some usersError) then probe_users rt else ret None) ;;
       rlsTaskError <-
         (if negb (is_some tasksError) && negb (is_some usersError)
          then probe_tasks rt else ret None) ;;
       ret (json (body_setup
         {| usersTableExists := negb (is_some usersError);
            tasksTableExists := negb (is_some tasksError);
            rlsUserIssue := is_some rlsUserError;
            rlsTaskIssue := is_some rlsTaskError;
            rlsUserError := option_map message rlsUserError;
            rlsTaskError := option_map message rlsTaskError;
            usersError := option_map message usersError;
            tasksError := option_map message tasksError |}))).

End SetupDbRoute.

(** ** Every request the application serves *)

Inductive Request : Type :=
| tasks_GET (userId role supervisorId : JsStr)
| tasks_POST (b : option TasksRoute.PostBody)
| tasks_PUT (b : option TasksRoute.PutBody)
| tasks_DELETE (id userId role : JsStr)
| auth_POST (b : option AuthRoute.PostBody)
| auth_GET (role userId : JsStr)
| users_GET (requestType userId : JsStr)
| users_PUT (b : option UsersRoute.PutBody)
| setup_db_GET.

Definition handle (rt : Runtime) (q : Request) : Db -> Response * Db :=
  match q with
  | tasks_GET userId role supervisorId =>
      TasksRoute.GET rt userId role supervisorId
  | tasks_POST b => TasksRoute.POST rt b
  | tasks_PUT b => TasksRoute.PUT rt b
  | tasks_DELETE id userId role => TasksRoute.DELETE rt id userId role
  | auth_POST b => AuthRoute.POST rt b
  | auth_GET role userId => AuthRoute.GET rt role userId
  | users_GET requestType userId => UsersRoute.GET rt requestType userId
  | users_PUT b => UsersRoute.PUT rt b
  | setup_db_GET => SetupDbRoute.GET rt
  end.

(** ** A small populated store *)

Module Sample.

(** The usual spellings of a boolean, and nothing else. *)
Definition spelled (s : string) : option bool :=
  if existsb (String.eqb s) ["true"; "t"; "yes"; "on"; "1"] then Some true
  else if existsb (String.eqb s) ["false"; "f"; "no"; "off"; "0"]
  then Some false
  else None.

Definition rt : Runtime :=
  {| supabase := true;
     toISOString := "2024-05-01T10:00:00.000Z";
     Date_now := "1714557600000";
     uuid_generate_v4 := "new";
     genSalt := "$2a$10$";
     hash := fun password salt => salt ++ password;
     compare := fun password h => String.eqb ("$2a$10$" ++ password) h;
     boolin := spelled |}.

Definition user (i name rl : string) (sup : option string) : User.row :=
  {| User.id := i; User.username := name;
     User.password_hash := "$2a$10$" ++ name;
     User.role := rl; User.supervisor_id := sup;
     User.created_at := "2024-01-01T00:00:00.000Z" |}.

Definition task (i : string) (owner creator : string) (ttl : string)
    (c : bool) : Task.row :=
  {| Task.id := i; Task.user_id := Some owner;
     Task.created_by := Some creator; Task.title := ttl;
     Task.completed := Some c;
     Task.completed_at :=
       if c then Some "2024-02-02T00:00:00.000Z" else None;
     Task.created_at := "2024-01-02T00:00:00.000Z" |}.

Definition mia := user "m1" "mia" "Manager" None.
Definition sam := user "s1" "sam" "Supervisor" None.
Definition uma := user "u1" "uma" "User" (Some "s1").
Definition ugo := user "u2" "ugo" "User" None.

Definition t1 := task "t1" "u1" "s1" "file report" false.
Definition t2 := task "t2" "s1" "s1" "review team" false.
Definition t3 := task "t3" "u2" "u2" "buy milk" false.
Definition t4 := task "t4" "u1" "u1" "book room" true.

Definition db : Db :=
  {| users := [mia; sam; uma; ugo];
     tasks := [t1; t2; t3; t4];
     users_read := true; users_write := true;
     tasks_read := true; tasks_write := true |}.

End Sample.

(** ** Reading a listing *)

(** The task rows of a [{ tasks }] body. *)
Definition listed (r : Response) : option (list Task.row) :=
  match body r with
  | body_tasks (Some l) => Some (map View.row l)
  | _ => None
  end.

(** The task's owner is the user [uid]. *)
Definition owned_by (uid : string) (t : Task.row) : Prop :=
  Task.user_id t = Some uid.

(** The task's owner is a user whose [supervisor_id] is [sid]. *)
Definition owner_supervised_by (db : Db) (sid : string) (t : Task.row) : Prop :=
  exists u, In u (users db)
            /\ User.supervisor_id u = Some sid
            /\ Task.user_id t = Some (User.id u).

(** The primary keys of the two tables. *)
Definition tasks_pkey (db : Db) : Prop := NoDup (map Task.id (tasks db)).
Definition users_pkey (db : Db) : Prop := NoDup (map User.id (users db)).

(** The same task recorded as created by somebody else. *)
Definition created_by_ (who : Task.row -> option string) (t : Task.row)
  : Task.row :=
  {| Task.id := Task.id t;
     Task.user_id := Task.user_id t;
     Task.created_by := who t;
     Task.title := Task.title t;
     Task.completed := Task.completed t;
     Task.completed_at := Task.completed_at t;
     Task.created_at := Task.created_at t |}.

(** What an update request may touch in a task row: nothing but
    [completed] and [completed_at], and nothing at all in a row it does
    not target. *)
Definition frame (targeted : Task.row -> bool) (old new : Task.row) : Prop :=
  Task.id new = Task.id old
  /\ Task.title new = Task.title old
  /\ Task.user_id new = Task.user_id old
  /\ Task.created_by new = Task.created_by old
  /\ Task.created_at new = Task.created_at old
  /\ (targeted old = false -> new = old).

(** The body has an [error] field. *)
Definition has_error (b : Body) : bool :=
  existsb (String.eqb "error") (keys b).

(** The statuses the handlers answer an error with. *)
Definition error_statuses : list Z := [400; 401; 403; 404; 409; 500].

(** A response is either data under status 200 or an error under one
    of the error statuses. *)
Definition well_formed (r : Response) : bool :=
  if has_error (body r)
  then existsb (Z.eqb (status r)) error_statuses
  else Z.eqb (status r) 200.

(** The statuses [PUT] and [DELETE] turn a request away with. *)
Definition refusal (s : Z) : Prop := s = 400 \/ s = 403 \/ s = 500.

(** A computation that, if it leaves the handler early, leaves it
    with a well-formed response. *)
Definition exits_well {A : Type} (m : M A) : Prop :=
  forall db,
    match fst (m db) with
    | Return r => well_formed r = true
    | _ => True
    end.

(** A handler body: the response it computes is well formed too. *)
Definition answers_well (m : M Response) : Prop :=
  forall db,
    match fst (m db) with
    | Val r | Return r => well_formed r = true
    | Throw _ => True
    end.

(** The store operations never leave the handler: they resolve to a
    [{ data, error }] pair. *)
Definition resolves {A : Type} (m : M A) : Prop :=
  forall db, exists a db', m db = (Val a, db').

(** ** What the further properties speak of *)

(** The row [POST] hands to the store for a title, an owner and a
    requester. *)
Definition created (rt : Runtime) (ttl : string) (owner userId : JsStr)
  : Task.row :=
  new_task_row rt ttl (TasksRoute.new_task (Str ttl) owner userId).

(** When an insert into [tasks] is accepted. *)
Definition task_insertable (rt : Runtime) (db : Db) (r : Task.row) : Prop :=
  tasks_write db = true /\ tasks_read db = true
  /\ fk_ok (users db) (Task.user_id r) = true
  /\ fk_ok (users db) (Task.created_by r) = true
  /\ (forall x, In x (tasks db) -> Task.id x <> uuid_generate_v4 rt).


(** The row the signup flow hands to the store. *)
Definition registered (rt : Runtime) (b : AuthRoute.PostBody) : User.row :=
  {| User.id := uuid_generate_v4 rt;
     User.username := AuthRoute.text (AuthRoute.username b);
     User.password_hash :=
       hash rt (AuthRoute.text (AuthRoute.password b)) (genSalt rt);
     User.role := AuthRoute.text (AuthRoute.or_User (AuthRoute.role b));
     User.supervisor_id :=
       if truthy (AuthRoute.supervisorId b)
       then to_column (AuthRoute.supervisorId b) else None;
     User.created_at := toISOString rt |}.

(** When an insert into [users] is accepted. *)
Definition user_insertable (rt : Runtime) (db : Db) (r : User.row) : Prop :=
  users_write db = true /\ users_read db = true
  /\ fk_ok (users db) (User.supervisor_id r) = true
  /\ (forall x, In x (users db) ->
                User.id x <> User.id r /\ User.username x <> User.username r).

(** The supervisor a signup names is acceptable: none is named, or the
    one user with that id has role Supervisor or Manager. *)
Definition supervisor_accepted (db : Db) (supervisorId : JsStr) : Prop :=
  truthy supervisorId = false
  \/ exists s,
       filter (fun u => col_eq (Some (User.id u)) supervisorId) (users db) = [s]
       /\ (User.role s = "Supervisor" \/ User.role s = "Manager").

(** The data-model invariant on supervisors: whoever has a supervisor
    has one that exists with role Supervisor or Manager. *)
Definition supervisors_ok (us : list User.row) : Prop :=
  forall u s,
    In u us -> User.supervisor_id u = Some s ->
    exists v, In v us /\ User.id v = s
              /\ (User.role v = "Supervisor" \/ User.role v = "Manager").

(** What a user update may touch in a user row: nothing but [role] and
    [supervisor_id], and nothing at all in a row it does not target. *)
Definition user_frame (targeted : User.row -> bool) (old new : User.row)
  : Prop :=
  User.id new = User.id old
  /\ User.username new = User.username old
  /\ User.password_hash new = User.password_hash old
  /\ User.created_at new = User.created_at old
  /\ (targeted old = false -> new = old).

(** The id the backend will hand out next is used by no row and
    referred to by none. *)
Definition unused_id (db : Db) (i : string) : Prop :=
  (forall u, In u (users db) ->
             User.id u <> i /\ User.supervisor_id u <> Some i)
  /\ (forall t, In t (tasks db) ->
                Task.id t <> i /\ Task.user_id t <> Some i
                /\ Task.created_by t <> Some i).

(** * Properties *)

(** ** Values and filters *)

Lemma truthy_Str (s : string) : s <> "" -> truthy (Str s) = true.
Proof.
  intros H. unfold truthy.
  apply String.eqb_neq in H. now rewrite H.
Qed.

Lemma truthy_inv (v : JsStr) :
  truthy v = true -> exists s, v = Str s /\ s <> "".
Proof.
  destruct v as [| |s]; simpl; try discriminate.
  intros H. exists s. split; [reflexivity|].
  intros ->. discriminate.
Qed.

Lemma col_eq_Some (c : option string) (s : string) :
  col_eq c (Str s) = true <-> c = Some s.
Proof.
  destruct c as [a|]; simpl.
  - rewrite String.eqb_eq. split; [now intros ->|now intros [= ->]].
  - split; discriminate.
Qed.

Lemma col_in_spec (c : option string) (vs : list string) :
  col_in c vs = true <-> exists a, c = Some a /\ In a vs.
Proof.
  destruct c as [a|]; simpl.
  - rewrite existsb_exists. split.
    + intros (x & Hx & E). apply String.eqb_eq in E. subst x.
      now exists a.
    + intros (x & [= <-] & Hx). exists a. split; [assumption|].
      apply String.eqb_refl.
  - split; [discriminate|]. now intros (x & E & _).
Qed.

Lemma filter_nothing {A : Type} (p : A -> bool) (l : list A) :
  (forall x, In x l -> p x = false) -> filter p l = [].
Proof.
  induction l as [|a l IH]; simpl; intros H; [reflexivity|].
  rewrite (H a (or_introl eq_refl)). apply IH.
  intros x Hx. apply H. now right.
Qed.

(** A key of a duplicate-free column selects exactly its row. *)
Lemma filter_key {A : Type} (key : A -> string) (l : list A) (x : A) :
  NoDup (map key l) -> In x l ->
  filter (fun y => String.eqb (key y) (key x)) l = [x].
Proof.
  induction l as [|a l IH]; simpl; intros ND Hin; [contradiction|].
  inversion ND as [|? ? Hnotin ND']; subst.
  destruct Hin as [->|Hin].
  - rewrite String.eqb_refl. f_equal.
    apply filter_nothing. intros y Hy.
    apply String.eqb_neq. intros E. apply Hnotin.
    rewrite <- E. now apply in_map.
  - assert (String.eqb (key a) (key x) = false) as ->.
    { apply String.eqb_neq. intros E. apply Hnotin.
      rewrite E. now apply in_map. }
    now apply IH.
Qed.

(** The ids of the users supervised by [sid], as the handlers collect
    them. *)
Lemma supervised_ids (db : Db) (sid : string) (i : string) :
  In i (map User.id
          (filter (fun u => col_eq (User.supervisor_id u) (Str sid)) (users db)))
  <-> exists u, In u (users db) /\ User.supervisor_id u = Some sid
                /\ User.id u = i.
Proof.
  rewrite in_map_iff. split.
  - intros (u & E & Hu). apply filter_In in Hu as [Hu Hs].
    apply col_eq_Some in Hs. now exists u.
  - intros (u & Hu & Hs & E). exists u. split; [assumption|].
    apply filter_In. split; [assumption|]. now apply col_eq_Some.
Qed.

Lemma in_supervised (db : Db) (sid : string) (t : Task.row) :
  col_in (Task.user_id t)
    (map User.id
       (filter (fun u => col_eq (User.supervisor_id u) (Str sid)) (users db)))
  = true
  <-> owner_supervised_by db sid t.
Proof.
  rewrite col_in_spec. unfold owner_supervised_by. split.
  - intros (a & E & Ha). apply supervised_ids in Ha as (u & Hu & Hs & <-).
    now exists u.
  - intros (u & Hu & Hs & E). exists (User.id u). split; [assumption|].
    apply supervised_ids. now exists u.
Qed.

Lemma map_row_star (l : list Task.row) : map View.row (map star l) = l.
Proof.
  induction l as [|a l IH]; simpl; [reflexivity|now rewrite IH].
Qed.

Lemma map_row_embed (f : Task.row -> option (option View.owner))
    (l : list Task.row) :
  map View.row (map (fun t => {| View.row := t; View.users := f t |}) l) = l.
Proof.
  induction l as [|a l IH]; simpl; [reflexivity|now rewrite IH].
Qed.

(** ** Task listing *)

(** The listing that [role === "User"] and the default branch share. *)
Lemma GET_own_tasks (db : Db) (uid : string) :
  tasks_read db = true ->
  try_catch "Error fetching tasks"
    (r <- select_tasks star (fun t => col_eq (Task.user_id t) (Str uid)) ;;
     throw_if (error r) ;;;
     ret (json (body_tasks (data r)))) db
  = (json (body_tasks
             (Some (map star
                      (filter (fun t => col_eq (Task.user_id t) (Str uid))
                              (tasks db))))), db).
Proof.
  intros Hr.
  unfold try_catch, bind, select_tasks. rewrite Hr. reflexivity.
Qed.

Lemma own_tasks_spec (db : Db) (uid : string) (t : Task.row) :
  In t (filter (fun t => col_eq (Task.user_id t) (Str uid)) (tasks db))
  <-> In t (tasks db) /\ owned_by uid t.
Proof.
  rewrite filter_In, col_eq_Some. reflexivity.
Qed.

(** C7. A requester with role User who lists tasks gets exactly the
    tasks whose [user_id] is the requester's id: every listed task is
    one of them, and every one of them is listed. *)
Theorem user_listing_own_tasks (rt : Runtime) (db : Db) (uid : string)
    (supervisorId : JsStr) :
  supabase rt = true -> tasks_read db = true -> uid <> "" ->
  exists l,
    TasksRoute.GET rt (Str uid) (Str "User") supervisorId db
    = (json (body_tasks (Some (map star l))), db)
    /\ listed (fst (TasksRoute.GET rt (Str uid) (Str "User") supervisorId db))
       = Some l
    /\ (forall t, In t l <-> In t (tasks db) /\ owned_by uid t).
Proof.
  intros Hs Hr Hu.
  exists (filter (fun t => col_eq (Task.user_id t) (Str uid)) (tasks db)).
  assert (TasksRoute.GET rt (Str uid) (Str "User") supervisorId db
          = (json (body_tasks
               (Some (map star
                  (filter (fun t => col_eq (Task.user_id t) (Str uid))
                          (tasks db))))), db)) as E.
  { unfold TasksRoute.GET. rewrite Hs, (truthy_Str uid Hu). simpl negb.
    cbv iota. change (eq_lit (Str "User") "User") with true. cbv iota.
    now apply GET_own_tasks. }
  split; [exact E|]. split.
  - rewrite E. unfold listed. simpl. now rewrite map_row_star.
  - intros t. apply own_tasks_spec.
Qed.

Lemma user_listing_own_tasks_witness :
  exists l,
    TasksRoute.GET Sample.rt (Str "u1") (Str "User") Null Sample.db
    = (json (body_tasks (Some (map star l))), Sample.db)
    /\ listed (fst (TasksRoute.GET Sample.rt (Str "u1") (Str "User") Null
                      Sample.db)) = Some l
    /\ (forall t, In t l <-> In t (tasks Sample.db) /\ owned_by "u1" t).
Proof.
  apply (user_listing_own_tasks Sample.rt Sample.db "u1" Null);
    [reflexivity | reflexivity | discriminate].
Defined.

Lemma eq_lit_false (v : JsStr) (lit : string) :
  v <> Str lit -> eq_lit v lit = false.
Proof.
  intros H. destruct v as [| |s]; try reflexivity.
  unfold eq_lit, strict_eq. apply String.eqb_neq.
  intros ->. now apply H.
Qed.

(** C10. A listing request whose role is none of User, Supervisor and
    Manager (an absent parameter included) is answered exactly as the
    same request with role User: the two calls return the same response
    and leave the same store, and with the backend up that response
    lists exactly the tasks whose [user_id] is the given [userId]. *)
Theorem unknown_role_lists_as_User (rt : Runtime) (db : Db)
    (userId role supervisorId : JsStr) :
  role <> Str "User" -> role <> Str "Supervisor" -> role <> Str "Manager" ->
  TasksRoute.GET rt userId role supervisorId db
  = TasksRoute.GET rt userId (Str "User") supervisorId db
  /\ (forall uid,
        supabase rt = true -> tasks_read db = true ->
        userId = Str uid -> uid <> "" ->
        exists l,
          listed (fst (TasksRoute.GET rt userId role supervisorId db)) = Some l
          /\ (forall t, In t l <-> In t (tasks db) /\ owned_by uid t)).
Proof.
  intros HU HS HM.
  assert (TasksRoute.GET rt userId role supervisorId db
          = TasksRoute.GET rt userId (Str "User") supervisorId db) as E.
  { unfold TasksRoute.GET.
    rewrite (eq_lit_false _ _ HU), (eq_lit_false _ _ HS),
      (eq_lit_false _ _ HM).
    change (eq_lit (Str "User") "User") with true. reflexivity. }
  split; [exact E|].
  intros uid Hs Hr -> Hu.
  exists (filter (fun t => col_eq (Task.user_id t) (Str uid)) (tasks db)).
  split.
  - rewrite E. unfold TasksRoute.GET.
    rewrite Hs, (truthy_Str uid Hu). simpl negb. cbv iota.
    change (eq_lit (Str "User") "User") with true. cbv iota.
    rewrite (GET_own_tasks db uid Hr). unfold listed. simpl.
    now rewrite map_row_star.
  - intros t. apply own_tasks_spec.
Qed.

Lemma unknown_role_lists_as_User_witness :
  TasksRoute.GET Sample.rt (Str "u1") Null Null Sample.db
  = TasksRoute.GET Sample.rt (Str "u1") (Str "User") Null Sample.db
  /\ exists l,
       listed (fst (TasksRoute.GET Sample.rt (Str "u1") Null Null Sample.db))
       = Some l
       /\ (forall t, In t l <-> In t (tasks Sample.db) /\ owned_by "u1" t).
Proof.
  destruct (unknown_role_lists_as_User Sample.rt Sample.db (Str "u1") Null Null)
    as [E H]; try discriminate.
  split; [exact E|].
  apply (H "u1"); [reflexivity | reflexivity | reflexivity | discriminate].
Defined.

(** The supervisor listing, both when somebody is supervised and when
    nobody is. *)
Lemma GET_supervisor (rt : Runtime) (db : Db) (uid : string)
    (supervisorId : JsStr) :
  supabase rt = true -> users_read db = true -> tasks_read db = true ->
  uid <> "" ->
  exists views,
    TasksRoute.GET rt (Str uid) (Str "Supervisor") supervisorId db
    = (json (body_tasks (Some views)), db)
    /\ map View.row views
       = filter (fun t => col_in (Task.user_id t)
                   (map User.id
                      (filter (fun u => col_eq (User.supervisor_id u) (Str uid))
                              (users db))))
                (tasks db).
Proof.
  intros Hs Hur Htr Hu.
  unfold TasksRoute.GET. rewrite Hs, (truthy_Str uid Hu). simpl negb.
  change (eq_lit (Str "Supervisor") "User") with false.
  change (eq_lit (Str "Supervisor") "Supervisor") with true. cbv iota.
  unfold try_catch, bind, select_users, select_tasks_embed. cbv beta.
  rewrite Hur. simpl.
  destruct (map User.id
              (filter (fun u => col_eq (User.supervisor_id u) (Str uid))
                      (users db))) as [|i ids] eqn:E.
  - simpl. exists []. split; [reflexivity|].
    symmetry. apply filter_nothing.
    intros t _. now destruct (Task.user_id t).
  - simpl. rewrite Hur, Htr. simpl. rewrite map_id.
    eexists. split; [reflexivity|].
    apply map_row_embed.
Qed.

(** C1 (as amended). A requester with role Supervisor who lists tasks
    gets exactly the tasks owned by the users whose [supervisor_id] is
    the requester's id; the requester's own tasks are not added. *)
Theorem supervisor_listing_supervisees (rt : Runtime) (db : Db) (uid : string)
    (supervisorId : JsStr) :
  supabase rt = true -> users_read db = true -> tasks_read db = true ->
  uid <> "" ->
  exists l,
    listed (fst (TasksRoute.GET rt (Str uid) (Str "Supervisor") supervisorId db))
    = Some l
    /\ snd (TasksRoute.GET rt (Str uid) (Str "Supervisor") supervisorId db) = db
    /\ (forall t, In t l <-> In t (tasks db) /\ owner_supervised_by db uid t).
Proof.
  intros Hs Hur Htr Hu.
  destruct (GET_supervisor rt db uid supervisorId Hs Hur Htr Hu)
    as (views & E & Hrows).
  exists (map View.row views). rewrite E.
  split; [reflexivity|]. split; [reflexivity|].
  intros t. rewrite Hrows, filter_In, in_supervised. reflexivity.
Qed.

Lemma supervisor_listing_supervisees_witness :
  exists l,
    listed (fst (TasksRoute.GET Sample.rt (Str "s1") (Str "Supervisor") Null
                   Sample.db)) = Some l
    /\ snd (TasksRoute.GET Sample.rt (Str "s1") (Str "Supervisor") Null
              Sample.db) = Sample.db
    /\ (forall t, In t l <->
                  In t (tasks Sample.db)
                  /\ owner_supervised_by Sample.db "s1" t).
Proof.
  apply (supervisor_listing_supervisees Sample.rt Sample.db "s1" Null);
    [reflexivity | reflexivity | reflexivity | discriminate].
Defined.

(** C1 (as stated) fails: supervisor sam owns task t2 and supervises
    uma, who owns t1 and t4; sam's listing is [t1; t4], so it is not
    the set of tasks owned by sam or by sam's supervisees. *)
Lemma supervisor_listing_omits_own_tasks :
  exists l,
    listed (fst (TasksRoute.GET Sample.rt (Str "s1") (Str "Supervisor") Null
                   Sample.db)) = Some l
    /\ ~ (forall t, In t l <->
                    In t (tasks Sample.db)
                    /\ (owned_by "s1" t
                        \/ owner_supervised_by Sample.db "s1" t)).
Proof.
  exists [Sample.t1; Sample.t4]. split; [reflexivity|].
  intros H.
  assert (In Sample.t2 [Sample.t1; Sample.t4]) as Hin.
  { apply H. split.
    - simpl. right. left. reflexivity.
    - left. reflexivity. }
  simpl in Hin. destruct Hin as [E|[E|[]]]; discriminate E.
Qed.

(** The manager listing with a supervisor filter. *)
Lemma GET_manager_filtered (rt : Runtime) (db : Db) (uid sid : string) :
  supabase rt = true -> users_read db = true -> tasks_read db = true ->
  uid <> "" -> sid <> "" ->
  exists views,
    TasksRoute.GET rt (Str uid) (Str "Manager") (Str sid) db
    = (json (body_tasks (Some views)), db)
    /\ map View.row views
       = filter (fun t => col_in (Task.user_id t)
                   (map User.id
                      (filter (fun u => col_eq (User.supervisor_id u) (Str sid))
                              (users db))))
                (tasks db).
Proof.
  intros Hs Hur Htr Hu Hsid.
  unfold TasksRoute.GET.
  rewrite Hs, (truthy_Str uid Hu), (truthy_Str sid Hsid). simpl negb.
  change (eq_lit (Str "Manager") "User") with false.
  change (eq_lit (Str "Manager") "Supervisor") with false.
  change (eq_lit (Str "Manager") "Manager") with true. cbv iota.
  unfold try_catch, bind, select_users, select_tasks_embed. cbv beta.
  rewrite Hur. simpl.
  destruct (map User.id
              (filter (fun u => col_eq (User.supervisor_id u) (Str sid))
                      (users db))) as [|i ids] eqn:E.
  - simpl. exists []. split; [reflexivity|].
    symmetry. apply filter_nothing.
    intros t _. now destruct (Task.user_id t).
  - simpl. rewrite Hur, Htr. simpl. rewrite map_id.
    eexists. split; [reflexivity|].
    apply map_row_embed.
Qed.

(** The manager listing without a filter: [supervisorId] absent or
    empty. *)
Lemma GET_manager_all (rt : Runtime) (db : Db) (uid : string)
    (supervisorId : JsStr) :
  supabase rt = true -> users_read db = true -> tasks_read db = true ->
  uid <> "" -> truthy supervisorId = false ->
  exists views,
    TasksRoute.GET rt (Str uid) (Str "Manager") supervisorId db
    = (json (body_tasks (Some views)), db)
    /\ map View.row views = tasks db.
Proof.
  intros Hs Hur Htr Hu Hno.
  unfold TasksRoute.GET.
  rewrite Hs, (truthy_Str uid Hu), Hno. simpl negb.
  change (eq_lit (Str "Manager") "User") with false.
  change (eq_lit (Str "Manager") "Supervisor") with false.
  change (eq_lit (Str "Manager") "Manager") with true. cbv iota.
  unfold try_catch, bind, select_tasks_embed, ret. cbv beta.
  rewrite Hur, Htr. simpl.
  eexists. split; [reflexivity|].
  rewrite map_row_embed.
  induction (tasks db) as [|a l IH]; simpl; [reflexivity|now rewrite IH].
Qed.

Lemma filter_created_by (who : Task.row -> option string)
    (p : option string -> bool) (l : list Task.row) :
  filter (fun t => p (Task.user_id t)) (map (created_by_ who) l)
  = map (created_by_ who) (filter (fun t => p (Task.user_id t)) l).
Proof.
  induction l as [|a l IH]; simpl; [reflexivity|].
  destruct (p (Task.user_id a)); simpl; now rewrite IH.
Qed.

(** C6. A Manager who lists tasks with a supervisor filter [sid] gets
    exactly the tasks whose owner has [supervisor_id = sid]; recording
    other creators for the tasks changes nothing but that field of the
    listed rows; and with no filter the listing is the whole table. *)
Theorem manager_listing (rt : Runtime) (db : Db) (uid : string) :
  supabase rt = true -> users_read db = true -> tasks_read db = true ->
  uid <> "" ->
  (forall sid, sid <> "" ->
     exists l,
       listed (fst (TasksRoute.GET rt (Str uid) (Str "Manager") (Str sid) db))
       = Some l
       /\ (forall t, In t l <-> In t (tasks db) /\ owner_supervised_by db sid t)
       /\ (forall who,
             listed (fst (TasksRoute.GET rt (Str uid) (Str "Manager") (Str sid)
                            (with_tasks db (map (created_by_ who) (tasks db)))))
             = Some (map (created_by_ who) l)))
  /\ (forall supervisorId, truthy supervisorId = false ->
        listed (fst (TasksRoute.GET rt (Str uid) (Str "Manager") supervisorId db))
        = Some (tasks db)).
Proof.
  intros Hs Hur Htr Hu. split.
  - intros sid Hsid.
    destruct (GET_manager_filtered rt db uid sid Hs Hur Htr Hu Hsid)
      as (views & E & Hrows).
    exists (map View.row views). rewrite E. split; [reflexivity|]. split.
    + intros t. rewrite Hrows, filter_In, in_supervised. reflexivity.
    + intros who.
      destruct (GET_manager_filtered rt
                  (with_tasks db (map (created_by_ who) (tasks db)))
                  uid sid Hs Hur Htr Hu Hsid) as (views' & E' & Hrows').
      rewrite E'. unfold listed. simpl. f_equal.
      rewrite Hrows', Hrows. simpl.
      apply (filter_created_by who (fun c => col_in c _)).
  - intros supervisorId Hno.
    destruct (GET_manager_all rt db uid supervisorId Hs Hur Htr Hu Hno)
      as (views & E & Hrows).
    rewrite E. unfold listed. simpl. now rewrite Hrows.
Qed.

Lemma manager_listing_witness :
  (exists l,
     listed (fst (TasksRoute.GET Sample.rt (Str "m1") (Str "Manager")
                    (Str "s1") Sample.db)) = Some l
     /\ (forall t, In t l <->
                   In t (tasks Sample.db)
                   /\ owner_supervised_by Sample.db "s1" t)
     /\ (forall who,
           listed (fst (TasksRoute.GET Sample.rt (Str "m1") (Str "Manager")
                          (Str "s1")
                          (with_tasks Sample.db
                             (map (created_by_ who) (tasks Sample.db)))))
           = Some (map (created_by_ who) l)))
  /\ listed (fst (TasksRoute.GET Sample.rt (Str "m1") (Str "Manager")
                    Null Sample.db))
     = Some (tasks Sample.db).
Proof.
  destruct (manager_listing Sample.rt Sample.db "m1") as [Hf Ha];
    [reflexivity | reflexivity | reflexivity | discriminate |].
  split.
  - apply (Hf "s1"). discriminate.
  - apply (Ha Null). reflexivity.
Defined.

(** ** Task update and delete *)

(** Unfolds a handler down to the store and evaluates what is decided;
    [step] then splits on the next test the handler makes. *)
Ltac run :=
  repeat progress
    (unfold try_catch, try_catch_details, bind, ret, return_, throw_if, throw,
       when, single_, request_json,
       select_tasks, select_users, select_tasks_embed,
       update_tasks, delete_tasks, all;
     cbv beta);
  repeat rewrite map_id.

#[local] Arguments col_eq : simpl never.
#[local] Arguments col_in : simpl never.
#[local] Arguments strict_eq : simpl never.
#[local] Arguments eq_lit : simpl never.
#[local] Arguments truthy : simpl never.
#[local] Arguments TaskPatch.apply : simpl never.
#[local] Arguments TasksRoute.updatePayload : simpl never.

Lemma refusal_not_200 (s : Z) : refusal s -> s <> 200.
Proof. intros [E | [E | E]]; rewrite E; discriminate. Qed.

Lemma refusal_not_404 (s : Z) : refusal s -> s <> 404.
Proof. intros [E | [E | E]]; rewrite E; discriminate. Qed.

(** The request was turned away and the store is as it was. *)
Ltac refused :=
  left; split;
  [ reflexivity
  | first [ left; reflexivity
          | right; left; reflexivity
          | right; right; reflexivity ] ].

(** [PUT] either leaves the store as it was and answers with an error,
    or found exactly one row for the id and rewrote it in one update. *)
Lemma PUT_cases (rt : Runtime) (req : option TasksRoute.PutBody) (db : Db) :
  (snd (TasksRoute.PUT rt req db) = db
   /\ refusal (status (fst (TasksRoute.PUT rt req db))))
  \/ (exists b t,
        req = Some b
        /\ TasksRoute.put_completed b <> BUndefined
        /\ filter (fun t => col_eq (Some (Task.id t)) (TasksRoute.put_id b))
                  (tasks db) = [t]
        /\ tasks_write db = true /\ tasks_read db = true
        /\ TaskPatch.readable rt
             (TasksRoute.updatePayload rt (TasksRoute.put_completed b)) = true
        /\ TasksRoute.PUT rt req db
           = (json (body_task
                      (Some (TaskPatch.apply rt
                               (TasksRoute.updatePayload rt
                                  (TasksRoute.put_completed b)) t))),
              snd (update_tasks rt
                     (TasksRoute.updatePayload rt (TasksRoute.put_completed b))
                     (fun t => col_eq (Some (Task.id t)) (TasksRoute.put_id b))
                     db))).
Proof.
  unfold TasksRoute.PUT. run.
  destruct (supabase rt); simpl; [|refused].
  destruct req as [b|]; simpl; [|refused].
  destruct (strict_eq (TasksRoute.put_id b) Undefined); simpl; [refused|].
  destruct (tasks_read db) eqn:Htr; simpl; [|refused].
  destruct (filter (fun t => col_eq (Some (Task.id t)) (TasksRoute.put_id b))
              (tasks db)) as [|t [|t' rest]] eqn:F; simpl; try refused.
  destruct (eq_lit (TasksRoute.put_role b) "User"
            && negb (strict_eq (of_column (Task.user_id t))
                       (TasksRoute.put_userId b))); simpl; [refused|].
  assert (TasksRoute.put_completed b = BUndefined ->
          TaskPatch.is_empty
            (TasksRoute.updatePayload rt (TasksRoute.put_completed b)) = true)
    as Hempty by (now intros ->).
  destruct (eq_lit (TasksRoute.put_role b) "Supervisor"); simpl.
  - destruct (users_read db); simpl; [|refused].
    destruct (filter _ (users db)) as [|o [|o' more]]; simpl; try refused.
    destruct (strict_eq (of_column (User.supervisor_id o))
                (TasksRoute.put_userId b)); simpl; [|refused].
    rewrite Htr. destruct (tasks_write db) eqn:Htw; simpl; [|refused].
    destruct (TaskPatch.is_empty _) eqn:He; simpl; [refused|].
    destruct (TaskPatch.readable rt _) eqn:Hread; simpl; [|refused].
    rewrite F. simpl. right. exists b, t.
    repeat split; try assumption.
    + intros Hc. discriminate (Hempty Hc).
    + now rewrite He, Hread.
  - rewrite Htr. destruct (tasks_write db) eqn:Htw; simpl; [|refused].
    destruct (TaskPatch.is_empty _) eqn:He; simpl; [refused|].
    destruct (TaskPatch.readable rt _) eqn:Hread; simpl; [|refused].
    rewrite F. simpl. right. exists b, t.
    repeat split; try assumption.
    + intros Hc. discriminate (Hempty Hc).
    + now rewrite He, Hread.
Qed.

Lemma updatePayload_is_empty (rt : Runtime) (c : JsAny) :
  c <> BUndefined ->
  TaskPatch.is_empty (TasksRoute.updatePayload rt c) = false.
Proof. intros Hc. destruct c; [now elim Hc| | | |]; reflexivity. Qed.

Lemma updatePayload_readable (rt : Runtime) (c : JsAny) :
  TaskPatch.readable rt (TasksRoute.updatePayload rt c) = true
  <-> to_columnb rt c <> None.
Proof.
  unfold TaskPatch.readable.
  destruct c; simpl; try (split; [discriminate | reflexivity]);
    destruct (boolin rt _); simpl; split;
      congruence || discriminate || reflexivity.
Qed.

(** The requests [PUT] lets through: the store is up, the id selects
    one row, the role checks pass for a role other than Supervisor, and
    the backend can read what was sent as [completed]. *)
Lemma PUT_goes_through (rt : Runtime) (b : TasksRoute.PutBody) (db : Db)
    (t : Task.row) :
  supabase rt = true -> tasks_read db = true -> tasks_write db = true ->
  TasksRoute.put_id b <> Undefined ->
  TasksRoute.put_completed b <> BUndefined ->
  to_columnb rt (TasksRoute.put_completed b) <> None ->
  filter (fun t => col_eq (Some (Task.id t)) (TasksRoute.put_id b)) (tasks db)
  = [t] ->
  eq_lit (TasksRoute.put_role b) "Supervisor" = false ->
  (eq_lit (TasksRoute.put_role b) "User" = true ->
   strict_eq (of_column (Task.user_id t)) (TasksRoute.put_userId b) = true) ->
  status (fst (TasksRoute.PUT rt (Some b) db)) = 200.
Proof.
  intros Hs Htr Htw Hid Hc Hread F HS HU.
  apply (updatePayload_is_empty rt) in Hc.
  apply (updatePayload_readable rt) in Hread.
  unfold TasksRoute.PUT. run. rewrite Hs. simpl.
  destruct (strict_eq (TasksRoute.put_id b) Undefined) eqn:E.
  { destruct (TasksRoute.put_id b); try discriminate E. now elim Hid. }
  simpl. rewrite Htr. simpl. rewrite F. simpl.
  destruct (eq_lit (TasksRoute.put_role b) "User") eqn:EU; simpl.
  - rewrite (HU eq_refl). simpl. rewrite HS. simpl. rewrite Htr, Htw. simpl.
    rewrite Hc, Hread. simpl. rewrite F. reflexivity.
  - rewrite HS. simpl. rewrite Htr, Htw. simpl.
    rewrite Hc, Hread. simpl. rewrite F. reflexivity.
Qed.

(** The table after the one update of [PUT]. *)
Lemma tasks_after_update (rt : Runtime) (payload : TaskPatch.t)
    (p : Task.row -> bool) (db : Db) :
  tasks_write db = true -> tasks_read db = true ->
  TaskPatch.is_empty payload = false ->
  TaskPatch.readable rt payload = true ->
  snd (update_tasks rt payload p db)
  = with_tasks db
      (map (fun r => if p r then TaskPatch.apply rt payload r else r)
           (tasks db)).
Proof.
  intros Hw Hr He Hread. unfold update_tasks. now rewrite Hw, Hr, He, Hread.
Qed.

(** C4 (where the code departs). [PUT] never checks that [completed]
    is a boolean: it chooses the timestamp by the truthiness of what
    was sent, while the backend reads the same value by its own rules.
    A non-empty string that the backend reads as false, ["false"] for
    one, is truthy: the update is answered with status 200 and leaves
    the targeted row not completed and with a completion time, the
    pair the handler's two branches are there to exclude. *)
Theorem completed_string_sets_timestamp_without_flag (rt : Runtime)
    (b : TasksRoute.PutBody) (s : string) (db : Db) (t : Task.row) :
  supabase rt = true -> tasks_read db = true -> tasks_write db = true ->
  TasksRoute.put_id b <> Undefined ->
  filter (fun t => col_eq (Some (Task.id t)) (TasksRoute.put_id b)) (tasks db)
  = [t] ->
  eq_lit (TasksRoute.put_role b) "Supervisor" = false ->
  (eq_lit (TasksRoute.put_role b) "User" = true ->
   strict_eq (of_column (Task.user_id t)) (TasksRoute.put_userId b) = true) ->
  TasksRoute.put_completed b = BStr s -> s <> "" ->
  boolin rt s = Some false ->
  let resp := fst (TasksRoute.PUT rt (Some b) db) in
  let db' := snd (TasksRoute.PUT rt (Some b) db) in
  let targeted t := col_eq (Some (Task.id t)) (TasksRoute.put_id b) = true in
  status resp = 200
  /\ (exists t', body resp = body_task (Some t')
                 /\ In t' (tasks db') /\ targeted t')
  /\ (forall t', In t' (tasks db') -> targeted t' ->
         Task.completed t' = Some false
         /\ Task.completed_at t' = Some (toISOString rt)
         /\ ~ (Task.completed t' = Some true <-> Task.completed_at t' <> None)).
Proof.
  intros Hs Htr Htw Hid F HS HU Hc Hne Hin resp db' targeted.
  assert (truthyb (BStr s) = true) as Htruthy.
  { simpl. destruct (String.eqb_spec s ""); [now elim Hne | reflexivity]. }
  assert (TasksRoute.updatePayload rt (TasksRoute.put_completed b)
          = {| TaskPatch.completed := BStr s;
               TaskPatch.completed_at := Str (toISOString rt) |}) as Hp.
  { rewrite Hc. unfold TasksRoute.updatePayload. now rewrite Htruthy. }
  assert (to_columnb rt (TasksRoute.put_completed b) = Some (Some false))
    as Hcol.
  { rewrite Hc. simpl. now rewrite Hin. }
  assert (status resp = 200) as H200.
  { apply (PUT_goes_through rt b db t); try assumption.
    - rewrite Hc. discriminate.
    - rewrite Hcol. discriminate. }
  destruct (PUT_cases rt (Some b) db)
    as [[_ Hst] | (b0 & t0 & [= <-] & _ & F0 & _ & _ & Hread & E)].
  { now elim (refusal_not_200 _ Hst). }
  rewrite F in F0. injection F0 as <-.
  assert (forall r, TaskPatch.apply rt
                      (TasksRoute.updatePayload rt (TasksRoute.put_completed b))
                      r
                    = {| Task.id := Task.id r;
                         Task.user_id := Task.user_id r;
                         Task.created_by := Task.created_by r;
                         Task.title := Task.title r;
                         Task.completed := Some false;
                         Task.completed_at := Some (toISOString rt);
                         Task.created_at := Task.created_at r |}) as Happly.
  { intros r. rewrite Hp. unfold TaskPatch.apply. simpl. now rewrite Hin. }
  assert (In t (tasks db)
          /\ col_eq (Some (Task.id t)) (TasksRoute.put_id b) = true)
    as [Hint Hidt].
  { apply (filter_In
             (fun t => col_eq (Some (Task.id t)) (TasksRoute.put_id b))).
    rewrite F. now left. }
  split; [exact H200|].
  subst resp db' targeted. rewrite E. simpl fst. simpl snd.
  rewrite tasks_after_update;
    [|assumption|assumption| rewrite Hp; reflexivity | exact Hread].
  simpl. split.
  - eexists. split; [reflexivity|]. split.
    + apply in_map_iff. exists t. split; [|assumption]. now rewrite Hidt.
    + rewrite Happly. exact Hidt.
  - intros t' Hin' Hid'. apply in_map_iff in Hin' as (r & Er & _).
    destruct (col_eq (Some (Task.id r)) (TasksRoute.put_id b)) eqn:Hr'.
    + subst t'. rewrite Happly. simpl.
      split; [reflexivity|]. split; [reflexivity|].
      intros [_ H]. discriminate H. discriminate.
    + subst t'. congruence.
Qed.

Lemma completed_string_sets_timestamp_without_flag_witness :
  let b := {| TasksRoute.put_id := Str "t1";
              TasksRoute.put_completed := BStr "false";
              TasksRoute.put_role := Str "User";
              TasksRoute.put_userId := Str "u1" |} in
  status (fst (TasksRoute.PUT Sample.rt (Some b) Sample.db)) = 200
  /\ exists t',
       body (fst (TasksRoute.PUT Sample.rt (Some b) Sample.db))
       = body_task (Some t')
       /\ In t' (tasks (snd (TasksRoute.PUT Sample.rt (Some b) Sample.db)))
       /\ Task.id t' = "t1"
       /\ Task.completed t' = Some false
       /\ Task.completed_at t' = Some (toISOString Sample.rt).
Proof.
  intros b.
  destruct (completed_string_sets_timestamp_without_flag
              Sample.rt b "false" Sample.db Sample.t1)
    as (H200 & (t' & Hb & Hin & Hid) & Hall);
    try reflexivity; try discriminate.
  split; [exact H200|].
  exists t'. destruct (Hall t' Hin Hid) as (Hc & Hat & _).
  split; [exact Hb|]. split; [exact Hin|]. split; [|split; assumption].
  apply col_eq_Some in Hid. now injection Hid.
Defined.

Lemma Forall2_frame_refl (targeted : Task.row -> bool) (l : list Task.row) :
  Forall2 (frame targeted) l l.
Proof.
  induction l as [|a l IH]; constructor; [|exact IH].
  unfold frame. repeat split.
Qed.

Lemma Forall2_frame_update (rt : Runtime) (payload : TaskPatch.t)
    (p : Task.row -> bool) (l : list Task.row) :
  Forall2 (frame p) l
    (map (fun r => if p r then TaskPatch.apply rt payload r else r) l).
Proof.
  induction l as [|a l IH]; simpl; constructor; [|exact IH].
  destruct (p a) eqn:E; unfold frame; repeat split; intros; congruence.
Qed.

(** C9. Whatever the update request, everything in the store but the
    tasks table is as before, and every task row is still there, in
    place, with its id, title,
    user_id, created_by and created_at as before; a row the request
    does not target is unchanged altogether; and when the body has no
    [completed] field the update payload is empty and the whole store
    is unchanged. *)
Theorem update_changes_only_completion (rt : Runtime)
    (req : option TasksRoute.PutBody) (db : Db) :
  let db' := snd (TasksRoute.PUT rt req db) in
  db' = with_tasks db (tasks db')
  /\ Forall2
       (frame (fun t =>
                 match req with
                 | Some b => col_eq (Some (Task.id t)) (TasksRoute.put_id b)
                 | None => false
                 end))
       (tasks db) (tasks db')
  /\ (forall b, req = Some b -> TasksRoute.put_completed b = BUndefined ->
        TasksRoute.updatePayload rt (TasksRoute.put_completed b)
        = TaskPatch.empty
        /\ db' = db).
Proof.
  intros db'. subst db'.
  destruct (PUT_cases rt req db)
    as [[Hsame _] | (b0 & t & -> & Hc & F & Hw & Hr & Hread & E)].
  - rewrite Hsame. split; [now destruct db|]. split.
    + apply Forall2_frame_refl.
    + intros b _ Hu. rewrite Hu. split; reflexivity.
  - rewrite E. simpl snd.
    rewrite tasks_after_update; try assumption.
    + simpl. split; [reflexivity|]. split.
      * apply Forall2_frame_update.
      * intros b [= <-] Hu. now elim Hc.
    + now apply updatePayload_is_empty.
Qed.

Lemma update_changes_only_completion_witness :
  let b := {| TasksRoute.put_id := Str "t1";
              TasksRoute.put_completed := BUndefined;
              TasksRoute.put_role := Str "User";
              TasksRoute.put_userId := Str "u1" |} in
  TasksRoute.updatePayload Sample.rt (TasksRoute.put_completed b)
  = TaskPatch.empty
  /\ snd (TasksRoute.PUT Sample.rt (Some b) Sample.db) = Sample.db.
Proof.
  intros b.
  destruct (update_changes_only_completion Sample.rt (Some b) Sample.db)
    as (_ & _ & H).
  apply (H b); reflexivity.
Defined.

(** [DELETE] either leaves the store as it was and answers with an
    error, or found exactly one row for the id and removed it. *)
Lemma DELETE_cases (rt : Runtime) (id userId role : JsStr) (db : Db) :
  (snd (TasksRoute.DELETE rt id userId role db) = db
   /\ refusal (status (fst (TasksRoute.DELETE rt id userId role db))))
  \/ (exists t,
        filter (fun t => col_eq (Some (Task.id t)) id) (tasks db) = [t]
        /\ TasksRoute.DELETE rt id userId role db
           = (json body_success,
              with_tasks db
                (filter (fun t => negb (col_eq (Some (Task.id t)) id))
                        (tasks db)))).
Proof.
  unfold TasksRoute.DELETE. run.
  destruct (supabase rt); simpl; [|refused].
  destruct (negb (truthy id) || negb (truthy userId) || negb (truthy role));
    simpl; [refused|].
  destruct (tasks_read db) eqn:Htr; simpl; [|refused].
  destruct (filter (fun t => col_eq (Some (Task.id t)) id) (tasks db))
    as [|t [|t' rest]] eqn:F; simpl; try refused.
  destruct (eq_lit role "User"
            && negb (strict_eq (of_column (Task.user_id t)) userId)); simpl;
    [refused|].
  destruct (eq_lit role "Supervisor"); simpl.
  - destruct (users_read db); simpl; [|refused].
    destruct (filter _ (users db)) as [|o [|o' more]]; simpl; try refused.
    destruct (strict_eq (of_column (User.supervisor_id o)) userId); simpl;
      [|refused].
    destruct (tasks_write db) eqn:Htw; simpl; [|refused].
    right. exists t. split; reflexivity.
  - destruct (tasks_write db) eqn:Htw; simpl; [|refused].
    right. exists t. split; reflexivity.
Qed.

(** An update for an id no task row has: the row fetch resolves to an
    error, which is thrown before the not-found test. *)
Lemma PUT_missing_task (rt : Runtime) (b : TasksRoute.PutBody) (db : Db) :
  supabase rt = true ->
  TasksRoute.put_id b <> Undefined ->
  (forall t, In t (tasks db) ->
             col_eq (Some (Task.id t)) (TasksRoute.put_id b) = false) ->
  TasksRoute.PUT rt (Some b) db
  = (json_status (body_error "Error updating task") 500, db).
Proof.
  intros Hs Hid Hno.
  unfold TasksRoute.PUT. run. rewrite Hs. simpl.
  destruct (strict_eq (TasksRoute.put_id b) Undefined) eqn:E.
  { destruct (TasksRoute.put_id b); try discriminate E. now elim Hid. }
  simpl. destruct (tasks_read db); simpl; [|reflexivity].
  now rewrite (filter_nothing _ _ Hno).
Qed.

Lemma DELETE_missing_task (rt : Runtime) (id userId role : JsStr) (db : Db) :
  supabase rt = true ->
  truthy id = true -> truthy userId = true -> truthy role = true ->
  (forall t, In t (tasks db) -> col_eq (Some (Task.id t)) id = false) ->
  TasksRoute.DELETE rt id userId role db
  = (json_status (body_error "Error deleting task") 500, db).
Proof.
  intros Hs Hid Hu Hr Hno.
  unfold TasksRoute.DELETE. run. rewrite Hs, Hid, Hu, Hr. simpl.
  destruct (tasks_read db); simpl; [|reflexivity].
  now rewrite (filter_nothing _ _ Hno).
Qed.

(** C2 (what the code does instead). For a task id that no row has, an
    update and a delete are both answered with status 500 and the
    message of the [catch] block, never with 404; more, no update and
    no delete request at all is answered with 404. *)
Theorem missing_task_is_500_not_404 (rt : Runtime) (db : Db) (i : string) :
  supabase rt = true -> i <> "" ->
  (forall t, In t (tasks db) -> Task.id t <> i) ->
  (forall completed role userId,
     TasksRoute.PUT rt
       (Some {| TasksRoute.put_id := Str i;
                TasksRoute.put_completed := completed;
                TasksRoute.put_role := role;
                TasksRoute.put_userId := userId |}) db
     = (json_status (body_error "Error updating task") 500, db))
  /\ (forall userId role,
        truthy userId = true -> truthy role = true ->
        TasksRoute.DELETE rt (Str i) userId role db
        = (json_status (body_error "Error deleting task") 500, db))
  /\ (forall req, status (fst (TasksRoute.PUT rt req db)) <> 404)
  /\ (forall id userId role,
        status (fst (TasksRoute.DELETE rt id userId role db)) <> 404).
Proof.
  intros Hs Hi Hno.
  assert (forall t, In t (tasks db) -> col_eq (Some (Task.id t)) (Str i) = false)
    as Hno'.
  { intros t Hin. destruct (col_eq (Some (Task.id t)) (Str i)) eqn:E;
      [|reflexivity].
    apply col_eq_Some in E. injection E as E. now elim (Hno t Hin). }
  repeat split.
  - intros completed role userId.
    apply PUT_missing_task; [assumption | discriminate | exact Hno'].
  - intros userId role Hu Hr.
    apply DELETE_missing_task; try assumption. now apply truthy_Str.
  - intros req.
    destruct (PUT_cases rt req db)
      as [[_ Hst] | (b0 & t & _ & _ & _ & _ & _ & _ & E)].
    + now apply refusal_not_404.
    + rewrite E. discriminate.
  - intros id userId role.
    destruct (DELETE_cases rt id userId role db) as [[_ Hst] | (t & _ & E)].
    + now apply refusal_not_404.
    + rewrite E. discriminate.
Qed.

Lemma missing_task_is_500_not_404_witness :
  TasksRoute.PUT Sample.rt
    (Some {| TasksRoute.put_id := Str "t9";
             TasksRoute.put_completed := BVal true;
             TasksRoute.put_role := Str "User";
             TasksRoute.put_userId := Str "u1" |}) Sample.db
  = (json_status (body_error "Error updating task") 500, Sample.db)
  /\ TasksRoute.DELETE Sample.rt (Str "t9") (Str "u1") (Str "User") Sample.db
     = (json_status (body_error "Error deleting task") 500, Sample.db).
Proof.
  destruct (missing_task_is_500_not_404 Sample.rt Sample.db "t9")
    as (HP & HD & _).
  - reflexivity.
  - discriminate.
  - intros t [<-|[<-|[<-|[<-|[]]]]]; discriminate.
  - split; [apply HP | apply HD; reflexivity].
Defined.

(** C5. A requester with role User who asks to delete an existing task
    owned by somebody else is answered with status 403, and the store,
    the task included, is as it was. *)
Theorem user_cannot_delete_others_task (rt : Runtime) (db : Db)
    (t : Task.row) (uid : string) :
  supabase rt = true -> tasks_read db = true ->
  tasks_pkey db -> In t (tasks db) ->
  Task.id t <> "" -> uid <> "" ->
  Task.user_id t <> Some uid ->
  TasksRoute.DELETE rt (Str (Task.id t)) (Str uid) (Str "User") db
  = (json_status (body_error "You can only delete your own tasks") 403, db)
  /\ In t (tasks (snd (TasksRoute.DELETE rt (Str (Task.id t)) (Str uid)
                         (Str "User") db))).
Proof.
  intros Hs Htr Hpk Hin Hid Hu Hother.
  assert (TasksRoute.DELETE rt (Str (Task.id t)) (Str uid) (Str "User") db
          = (json_status (body_error "You can only delete your own tasks") 403,
             db)) as E.
  { unfold TasksRoute.DELETE. run.
    rewrite Hs, (truthy_Str _ Hid), (truthy_Str _ Hu). simpl.
    rewrite Htr. simpl.
    change (fun t0 : Task.row => col_eq (Some (Task.id t0)) (Str (Task.id t)))
      with (fun t0 : Task.row => String.eqb (Task.id t0) (Task.id t)).
    rewrite (filter_key Task.id (tasks db) t Hpk Hin). simpl.
    assert (strict_eq (of_column (Task.user_id t)) (Str uid) = false) as ->.
    { destruct (Task.user_id t) as [o|]; [|reflexivity].
      unfold of_column, strict_eq. apply String.eqb_neq.
      intros ->. now apply Hother. }
    reflexivity. }
  split; [exact E|]. now rewrite E.
Qed.

Lemma user_cannot_delete_others_task_witness :
  TasksRoute.DELETE Sample.rt (Str "t3") (Str "u1") (Str "User") Sample.db
  = (json_status (body_error "You can only delete your own tasks") 403,
     Sample.db)
  /\ In Sample.t3
       (tasks (snd (TasksRoute.DELETE Sample.rt (Str "t3") (Str "u1")
                      (Str "User") Sample.db))).
Proof.
  apply (user_cannot_delete_others_task Sample.rt Sample.db Sample.t3 "u1");
    try reflexivity; try discriminate.
  - unfold tasks_pkey. simpl.
    repeat constructor; simpl; intuition discriminate.
  - simpl. auto.
Defined.

(** ** Signup *)

(** C8 (as amended). A signup request that names a supervisor who does
    not exist or whose role is neither Supervisor nor Manager creates
    no user row and is rejected: with status 409 when the username is
    already taken (that test comes first), with status 400 otherwise. *)
Theorem signup_with_bad_supervisor_rejected (rt : Runtime)
    (b : AuthRoute.PostBody) (db : Db) :
  supabase rt = true ->
  AuthRoute.isLogin b = false ->
  truthy (AuthRoute.username b) = true ->
  truthy (AuthRoute.password b) = true ->
  truthy (AuthRoute.supervisorId b) = true ->
  (forall u, In u (users db) ->
             col_eq (Some (User.id u)) (AuthRoute.supervisorId b) = true ->
             not_supervisor_or_manager (User.role u) = true) ->
  let resp := fst (AuthRoute.POST rt (Some b) db) in
  snd (AuthRoute.POST rt (Some b) db) = db
  /\ keys (body resp) = ["error"]
  /\ (status resp = 400 \/ status resp = 409)
  /\ (status resp = 409 <->
      users_read db = true
      /\ exists u,
           filter (fun u => col_eq (Some (User.username u))
                                   (AuthRoute.username b))
                  (users db) = [u]).
Proof.
  intros Hs Hl Hn Hp Hsup Hbad resp. subst resp.
  assert (forall us : list User.row,
            filter (fun u => col_eq (Some (User.id u))
                                    (AuthRoute.supervisorId b)) (users db) = us ->
            match us with
            | [s] => not_supervisor_or_manager (User.role s) = true
            | _ => True
            end) as Hrole.
  { intros [|s [|s' more]] Fs; try exact I.
    assert (In s (filter (fun u => col_eq (Some (User.id u))
                            (AuthRoute.supervisorId b)) (users db)))
      as Hin by (rewrite Fs; now left).
    apply filter_In in Hin as [Hin Hid]. now apply Hbad. }
  unfold AuthRoute.POST. run. rewrite Hs, Hl, Hn, Hp, Hsup. simpl.
  destruct (users_read db) eqn:Hur; simpl.
  - destruct (filter (fun u => col_eq (Some (User.username u))
                                      (AuthRoute.username b)) (users db))
      as [|e [|e' more]] eqn:Fn; simpl; rewrite ?Hur; simpl.
    + specialize (Hrole _ eq_refl).
      destruct (filter (fun u => col_eq (Some (User.id u))
                                        (AuthRoute.supervisorId b)) (users db))
        as [|s [|s' more]]; simpl; rewrite ?Hrole; simpl;
        (split; [reflexivity|]); (split; [reflexivity|]);
        (split; [now left|]);
        (split; [discriminate | now intros (_ & u & [=])]).
    + split; [reflexivity|]. split; [reflexivity|]. split; [now right|].
      split; [|reflexivity]. intros _. split; [reflexivity|]. now exists e.
    + specialize (Hrole _ eq_refl).
      destruct (filter (fun u => col_eq (Some (User.id u))
                                        (AuthRoute.supervisorId b)) (users db))
        as [|s [|s' more']]; simpl; rewrite ?Hrole; simpl;
        (split; [reflexivity|]); (split; [reflexivity|]);
        (split; [now left|]);
        (split; [discriminate | now intros (_ & u & [=])]).
  - rewrite ?Hur. simpl.
    split; [reflexivity|]. split; [reflexivity|]. split; [now left|].
    split; [discriminate | now intros ([=] & _)].
Qed.

Lemma signup_with_bad_supervisor_rejected_witness :
  let b := {| AuthRoute.username := Str "zoe";
              AuthRoute.password := Str "secret";
              AuthRoute.isLogin := false;
              AuthRoute.role := Str "User";
              AuthRoute.supervisorId := Str "u2" |} in
  AuthRoute.POST Sample.rt (Some b) Sample.db
  = (json_status
       (body_error "Assigned supervisor must have Supervisor or Manager role")
       400, Sample.db)
  /\ snd (AuthRoute.POST Sample.rt (Some b) Sample.db) = Sample.db
  /\ (status (fst (AuthRoute.POST Sample.rt (Some b) Sample.db)) = 400
      \/ status (fst (AuthRoute.POST Sample.rt (Some b) Sample.db)) = 409).
Proof.
  intros b. split; [reflexivity|].
  destruct (signup_with_bad_supervisor_rejected Sample.rt b Sample.db)
    as (Hdb & _ & Hst & _); try reflexivity.
  - intros u [<-|[<-|[<-|[<-|[]]]]]; simpl; intros H;
      (discriminate H || reflexivity).
  - split; assumption.
Defined.

(** C8 (as stated) fails: uma's username is taken, and a signup under
    that name with supervisor ugo, who has role User, is answered with
    status 409, not 400. *)
Lemma signup_taken_username_is_409 :
  let b := {| AuthRoute.username := Str "uma";
              AuthRoute.password := Str "secret";
              AuthRoute.isLogin := false;
              AuthRoute.role := Str "User";
              AuthRoute.supervisorId := Str "u2" |} in
  (exists u, In u (users Sample.db)
             /\ User.id u = "u2" /\ User.role u = "User")
  /\ AuthRoute.POST Sample.rt (Some b) Sample.db
     = (json_status (body_error "Username already exists") 409, Sample.db)
  /\ status (fst (AuthRoute.POST Sample.rt (Some b) Sample.db)) <> 400.
Proof.
  intros b. split; [|split].
  - exists Sample.ugo. simpl. auto 10.
  - reflexivity.
  - discriminate.
Qed.

(** ** The shape of every response *)


Lemma answers_ret (r : Response) :
  well_formed r = true -> answers_well (ret r).
Proof. intros H db. exact H. Qed.

Lemma answers_throw (e : Exn) : answers_well (throw e).
Proof. intros db. exact I. Qed.

Lemma answers_bind {A : Type} (m : M A) (k : A -> M Response) :
  exits_well m -> (forall a, answers_well (k a)) ->
  answers_well (bind m k).
Proof.
  intros Hm Hk db. unfold bind. specialize (Hm db).
  destruct (m db) as [[a|r|e] db']; simpl in *.
  - apply Hk.
  - exact Hm.
  - exact I.
Qed.

Lemma exits_bind {A B : Type} (m : M A) (k : A -> M B) :
  exits_well m -> (forall a, exits_well (k a)) -> exits_well (bind m k).
Proof.
  intros Hm Hk db. unfold bind. specialize (Hm db).
  destruct (m db) as [[a|r|e] db']; simpl in *.
  - apply Hk.
  - exact Hm.
  - exact I.
Qed.

Lemma exits_ret {A : Type} (a : A) : exits_well (ret a).
Proof. intros db. exact I. Qed.

Lemma exits_throw {A : Type} (e : Exn) : exits_well (@throw A e).
Proof. intros db. exact I. Qed.

Lemma exits_return {A : Type} (r : Response) :
  well_formed r = true -> exits_well (@return_ A r).
Proof. intros H db. exact H. Qed.

Lemma exits_throw_if (e : option PgError) : exits_well (throw_if e).
Proof. destruct e; intros db; exact I. Qed.

Lemma exits_request_json {A : Type} (parsed : option A) :
  exits_well (request_json parsed).
Proof. destruct parsed; intros db; exact I. Qed.

Lemma exits_when (c : bool) (m : M unit) :
  exits_well m -> exits_well (when c m).
Proof. destruct c; [trivial|]. intros _. apply exits_ret. Qed.

Lemma exits_single {A : Type} (q : M (Result (list A))) :
  exits_well q -> exits_well (single_ q).
Proof.
  intros H db. unfold single_. specialize (H db).
  now destruct (q db) as [[a|r|e] db'].
Qed.

Lemma resolves_exits {A : Type} (m : M A) : resolves m -> exits_well m.
Proof. intros H db. destruct (H db) as (a & db' & ->). exact I. Qed.

Lemma resolves_select_users {A : Type} (cols : User.row -> A) p :
  resolves (select_users cols p).
Proof. intros db. unfold select_users. eauto. Qed.

Lemma resolves_select_tasks {A : Type} (cols : Task.row -> A) p :
  resolves (select_tasks cols p).
Proof. intros db. unfold select_tasks. eauto. Qed.

Lemma resolves_select_tasks_embed cols p :
  resolves (select_tasks_embed cols p).
Proof. intros db. unfold select_tasks_embed. eauto. Qed.

Lemma resolves_insert_task rt returning v :
  resolves (insert_task rt returning v).
Proof.
  intros db. unfold insert_task.
  repeat match goal with
         | |- context [if ?c then _ else _] => destruct c
         | |- context [match ?x with _ => _ end] => destruct x
         end; eauto.
Qed.

Lemma resolves_insert_user rt returning v :
  resolves (insert_user rt returning v).
Proof.
  intros db. unfold insert_user.
  repeat match goal with
         | |- context [if ?c then _ else _] => destruct c
         | |- context [match ?x with _ => _ end] => destruct x
         end; eauto.
Qed.

Lemma resolves_update_tasks rt payload p :
  resolves (update_tasks rt payload p).
Proof.
  intros db. unfold update_tasks.
  repeat match goal with
         | |- context [if ?c then _ else _] => destruct c
         end; eauto.
Qed.

Lemma resolves_update_users {A : Type} payload p (cols : User.row -> A) :
  resolves (update_users payload p cols).
Proof.
  intros db. unfold update_users.
  repeat match goal with
         | |- context [if ?c then _ else _] => destruct c
         | |- context [match ?x with _ => _ end] => destruct x
         end; eauto.
Qed.

Lemma resolves_delete_tasks p : resolves (delete_tasks p).
Proof. intros db. unfold delete_tasks. destruct (negb _); eauto. Qed.

Lemma resolves_delete_users p : resolves (delete_users p).
Proof. intros db. unfold delete_users. destruct (negb _); eauto. Qed.

Lemma try_catch_well (msg : string) (m : M Response) (db : Db) :
  answers_well m -> well_formed (fst (try_catch msg m db)) = true.
Proof.
  intros H. unfold try_catch. specialize (H db).
  now destruct (m db) as [[a|r|e] db'].
Qed.

Lemma try_catch_details_well (msg : string) (m : M Response) (db : Db) :
  answers_well m -> well_formed (fst (try_catch_details msg m db)) = true.
Proof.
  intros H. unfold try_catch_details. specialize (H db).
  now destruct (m db) as [[a|r|e] db'].
Qed.


(** Walks a handler body: binds are split, store operations resolve,
    tests are decided both ways, and every literal response is checked
    by evaluation. *)
Ltac shape :=
  cbv zeta;
  repeat first
    [ apply answers_ret; reflexivity
    | apply exits_return; reflexivity
    | apply answers_throw
    | apply exits_ret
    | apply exits_throw
    | apply exits_throw_if
    | apply exits_request_json
    | apply exits_when
    | apply exits_single
    | apply resolves_exits;
      first [ apply resolves_select_users
            | apply resolves_select_tasks
            | apply resolves_select_tasks_embed
            | apply resolves_insert_task
            | apply resolves_insert_user
            | apply resolves_update_tasks
            | apply resolves_update_users
            | apply resolves_delete_tasks
            | apply resolves_delete_users ]
    | apply answers_bind; [ | intro ]
    | apply exits_bind; [ | intro ]
    | match goal with
      | |- answers_well (if ?c then _ else _) => destruct c
      | |- exits_well (if ?c then _ else _) => destruct c
      | |- answers_well (match ?x with _ => _ end) => destruct x
      | |- exits_well (match ?x with _ => _ end) => destruct x
      end ].

Lemma tasks_GET_well rt userId role supervisorId db :
  well_formed (fst (TasksRoute.GET rt userId role supervisorId db)) = true.
Proof. apply try_catch_well. unfold TasksRoute.GET. shape. Qed.

Lemma tasks_POST_well rt request db :
  well_formed (fst (TasksRoute.POST rt request db)) = true.
Proof. apply try_catch_well. unfold TasksRoute.POST. shape. Qed.

Lemma tasks_PUT_well rt request db :
  well_formed (fst (TasksRoute.PUT rt request db)) = true.
Proof.
  apply try_catch_well. unfold TasksRoute.PUT. shape.
Qed.

Lemma tasks_DELETE_well rt id userId role db :
  well_formed (fst (TasksRoute.DELETE rt id userId role db)) = true.
Proof.
  apply try_catch_well. unfold TasksRoute.DELETE. shape.
Qed.

Lemma auth_POST_well rt request db :
  well_formed (fst (AuthRoute.POST rt request db)) = true.
Proof. apply try_catch_well. unfold AuthRoute.POST. shape. Qed.

Lemma auth_GET_well rt role userId db :
  well_formed (fst (AuthRoute.GET rt role userId db)) = true.
Proof. apply try_catch_well. unfold AuthRoute.GET. shape. Qed.

Lemma users_GET_well rt requestType userId db :
  well_formed (fst (UsersRoute.GET rt requestType userId db)) = true.
Proof. apply try_catch_well. unfold UsersRoute.GET. shape. Qed.

Lemma users_PUT_well rt request db :
  well_formed (fst (UsersRoute.PUT rt request db)) = true.
Proof. apply try_catch_well. unfold UsersRoute.PUT. shape. Qed.

Lemma setup_db_GET_well rt db :
  well_formed (fst (SetupDbRoute.GET rt db)) = true.
Proof.
  apply try_catch_details_well.
  unfold SetupDbRoute.GET, SetupDbRoute.probe_users, SetupDbRoute.probe_tasks.
  shape.
Qed.

Lemma well_formed_spec (r : Response) :
  well_formed r = true ->
  (status r = 200 /\ ~ In "error" (keys (body r)))
  \/ (In (status r) error_statuses /\ In "error" (keys (body r))).
Proof.
  unfold well_formed, has_error.
  destruct (existsb (String.eqb "error") (keys (body r))) eqn:E; intros H.
  - right. split.
    + apply existsb_exists in H as (s & Hs & Hz).
      apply Z.eqb_eq in Hz. now subst s.
    + apply existsb_exists in E as (k & Hk & Hz).
      apply String.eqb_eq in Hz. now subst k.
  - left. split; [now apply Z.eqb_eq|].
    intros Hin.
    assert (existsb (String.eqb "error") (keys (body r)) = true) as E'.
    { apply existsb_exists. exists "error". split; [exact Hin|].
      apply String.eqb_refl. }
    congruence.
Qed.

(** C3 (as amended). Whatever the request and the state of the store,
    the response of every handler is either a 200 response whose body
    has no [error] field, or a response whose body has an [error]
    field and whose status is one of 400, 401, 403, 404, 409 and 500. *)
Theorem responses_are_data_or_error (rt : Runtime) (q : Request) (db : Db) :
  let r := fst (handle rt q db) in
  (status r = 200 /\ ~ In "error" (keys (body r)))
  \/ (In (status r) [400; 401; 403; 404; 409; 500]
      /\ In "error" (keys (body r))).
Proof.
  intros r. subst r. apply well_formed_spec.
  destruct q; simpl.
  - apply tasks_GET_well.
  - apply tasks_POST_well.
  - apply tasks_PUT_well.
  - apply tasks_DELETE_well.
  - apply auth_POST_well.
  - apply auth_GET_well.
  - apply users_GET_well.
  - apply users_PUT_well.
  - apply setup_db_GET_well.
Qed.

(** C3 (as stated) fails: a signup under a username that is taken is
    an error response with status 409, which is none of 400, 401, 403,
    404 and 500. *)
Lemma signup_conflict_is_409 :
  let q := auth_POST
             (Some {| AuthRoute.username := Str "sam";
                      AuthRoute.password := Str "secret";
                      AuthRoute.isLogin := false;
                      AuthRoute.role := Undefined;
                      AuthRoute.supervisorId := Undefined |}) in
  let r := fst (handle Sample.rt q Sample.db) in
  body r = body_error "Username already exists"
  /\ status r = 409
  /\ ~ In (status r) [400; 401; 403; 404; 500].
Proof.
  intros q r. split; [reflexivity|]. split; [reflexivity|].
  simpl. intuition discriminate.
Qed.

(** * Further properties of the handlers *)

(** ** Task creation *)

#[local] Arguments new_task_row : simpl never.

(** An insert with [.select()] either fails and writes nothing, or
    appends the new row and returns it. *)
Lemma insert_task_cases (rt : Runtime) (v : NewTask.t) (db : Db) :
  (exists e, insert_task rt true v db = (Val (failed e), db))
  \/ (exists ttl,
        NewTask.title v = Str ttl
        /\ task_insertable rt db (new_task_row rt ttl v)
        /\ insert_task rt true v db
           = (Val (ok [new_task_row rt ttl v]),
              with_tasks db (tasks db ++ [new_task_row rt ttl v]))).
Proof.
  unfold insert_task, task_insertable.
  destruct (tasks_write db); simpl; [|left; eexists; reflexivity].
  destruct (tasks_read db); simpl; [|left; eexists; reflexivity].
  destruct (NewTask.title v) as [| |ttl] eqn:Ht; simpl; try (left; eexists; reflexivity).
  destruct (fk_ok (users db) (to_column (NewTask.user_id v))) eqn:F1;
    simpl; [|left; eexists; reflexivity].
  destruct (fk_ok (users db) (to_column (NewTask.created_by v))) eqn:F2;
    simpl; [|left; eexists; reflexivity].
  destruct (existsb _ (tasks db)) eqn:Fx; [left; eexists; reflexivity|].
  right. exists ttl. repeat split; try reflexivity; try assumption.
  intros x Hin E.
  assert (existsb (fun x0 => String.eqb (Task.id x0) (uuid_generate_v4 rt))
            (tasks db) = true) as C.
  { apply existsb_exists. exists x. split; [assumption|].
    apply String.eqb_eq. exact E. }
  congruence.
Qed.

Lemma insert_task_accepts (rt : Runtime) (v : NewTask.t) (db : Db)
    (ttl : string) :
  NewTask.title v = Str ttl ->
  task_insertable rt db (new_task_row rt ttl v) ->
  insert_task rt true v db
  = (Val (ok [new_task_row rt ttl v]),
     with_tasks db (tasks db ++ [new_task_row rt ttl v])).
Proof.
  intros Ht (Hw & Hr & F1 & F2 & Hfresh).
  unfold insert_task. rewrite Hw, Hr, Ht. simpl.
  change (to_column (NewTask.user_id v))
    with (Task.user_id (new_task_row rt ttl v)).
  change (to_column (NewTask.created_by v))
    with (Task.created_by (new_task_row rt ttl v)).
  rewrite F1, F2. simpl.
  assert (existsb (fun x => String.eqb (Task.id x) (uuid_generate_v4 rt))
            (tasks db) = false) as ->; [|reflexivity].
  destruct (existsb _ (tasks db)) eqn:E; [|reflexivity].
  apply existsb_exists in E as (x & Hin & E).
  apply String.eqb_eq in E. now elim (Hfresh x Hin).
Qed.

(** [POST] either leaves the store as it was and answers with an error,
    or appended one row and answered with it. *)
Lemma POST_cases (rt : Runtime) (req : option TasksRoute.PostBody) (db : Db) :
  (snd (TasksRoute.POST rt req db) = db
   /\ refusal (status (fst (TasksRoute.POST rt req db))))
  \/ (exists b ttl owner,
        req = Some b
        /\ TasksRoute.post_title b = Str ttl
        /\ (owner = TasksRoute.post_userId b
            \/ owner = TasksRoute.post_assignedUserId b)
        /\ task_insertable rt db
             (created rt ttl owner (TasksRoute.post_userId b))
        /\ snd (TasksRoute.POST rt req db)
           = with_tasks db
               (tasks db ++ [created rt ttl owner (TasksRoute.post_userId b)])
        /\ status (fst (TasksRoute.POST rt req db)) = 200).
Proof.
  unfold TasksRoute.POST. run.
  destruct (supabase rt); simpl; [|refused].
  destruct req as [b|]; simpl; [|refused].
  destruct (TasksRoute.post_title b) as [| |ttl] eqn:Ht;
    try (unfold truthy; simpl; refused).
  destruct (truthy (Str ttl)); simpl; [|refused].
  destruct (eq_lit (TasksRoute.post_role b) "User"); simpl.
  - destruct (truthy (TasksRoute.post_userId b)); simpl; [|refused].
    destruct (insert_task_cases rt
                (TasksRoute.new_task (Str ttl) (TasksRoute.post_userId b)
                   (TasksRoute.post_userId b)) db)
      as [(e & ->) | (t & [= <-] & Hok & ->)]; simpl; [refused|].
    right. exists b, ttl, (TasksRoute.post_userId b).
    repeat (split; [first [reflexivity | exact Ht | exact Hok | now left | now right]|]).
    reflexivity.
  - destruct (eq_lit (TasksRoute.post_role b) "Supervisor"
              || eq_lit (TasksRoute.post_role b) "Manager"); simpl.
    + destruct (truthy (TasksRoute.post_assignedUserId b)); simpl.
      * destruct (eq_lit (TasksRoute.post_role b) "Supervisor"); simpl.
        -- destruct (users_read db); simpl; [|refused].
           destruct (filter _ (users db)) as [|o [|o' more]]; simpl;
             try refused.
           destruct (strict_eq (of_column (User.supervisor_id o))
                       (TasksRoute.post_userId b)); simpl; [|refused].
           destruct (insert_task_cases rt
                       (TasksRoute.new_task (Str ttl)
                          (TasksRoute.post_assignedUserId b)
                          (TasksRoute.post_userId b)) db)
             as [(e & ->) | (t & [= <-] & Hok & ->)]; simpl; [refused|].
           right. exists b, ttl, (TasksRoute.post_assignedUserId b).
           repeat (split; [first [reflexivity | exact Ht | exact Hok | now left | now right]|]).
    reflexivity.
        -- destruct (insert_task_cases rt
                       (TasksRoute.new_task (Str ttl)
                          (TasksRoute.post_assignedUserId b)
                          (TasksRoute.post_userId b)) db)
             as [(e & ->) | (t & [= <-] & Hok & ->)]; simpl; [refused|].
           right. exists b, ttl, (TasksRoute.post_assignedUserId b).
           repeat (split; [first [reflexivity | exact Ht | exact Hok | now left | now right]|]).
    reflexivity.
      * destruct (insert_task_cases rt
                    (TasksRoute.new_task (Str ttl) (TasksRoute.post_userId b)
                       (TasksRoute.post_userId b)) db)
          as [(e & ->) | (t & [= <-] & Hok & ->)]; simpl; [refused|].
        right. exists b, ttl, (TasksRoute.post_userId b).
        repeat (split; [first [reflexivity | exact Ht | exact Hok | now left | now right]|]).
    reflexivity.
    + destruct (truthy (TasksRoute.post_userId b)); simpl; [|refused].
      destruct (insert_task_cases rt
                  (TasksRoute.new_task (Str ttl) (TasksRoute.post_userId b)
                     (TasksRoute.post_userId b)) db)
        as [(e & ->) | (t & [= <-] & Hok & ->)]; simpl; [refused|].
      right. exists b, ttl, (TasksRoute.post_userId b).
      repeat (split; [first [reflexivity | exact Ht | exact Hok | now left | now right]|]).
    reflexivity.
Qed.

(** X1. Whatever the create request, nothing but the tasks table
    changes, and that table is either as it was, under an error status,
    or longer by one row at its end, under status 200: an open task
    with the requested title, the backend's id and time, created by
    [userId] and owned by [userId] or by [assignedUserId]. *)
Theorem create_appends_one_open_task (rt : Runtime)
    (req : option TasksRoute.PostBody) (db : Db) :
  let resp := fst (TasksRoute.POST rt req db) in
  let db' := snd (TasksRoute.POST rt req db) in
  (db' = db /\ (status resp = 400 \/ status resp = 403 \/ status resp = 500))
  \/ (status resp = 200
      /\ exists b r,
           req = Some b
           /\ db' = with_tasks db (tasks db ++ [r])
           /\ TasksRoute.post_title b = Str (Task.title r)
           /\ Task.id r = uuid_generate_v4 rt
           /\ Task.created_at r = toISOString rt
           /\ Task.completed r = Some false
           /\ Task.completed_at r = None
           /\ Task.created_by r = to_column (TasksRoute.post_userId b)
           /\ (Task.user_id r = to_column (TasksRoute.post_userId b)
               \/ Task.user_id r
                  = to_column (TasksRoute.post_assignedUserId b))).
Proof.
  intros resp db'. subst resp db'.
  destruct (POST_cases rt req db)
    as [[Hsame Hst] | (b & ttl & owner & -> & Ht & Ho & _ & E & H200)].
  - left. split; assumption.
  - right. split; [exact H200|].
    exists b, (created rt ttl owner (TasksRoute.post_userId b)).
    split; [reflexivity|]. split; [exact E|]. split; [exact Ht|].
    repeat (split; [reflexivity|]).
    destruct Ho as [-> | ->]; [now left | now right].
Qed.

(** X2. A create request without a title is answered 400 before
    anything else is looked at, and a request whose role is neither
    Supervisor nor Manager must also name its [userId]; in both cases
    nothing is stored. *)
Theorem create_requires_title_and_user (rt : Runtime)
    (b : TasksRoute.PostBody) (db : Db) :
  supabase rt = true ->
  (truthy (TasksRoute.post_title b) = false ->
   TasksRoute.POST rt (Some b) db
   = (json_status (body_error "Title is required") 400, db))
  /\ (truthy (TasksRoute.post_title b) = true ->
      eq_lit (TasksRoute.post_role b) "Supervisor" = false ->
      eq_lit (TasksRoute.post_role b) "Manager" = false ->
      truthy (TasksRoute.post_userId b) = false ->
      TasksRoute.POST rt (Some b) db
      = (json_status (body_error "User ID is required") 400, db)).
Proof.
  intros Hs. split.
  - intros Ht. unfold TasksRoute.POST. run. rewrite Hs, Ht. reflexivity.
  - intros Ht HS HM Hu. unfold TasksRoute.POST. run.
    rewrite Hs, Ht, HS, HM, Hu. simpl.
    destruct (eq_lit (TasksRoute.post_role b) "User"); reflexivity.
Qed.

Lemma create_requires_title_and_user_witness :
  TasksRoute.POST Sample.rt
    (Some {| TasksRoute.post_title := Str "";
             TasksRoute.post_userId := Str "u1";
             TasksRoute.post_createdBy := Undefined;
             TasksRoute.post_role := Str "Manager";
             TasksRoute.post_assignedUserId := Undefined |}) Sample.db
  = (json_status (body_error "Title is required") 400, Sample.db)
  /\ TasksRoute.POST Sample.rt
       (Some {| TasksRoute.post_title := Str "water plants";
                TasksRoute.post_userId := Null;
                TasksRoute.post_createdBy := Undefined;
                TasksRoute.post_role := Str "User";
                TasksRoute.post_assignedUserId := Undefined |}) Sample.db
     = (json_status (body_error "User ID is required") 400, Sample.db).
Proof.
  split.
  - apply (create_requires_title_and_user Sample.rt _ Sample.db eq_refl).
    reflexivity.
  - apply (create_requires_title_and_user Sample.rt _ Sample.db eq_refl);
      reflexivity.
Defined.

(** The listing of role User, as a whole response. *)
Lemma GET_User (rt : Runtime) (db : Db) (uid : string) (supervisorId : JsStr) :
  supabase rt = true -> tasks_read db = true -> uid <> "" ->
  TasksRoute.GET rt (Str uid) (Str "User") supervisorId db
  = (json (body_tasks
             (Some (map star
                      (filter (fun t => col_eq (Task.user_id t) (Str uid))
                              (tasks db))))), db).
Proof.
  intros Hs Hr Hu. unfold TasksRoute.GET.
  rewrite Hs, (truthy_Str uid Hu). simpl negb. cbv iota.
  change (eq_lit (Str "User") "User") with true. cbv iota.
  now apply GET_own_tasks.
Qed.

(** X3. A create request of role User (or of no known role) for an
    existing user is answered with the new row, owned and created by
    that user and not completed; a listing by that user afterwards has
    the tasks listed before and the new one, each once, in whatever
    order. *)
Theorem user_create_then_list (rt : Runtime) (b : TasksRoute.PostBody)
    (db : Db) (ttl uid : string) :
  supabase rt = true -> tasks_read db = true -> tasks_write db = true ->
  TasksRoute.post_title b = Str ttl -> ttl <> "" ->
  TasksRoute.post_userId b = Str uid -> uid <> "" ->
  eq_lit (TasksRoute.post_role b) "Supervisor" = false ->
  eq_lit (TasksRoute.post_role b) "Manager" = false ->
  has_user (users db) uid = true ->
  (forall x, In x (tasks db) -> Task.id x <> uuid_generate_v4 rt) ->
  let r := {| Task.id := uuid_generate_v4 rt;
              Task.user_id := Some uid;
              Task.created_by := Some uid;
              Task.title := ttl;
              Task.completed := Some false;
              Task.completed_at := None;
              Task.created_at := toISOString rt |} in
  TasksRoute.POST rt (Some b) db
  = (json (body_task (Some r)), with_tasks db (tasks db ++ [r]))
  /\ forall supervisorId l,
       listed (fst (TasksRoute.GET rt (Str uid) (Str "User") supervisorId db))
       = Some l ->
       exists l',
         listed (fst (TasksRoute.GET rt (Str uid) (Str "User") supervisorId
                        (snd (TasksRoute.POST rt (Some b) db))))
         = Some l'
         /\ Permutation l' (r :: l).
Proof.
  intros Hs Htr Htw Ht Httl Hu Huid HS HM Hex Hfresh r.
  assert (TasksRoute.POST rt (Some b) db
          = (json (body_task (Some r)), with_tasks db (tasks db ++ [r]))) as E.
  { unfold TasksRoute.POST. run.
    rewrite Hs, Ht, Hu, (truthy_Str _ Httl), (truthy_Str _ Huid), HS, HM.
    simpl.
    assert (insert_task rt true
              (TasksRoute.new_task (Str ttl) (Str uid) (Str uid)) db
            = (Val (ok [r]), with_tasks db (tasks db ++ [r]))) as Hi.
    { apply (insert_task_accepts rt
               (TasksRoute.new_task (Str ttl) (Str uid) (Str uid)) db ttl);
        [reflexivity|].
      repeat split; assumption. }
    destruct (eq_lit (TasksRoute.post_role b) "User"); simpl;
      rewrite Hi; reflexivity. }
  split; [exact E|].
  intros supervisorId l. rewrite E. simpl snd.
  rewrite (GET_User rt db uid supervisorId Hs Htr Huid).
  rewrite (GET_User rt (with_tasks db (tasks db ++ [r])) uid supervisorId
             Hs Htr Huid).
  unfold listed. simpl. rewrite !map_row_star. intros [= <-].
  rewrite filter_app. simpl.
  assert (col_eq (Some uid) (Str uid) = true) as ->
    by (now apply col_eq_Some).
  eexists. split; [reflexivity|].
  apply Permutation_sym, Permutation_cons_append.
Qed.

Lemma user_create_then_list_witness :
  let b := {| TasksRoute.post_title := Str "water plants";
              TasksRoute.post_userId := Str "u2";
              TasksRoute.post_createdBy := Undefined;
              TasksRoute.post_role := Str "User";
              TasksRoute.post_assignedUserId := Undefined |} in
  exists r l',
    fst (TasksRoute.POST Sample.rt (Some b) Sample.db)
    = json (body_task (Some r))
    /\ listed (fst (TasksRoute.GET Sample.rt (Str "u2") (Str "User") Null
                      (snd (TasksRoute.POST Sample.rt (Some b) Sample.db))))
       = Some l'
    /\ Permutation l' [r; Sample.t3].
Proof.
  intros b.
  destruct (user_create_then_list Sample.rt b Sample.db "water plants" "u2")
    as [E L]; try reflexivity; try discriminate.
  - intros x [<-|[<-|[<-|[<-|[]]]]]; discriminate.
  - destruct (L Null [Sample.t3] eq_refl) as (l' & El & Hp).
    eexists. exists l'. split; [rewrite E; reflexivity|].
    split; [exact El | exact Hp].
Defined.

(** What [a !== b] comes to when [a] is read from a nullable column. *)
Lemma strict_eq_column_Str (c : option string) (s : string) :
  strict_eq (of_column c) (Str s) = true <-> c = Some s.
Proof.
  destruct c as [a|]; unfold strict_eq; simpl.
  - rewrite String.eqb_eq. split; [now intros -> | now intros [= ->]].
  - split; discriminate.
Qed.

Lemma strict_eq_column_Str_false (c : option string) (s : string) :
  c <> Some s -> strict_eq (of_column c) (Str s) = false.
Proof.
  intros H. destruct (strict_eq (of_column c) (Str s)) eqn:E; [|reflexivity].
  now apply strict_eq_column_Str in E.
Qed.

Lemma strict_eq_column_Null (c : option string) :
  strict_eq (of_column c) Null = true <-> c = None.
Proof. destruct c; unfold strict_eq; simpl; split; congruence. Qed.

Lemma strict_eq_column_Null_false (c : option string) :
  c <> None -> strict_eq (of_column c) Null = false.
Proof. destruct c; [reflexivity | now intros H; elim H]. Qed.

Lemma strict_eq_column_Undefined (c : option string) :
  strict_eq (of_column c) Undefined = false.
Proof. now destruct c. Qed.

(** The Supervisor branch of [POST] with an assignee, by the outcome
    of its comparison. *)
Lemma POST_supervisor_check (rt : Runtime)
    (b : TasksRoute.PostBody) (db : Db) (ttl aid : string) :
  supabase rt = true -> users_read db = true ->
  TasksRoute.post_title b = Str ttl -> ttl <> "" ->
  TasksRoute.post_role b = Str "Supervisor" ->
  TasksRoute.post_assignedUserId b = Str aid -> aid <> "" ->
  (forall target,
     filter (fun u => col_eq (Some (User.id u)) (Str aid)) (users db)
     = [target] ->
     (strict_eq (of_column (User.supervisor_id target))
        (TasksRoute.post_userId b) = false ->
      TasksRoute.POST rt (Some b) db
      = (json_status
           (body_error "You can only assign tasks to users you supervise") 403,
         db))
     /\ (strict_eq (of_column (User.supervisor_id target))
           (TasksRoute.post_userId b) = true ->
         task_insertable rt db
           (created rt ttl (Str aid) (TasksRoute.post_userId b)) ->
         TasksRoute.POST rt (Some b) db
         = (json (body_task
                    (Some (created rt ttl (Str aid)
                             (TasksRoute.post_userId b)))),
            with_tasks db
              (tasks db ++ [created rt ttl (Str aid)
                              (TasksRoute.post_userId b)]))))
  /\ (filter (fun u => col_eq (Some (User.id u)) (Str aid)) (users db) = [] ->
      TasksRoute.POST rt (Some b) db
      = (json_status (body_error "Error creating task") 500, db)).
Proof.
  intros Hs Hur Ht Httl Hrole Ha Haid.
  split; [intros target F; split|].
  - intros Hno. unfold TasksRoute.POST. run.
    rewrite Hs, Ht, Ha, Hrole, (truthy_Str _ Httl), (truthy_Str _ Haid).
    simpl. rewrite Hur. simpl. rewrite F. simpl. rewrite Hno. reflexivity.
  - intros Hyes Hok. unfold TasksRoute.POST. run.
    rewrite Hs, Ht, Ha, Hrole, (truthy_Str _ Httl), (truthy_Str _ Haid).
    simpl. rewrite Hur. simpl. rewrite F. simpl. rewrite Hyes. simpl.
    rewrite (insert_task_accepts rt
               (TasksRoute.new_task (Str ttl) (Str aid)
                  (TasksRoute.post_userId b)) db ttl eq_refl Hok).
    reflexivity.
  - intros F. unfold TasksRoute.POST. run.
    rewrite Hs, Ht, Ha, Hrole, (truthy_Str _ Httl), (truthy_Str _ Haid).
    simpl. rewrite Hur. simpl. rewrite F. reflexivity.
Qed.

(** X4. A Supervisor who creates a task for another user is checked by
    one comparison, [user.supervisor_id !== userId], and [userId] itself
    is not required. With a [userId] that is a string the request is
    answered 403 and stores nothing unless the assignee's supervisor is
    that user, and then the task is stored with the assignee as owner
    and the supervisor as creator. With no [userId] key it is always
    answered 403. With [userId: null] it is answered 403 when the
    assignee has a supervisor, but goes through when the assignee has
    none, as [null !== null] is false: the task is stored without a
    creator. For an assignee id that no row has the lookup error is
    rethrown and the answer is 500, not 403. *)
Theorem supervisor_assignment_check (rt : Runtime)
    (b : TasksRoute.PostBody) (db : Db) (ttl aid : string) :
  supabase rt = true -> users_read db = true ->
  TasksRoute.post_title b = Str ttl -> ttl <> "" ->
  TasksRoute.post_role b = Str "Supervisor" ->
  TasksRoute.post_assignedUserId b = Str aid -> aid <> "" ->
  let new := created rt ttl (Str aid) (TasksRoute.post_userId b) in
  let refused :=
    TasksRoute.POST rt (Some b) db
    = (json_status
         (body_error "You can only assign tasks to users you supervise") 403,
       db) in
  let stored :=
    task_insertable rt db new ->
    TasksRoute.POST rt (Some b) db
    = (json (body_task (Some new)), with_tasks db (tasks db ++ [new]))
    /\ Task.user_id new = Some aid
    /\ Task.created_by new = to_column (TasksRoute.post_userId b) in
  (forall target,
     filter (fun u => col_eq (Some (User.id u)) (Str aid)) (users db)
     = [target] ->
     (forall uid, TasksRoute.post_userId b = Str uid ->
                  User.supervisor_id target <> Some uid -> refused)
     /\ (forall uid, TasksRoute.post_userId b = Str uid ->
                     User.supervisor_id target = Some uid -> stored)
     /\ (TasksRoute.post_userId b = Undefined -> refused)
     /\ (TasksRoute.post_userId b = Null ->
         User.supervisor_id target <> None -> refused)
     /\ (TasksRoute.post_userId b = Null ->
         User.supervisor_id target = None -> stored))
  /\ (filter (fun u => col_eq (Some (User.id u)) (Str aid)) (users db) = [] ->
      TasksRoute.POST rt (Some b) db
      = (json_status (body_error "Error creating task") 500, db)).
Proof.
  intros Hs Hur Ht Httl Hrole Ha Haid new refused stored.
  destruct (POST_supervisor_check rt b db ttl aid Hs Hur Ht Httl Hrole Ha Haid)
    as [Hone Hnone].
  split; [|exact Hnone].
  intros target F. destruct (Hone target F) as [Hno Hyes].
  assert (Task.user_id new = Some aid
          /\ Task.created_by new = to_column (TasksRoute.post_userId b))
    as Hnew by (split; reflexivity).
  split; [|split; [|split; [|split]]].
  - intros uid Eu Hsup. apply Hno. rewrite Eu.
    now apply strict_eq_column_Str_false.
  - intros uid Eu Hsup Hok. split; [|exact Hnew]. apply Hyes; [|exact Hok].
    rewrite Eu. now apply strict_eq_column_Str.
  - intros Eu. apply Hno. rewrite Eu. apply strict_eq_column_Undefined.
  - intros Eu Hsup. apply Hno. rewrite Eu.
    now apply strict_eq_column_Null_false.
  - intros Eu Hsup Hok. split; [|exact Hnew]. apply Hyes; [|exact Hok].
    rewrite Eu. now apply strict_eq_column_Null.
Qed.

Lemma supervisor_assignment_check_witness :
  let other := {| TasksRoute.post_title := Str "file report";
                  TasksRoute.post_userId := Str "s1";
                  TasksRoute.post_createdBy := Str "s1";
                  TasksRoute.post_role := Str "Supervisor";
                  TasksRoute.post_assignedUserId := Str "u2" |} in
  let anonymous := {| TasksRoute.post_title := Str "file report";
                      TasksRoute.post_userId := Null;
                      TasksRoute.post_createdBy := Null;
                      TasksRoute.post_role := Str "Supervisor";
                      TasksRoute.post_assignedUserId := Str "u2" |} in
  TasksRoute.POST Sample.rt (Some other) Sample.db
  = (json_status
       (body_error "You can only assign tasks to users you supervise") 403,
     Sample.db)
  /\ status (fst (TasksRoute.POST Sample.rt (Some anonymous) Sample.db)) = 200
  /\ exists r,
       tasks (snd (TasksRoute.POST Sample.rt (Some anonymous) Sample.db))
       = (tasks Sample.db ++ [r])%list
       /\ Task.user_id r = Some "u2" /\ Task.created_by r = None.
Proof.
  intros other anonymous.
  assert (task_insertable Sample.rt Sample.db
            (created Sample.rt "file report" (Str "u2") Null)) as Hok.
  { repeat split; try reflexivity.
    intros x [<-|[<-|[<-|[<-|[]]]]]; discriminate. }
  split.
  - destruct (supervisor_assignment_check Sample.rt other Sample.db
                "file report" "u2" eq_refl eq_refl eq_refl ltac:(discriminate)
                eq_refl eq_refl ltac:(discriminate)) as [H _].
    destruct (H Sample.ugo eq_refl) as (Hno & _).
    apply (Hno "s1"); [reflexivity | discriminate].
  - destruct (supervisor_assignment_check Sample.rt anonymous Sample.db
                "file report" "u2" eq_refl eq_refl eq_refl ltac:(discriminate)
                eq_refl eq_refl ltac:(discriminate)) as [H _].
    destruct (H Sample.ugo eq_refl) as (_ & _ & _ & _ & Hnull).
    destruct (Hnull eq_refl eq_refl Hok) as (E & Hown & Hby).
    rewrite E. split; [reflexivity|].
    eexists. split; [reflexivity|]. split; [exact Hown | exact Hby].
Defined.

(** X5. A Manager creates a task for any existing user without any
    supervision check, and without the users table being read. *)
Theorem manager_assigns_to_any_user (rt : Runtime) (b : TasksRoute.PostBody)
    (db : Db) (ttl aid : string) :
  supabase rt = true ->
  TasksRoute.post_title b = Str ttl -> ttl <> "" ->
  TasksRoute.post_role b = Str "Manager" ->
  TasksRoute.post_assignedUserId b = Str aid -> aid <> "" ->
  task_insertable rt db
    (created rt ttl (Str aid) (TasksRoute.post_userId b)) ->
  TasksRoute.POST rt (Some b) db
  = (json (body_task
             (Some (created rt ttl (Str aid) (TasksRoute.post_userId b)))),
     with_tasks db
       (tasks db ++ [created rt ttl (Str aid) (TasksRoute.post_userId b)]))
  /\ Task.user_id (created rt ttl (Str aid) (TasksRoute.post_userId b))
     = Some aid
  /\ Task.created_by (created rt ttl (Str aid) (TasksRoute.post_userId b))
     = to_column (TasksRoute.post_userId b).
Proof.
  intros Hs Ht Httl Hrole Ha Haid Hok.
  split; [|split; reflexivity].
  unfold TasksRoute.POST. run.
  rewrite Hs, Ht, Ha, Hrole, (truthy_Str _ Httl), (truthy_Str _ Haid).
  simpl.
  rewrite (insert_task_accepts rt
             (TasksRoute.new_task (Str ttl) (Str aid)
                (TasksRoute.post_userId b)) db ttl eq_refl Hok).
  reflexivity.
Qed.

Lemma manager_assigns_to_any_user_witness :
  let b := {| TasksRoute.post_title := Str "file report";
              TasksRoute.post_userId := Str "m1";
              TasksRoute.post_createdBy := Str "m1";
              TasksRoute.post_role := Str "Manager";
              TasksRoute.post_assignedUserId := Str "u2" |} in
  status (fst (TasksRoute.POST Sample.rt (Some b) Sample.db)) = 200
  /\ exists r,
       tasks (snd (TasksRoute.POST Sample.rt (Some b) Sample.db))
       = (tasks Sample.db ++ [r])%list
       /\ Task.user_id r = Some "u2" /\ Task.created_by r = Some "m1".
Proof.
  intros b.
  destruct (manager_assigns_to_any_user Sample.rt b Sample.db
              "file report" "u2") as (E & Ho & Hc);
    try reflexivity; try discriminate.
  - repeat split; try reflexivity.
    intros x [<-|[<-|[<-|[<-|[]]]]]; discriminate.
  - rewrite E. split; [reflexivity|].
    eexists. split; [reflexivity|]. split; [exact Ho | exact Hc].
Defined.

(** X6. A Supervisor or Manager who creates a task for themselves is
    not asked for a [userId]: with [userId] null or absent the task is
    stored with neither owner nor creator, and the response carries the
    inserted rows as an array, not as one object. *)
Theorem self_assigned_create_without_userId (rt : Runtime)
    (b : TasksRoute.PostBody) (db : Db) (ttl : string) :
  supabase rt = true -> tasks_read db = true -> tasks_write db = true ->
  TasksRoute.post_title b = Str ttl -> ttl <> "" ->
  (TasksRoute.post_role b = Str "Supervisor"
   \/ TasksRoute.post_role b = Str "Manager") ->
  truthy (TasksRoute.post_assignedUserId b) = false ->
  to_column (TasksRoute.post_userId b) = None ->
  (forall x, In x (tasks db) -> Task.id x <> uuid_generate_v4 rt) ->
  let r := {| Task.id := uuid_generate_v4 rt;
              Task.user_id := None;
              Task.created_by := None;
              Task.title := ttl;
              Task.completed := Some false;
              Task.completed_at := None;
              Task.created_at := toISOString rt |} in
  TasksRoute.POST rt (Some b) db
  = (json (body_task_rows (Some [r])), with_tasks db (tasks db ++ [r])).
Proof.
  intros Hs Htr Htw Ht Httl Hrole Hna Hu Hfresh r.
  assert (insert_task rt true
            (TasksRoute.new_task (Str ttl) (TasksRoute.post_userId b)
               (TasksRoute.post_userId b)) db
          = (Val (ok [r]), with_tasks db (tasks db ++ [r]))) as Hi.
  { assert (new_task_row rt ttl
              (TasksRoute.new_task (Str ttl) (TasksRoute.post_userId b)
                 (TasksRoute.post_userId b)) = r) as <-.
    { unfold new_task_row. simpl. now rewrite Hu. }
    apply insert_task_accepts; [reflexivity|].
    unfold task_insertable, new_task_row. simpl. rewrite Hu.
    repeat split; assumption || reflexivity. }
  unfold TasksRoute.POST. run.
  rewrite Hs, Ht, (truthy_Str _ Httl), Hna. simpl.
  destruct Hrole as [-> | ->]; simpl.
  - change (eq_lit (Str "Supervisor") "User") with false.
    change (eq_lit (Str "Supervisor") "Supervisor") with true. simpl.
    rewrite Hi. reflexivity.
  - change (eq_lit (Str "Manager") "User") with false.
    change (eq_lit (Str "Manager") "Supervisor") with false.
    change (eq_lit (Str "Manager") "Manager") with true. simpl.
    rewrite Hi. reflexivity.
Qed.

Lemma self_assigned_create_without_userId_witness :
  let b := {| TasksRoute.post_title := Str "plan quarter";
              TasksRoute.post_userId := Undefined;
              TasksRoute.post_createdBy := Undefined;
              TasksRoute.post_role := Str "Manager";
              TasksRoute.post_assignedUserId := Undefined |} in
  exists r,
    TasksRoute.POST Sample.rt (Some b) Sample.db
    = (json (body_task_rows (Some [r])),
       with_tasks Sample.db (tasks Sample.db ++ [r]))
    /\ Task.user_id r = None /\ Task.created_by r = None.
Proof.
  intros b. eexists. split.
  - apply (self_assigned_create_without_userId Sample.rt b Sample.db
             "plan quarter"); try reflexivity; try discriminate.
    + now right.
    + intros x [<-|[<-|[<-|[<-|[]]]]]; discriminate.
  - split; reflexivity.
Defined.

(** ** Who may update and delete *)

(** The requests [DELETE] lets through for a role other than
    Supervisor. *)
Lemma DELETE_goes_through (rt : Runtime) (id userId role : JsStr) (db : Db)
    (t : Task.row) :
  supabase rt = true -> tasks_read db = true -> tasks_write db = true ->
  truthy id = true -> truthy userId = true -> truthy role = true ->
  filter (fun t => col_eq (Some (Task.id t)) id) (tasks db) = [t] ->
  eq_lit role "Supervisor" = false ->
  (eq_lit role "User" = true ->
   strict_eq (of_column (Task.user_id t)) userId = true) ->
  TasksRoute.DELETE rt id userId role db
  = (json body_success,
     with_tasks db
       (filter (fun t => negb (col_eq (Some (Task.id t)) id)) (tasks db))).
Proof.
  intros Hs Htr Htw Hid Hu Hr F HS HU.
  unfold TasksRoute.DELETE. run. rewrite Hs, Hid, Hu, Hr. simpl.
  rewrite Htr. simpl. rewrite F. simpl.
  destruct (eq_lit role "User") eqn:EU; simpl.
  - rewrite (HU eq_refl). simpl. rewrite HS. simpl. now rewrite Htw.
  - rewrite HS. simpl. now rewrite Htw.
Qed.

(** X29. A task update that carries a JSON boolean [completed = c] and
    goes through leaves the targeted row with [completed = c] and with
    [completed_at] set to the time of the update when [c] is true and
    NULL when [c] is false, so the timestamp is present exactly when
    the flag is true; flag and timestamp are written by one update of
    the table; an update that does not go through leaves the store as
    it was; and the owner's (or a manager's) update of an existing task
    does go through. *)
Theorem toggle_sets_or_clears_timestamp (rt : Runtime)
    (b : TasksRoute.PutBody) (c : bool) (db : Db) :
  TasksRoute.put_completed b = BVal c ->
  let resp := fst (TasksRoute.PUT rt (Some b) db) in
  let db' := snd (TasksRoute.PUT rt (Some b) db) in
  let targeted t := col_eq (Some (Task.id t)) (TasksRoute.put_id b) = true in
  (status resp = 200 ->
     (exists t', body resp = body_task (Some t')
                 /\ In t' (tasks db') /\ targeted t')
     /\ (forall t', In t' (tasks db') -> targeted t' ->
           Task.completed t' = Some c
           /\ Task.completed_at t'
              = (if c then Some (toISOString rt) else None)
           /\ (Task.completed t' = Some true <-> Task.completed_at t' <> None))
     /\ db' = snd (update_tasks rt
                     {| TaskPatch.completed := BVal c;
                        TaskPatch.completed_at :=
                          if c then Str (toISOString rt) else Null |}
                     (fun t => col_eq (Some (Task.id t)) (TasksRoute.put_id b))
                     db))
  /\ (status resp <> 200 -> db' = db)
  /\ (forall t,
        supabase rt = true -> tasks_read db = true -> tasks_write db = true ->
        TasksRoute.put_id b <> Undefined ->
        filter (fun t => col_eq (Some (Task.id t)) (TasksRoute.put_id b))
               (tasks db) = [t] ->
        eq_lit (TasksRoute.put_role b) "Supervisor" = false ->
        (eq_lit (TasksRoute.put_role b) "User" = true ->
         strict_eq (of_column (Task.user_id t)) (TasksRoute.put_userId b)
         = true) ->
        status resp = 200).
Proof.
  intros Hc resp db' targeted.
  assert (TasksRoute.updatePayload rt (TasksRoute.put_completed b)
          = {| TaskPatch.completed := BVal c;
               TaskPatch.completed_at :=
                 if c then Str (toISOString rt) else Null |}) as Hp.
  { rewrite Hc. unfold TasksRoute.updatePayload. now destruct c. }
  destruct (PUT_cases rt (Some b) db)
    as [[Hsame Hst] | (b0 & t & [= <-] & _ & F & Hw & Hr & Hread & E)];
    (split; [|split]).
  - intros H200. now elim (refusal_not_200 _ Hst).
  - intros _. exact Hsame.
  - intros t Hs Htr Htw Hid F HS HU.
    apply (PUT_goes_through rt b db t); try assumption;
      rewrite Hc; discriminate.
  - intros _. subst resp db' targeted. rewrite E, Hp. simpl.
    rewrite tasks_after_update
      by (assumption || now destruct c). simpl.
    assert (In t (tasks db)
            /\ col_eq (Some (Task.id t)) (TasksRoute.put_id b) = true)
      as [Hin Hid].
    { apply (filter_In
               (fun t => col_eq (Some (Task.id t)) (TasksRoute.put_id b))).
      rewrite F. now left. }
    split; [|split; [|reflexivity]].
    + eexists. split; [reflexivity|]. split.
      * apply in_map_iff. exists t. split; [|assumption]. now rewrite Hid.
      * exact Hid.
    + intros t' Hin' Hid'. apply in_map_iff in Hin' as (r & Er & _).
      destruct (col_eq (Some (Task.id r)) (TasksRoute.put_id b)) eqn:Hr'.
      * subst t'. unfold TaskPatch.apply. simpl.
        destruct c; simpl; repeat split; congruence.
      * subst t'. congruence.
  - intros Hne. elim Hne. subst resp. now rewrite E.
  - intros t0 _ _ _ _ _ _ _. subst resp. now rewrite E.
Qed.

Lemma toggle_sets_or_clears_timestamp_witness :
  let b := {| TasksRoute.put_id := Str "t1";
              TasksRoute.put_completed := BVal true;
              TasksRoute.put_role := Str "User";
              TasksRoute.put_userId := Str "u1" |} in
  exists t',
    body (fst (TasksRoute.PUT Sample.rt (Some b) Sample.db))
    = body_task (Some t')
    /\ In t' (tasks (snd (TasksRoute.PUT Sample.rt (Some b) Sample.db)))
    /\ Task.completed t' = Some true
    /\ Task.completed_at t' = Some (toISOString Sample.rt).
Proof.
  intros b.
  destruct (toggle_sets_or_clears_timestamp Sample.rt b true Sample.db eq_refl)
    as (H200 & _ & _).
  destruct (H200 eq_refl) as ((t' & Hb & Hin & Hid) & Hall & _).
  exists t'. destruct (Hall t' Hin Hid) as (Hc & Hat & _).
  repeat split; assumption.
Defined.

(** The Supervisor branch of [PUT], by the outcome of its comparison. *)
Lemma PUT_supervisor_check (rt : Runtime)
    (b : TasksRoute.PutBody) (db : Db) (t : Task.row) (o : User.row) :
  supabase rt = true -> tasks_read db = true -> users_read db = true ->
  TasksRoute.put_id b <> Undefined ->
  TasksRoute.put_role b = Str "Supervisor" ->
  filter (fun t => col_eq (Some (Task.id t)) (TasksRoute.put_id b)) (tasks db)
  = [t] ->
  filter (fun u => col_eq (Some (User.id u)) (of_column (Task.user_id t)))
         (users db) = [o] ->
  (strict_eq (of_column (User.supervisor_id o)) (TasksRoute.put_userId b)
   = false ->
   TasksRoute.PUT rt (Some b) db
   = (json_status
        (body_error "You can only update tasks for users you supervise") 403,
      db))
  /\ (strict_eq (of_column (User.supervisor_id o)) (TasksRoute.put_userId b)
      = true ->
      tasks_write db = true ->
      TasksRoute.put_completed b <> BUndefined ->
      to_columnb rt (TasksRoute.put_completed b) <> None ->
      TasksRoute.PUT rt (Some b) db
      = (json (body_task
                 (Some (TaskPatch.apply rt
                          (TasksRoute.updatePayload rt
                             (TasksRoute.put_completed b)) t))),
         with_tasks db
           (map (fun r =>
                   if col_eq (Some (Task.id r)) (TasksRoute.put_id b)
                   then TaskPatch.apply rt
                          (TasksRoute.updatePayload rt
                             (TasksRoute.put_completed b)) r
                   else r)
                (tasks db)))).
Proof.
  intros Hs Htr Hur Hid Hrole F Fo.
  assert (strict_eq (TasksRoute.put_id b) Undefined = false) as E.
  { destruct (TasksRoute.put_id b); try reflexivity. now elim Hid. }
  split.
  - intros Hno. unfold TasksRoute.PUT. run. rewrite Hs, Hrole, E. simpl.
    rewrite Htr. simpl. rewrite F. simpl.
    change (eq_lit (Str "Supervisor") "User") with false.
    change (eq_lit (Str "Supervisor") "Supervisor") with true. simpl.
    rewrite Hur. simpl. rewrite Fo. simpl. rewrite Hno. reflexivity.
  - intros Hyes Htw Hc Hread.
    apply (updatePayload_is_empty rt) in Hc.
    apply (updatePayload_readable rt) in Hread.
    unfold TasksRoute.PUT. run.
    rewrite Hs, Hrole, E. simpl.
    rewrite Htr. simpl. rewrite F. simpl.
    change (eq_lit (Str "Supervisor") "User") with false.
    change (eq_lit (Str "Supervisor") "Supervisor") with true. simpl.
    rewrite Hur. simpl. rewrite Fo. simpl. rewrite Hyes. simpl.
    rewrite Htw, Htr. simpl. rewrite Hc, Hread.
    simpl. rewrite F. reflexivity.
Qed.

(** X7. A Supervisor's update is checked by one comparison,
    [taskOwner.supervisor_id !== userId], and [userId] itself is not
    required. With a [userId] that is a string the answer is 403 and
    nothing is written unless the owner's supervisor is that user (so
    also for a task the Supervisor owns without being their own
    supervisor), and then the update is applied. With no [userId] key
    the answer is always 403. With [userId: null] the answer is 403
    when the owner has a supervisor, but the update of a task whose
    owner has none is applied, as [null !== null] is false. *)
Theorem supervisor_update_check (rt : Runtime)
    (b : TasksRoute.PutBody) (db : Db) (t : Task.row) (o : User.row) :
  supabase rt = true -> tasks_read db = true -> users_read db = true ->
  TasksRoute.put_id b <> Undefined ->
  TasksRoute.put_role b = Str "Supervisor" ->
  filter (fun t => col_eq (Some (Task.id t)) (TasksRoute.put_id b)) (tasks db)
  = [t] ->
  filter (fun u => col_eq (Some (User.id u)) (of_column (Task.user_id t)))
         (users db) = [o] ->
  let payload := TasksRoute.updatePayload rt (TasksRoute.put_completed b) in
  let refused :=
    TasksRoute.PUT rt (Some b) db
    = (json_status
         (body_error "You can only update tasks for users you supervise") 403,
       db) in
  let applied :=
    tasks_write db = true ->
    TasksRoute.put_completed b <> BUndefined ->
    to_columnb rt (TasksRoute.put_completed b) <> None ->
    TasksRoute.PUT rt (Some b) db
    = (json (body_task (Some (TaskPatch.apply rt payload t))),
       with_tasks db
         (map (fun r =>
                 if col_eq (Some (Task.id r)) (TasksRoute.put_id b)
                 then TaskPatch.apply rt payload r
                 else r)
              (tasks db))) in
  (forall uid, TasksRoute.put_userId b = Str uid ->
               User.supervisor_id o <> Some uid -> refused)
  /\ (forall uid, TasksRoute.put_userId b = Str uid ->
                  User.supervisor_id o = Some uid -> applied)
  /\ (TasksRoute.put_userId b = Undefined -> refused)
  /\ (TasksRoute.put_userId b = Null ->
      User.supervisor_id o <> None -> refused)
  /\ (TasksRoute.put_userId b = Null ->
      User.supervisor_id o = None -> applied).
Proof.
  intros Hs Htr Hur Hid Hrole F Fo payload refused applied.
  destruct (PUT_supervisor_check rt b db t o Hs Htr Hur Hid Hrole F Fo)
    as [Hno Hyes].
  split; [|split; [|split; [|split]]].
  - intros uid Eu Hsup. apply Hno. rewrite Eu.
    now apply strict_eq_column_Str_false.
  - intros uid Eu Hsup Htw Hc Hread. apply Hyes; try assumption.
    rewrite Eu. now apply strict_eq_column_Str.
  - intros Eu. apply Hno. rewrite Eu. apply strict_eq_column_Undefined.
  - intros Eu Hsup. apply Hno. rewrite Eu.
    now apply strict_eq_column_Null_false.
  - intros Eu Hsup Htw Hc Hread. apply Hyes; try assumption.
    rewrite Eu. now apply strict_eq_column_Null.
Qed.

Lemma supervisor_update_check_witness :
  let own := {| TasksRoute.put_id := Str "t2";
                TasksRoute.put_completed := BVal true;
                TasksRoute.put_role := Str "Supervisor";
                TasksRoute.put_userId := Str "s1" |} in
  let team := {| TasksRoute.put_id := Str "t1";
                 TasksRoute.put_completed := BVal true;
                 TasksRoute.put_role := Str "Supervisor";
                 TasksRoute.put_userId := Str "s1" |} in
  let anonymous := {| TasksRoute.put_id := Str "t3";
                      TasksRoute.put_completed := BVal true;
                      TasksRoute.put_role := Str "Supervisor";
                      TasksRoute.put_userId := Null |} in
  TasksRoute.PUT Sample.rt (Some own) Sample.db
  = (json_status
       (body_error "You can only update tasks for users you supervise") 403,
     Sample.db)
  /\ status (fst (TasksRoute.PUT Sample.rt (Some team) Sample.db)) = 200
  /\ status (fst (TasksRoute.PUT Sample.rt (Some anonymous) Sample.db)) = 200.
Proof.
  intros own team anonymous. split; [|split].
  - destruct (supervisor_update_check Sample.rt own
                Sample.db Sample.t2 Sample.sam eq_refl eq_refl eq_refl
                ltac:(discriminate) eq_refl eq_refl eq_refl) as (H & _).
    apply (H "s1"); [reflexivity | discriminate].
  - destruct (supervisor_update_check Sample.rt team
                Sample.db Sample.t1 Sample.uma eq_refl eq_refl eq_refl
                ltac:(discriminate) eq_refl eq_refl eq_refl)
      as (_ & H & _).
    rewrite (H "s1" eq_refl eq_refl eq_refl);
      [reflexivity | discriminate | discriminate].
  - destruct (supervisor_update_check Sample.rt anonymous
                Sample.db Sample.t3 Sample.ugo eq_refl eq_refl eq_refl
                ltac:(discriminate) eq_refl eq_refl eq_refl)
      as (_ & _ & _ & _ & H).
    rewrite (H eq_refl eq_refl eq_refl);
      [reflexivity | discriminate | discriminate].
Defined.



Lemma filter_swap {A : Type} (p q : A -> bool) (l : list A) :
  filter p (filter q l) = filter q (filter p l).
Proof.
  induction l as [|a l IH]; simpl; [reflexivity|].
  destruct (q a) eqn:Eq, (p a) eqn:Ep; simpl; rewrite ?Eq, ?Ep, IH;
    reflexivity.
Qed.

(** X9. Whatever the delete request, nothing but the tasks table
    changes; either the store is as it was, under status 400, 403 or
    500, or the answer is [{ success: true }] and exactly one row, the
    one with the requested id, is gone while every other row is kept. *)
Theorem delete_removes_only_the_named_task (rt : Runtime)
    (id userId role : JsStr) (db : Db) :
  let resp := fst (TasksRoute.DELETE rt id userId role db) in
  let db' := snd (TasksRoute.DELETE rt id userId role db) in
  (db' = db /\ (status resp = 400 \/ status resp = 403 \/ status resp = 500))
  \/ (resp = json body_success
      /\ db' = with_tasks db (tasks db')
      /\ (forall x, In x (tasks db') <->
                    In x (tasks db)
                    /\ col_eq (Some (Task.id x)) id = false)
      /\ length (tasks db) = S (length (tasks db'))).
Proof.
  intros resp db'. subst resp db'.
  destruct (DELETE_cases rt id userId role db) as [[Hsame Hst] | (t & F & E)].
  - left. split; assumption.
  - right. rewrite E. simpl. split; [reflexivity|]. split; [reflexivity|].
    split.
    + intros x. rewrite filter_In, negb_true_iff. reflexivity.
    + rewrite <- (filter_length
                    (fun t => col_eq (Some (Task.id t)) id) (tasks db)).
      rewrite F. reflexivity.
Qed.

(** X10. A User who deletes an own task is answered
    [{ success: true }]; afterwards the task is in no listing of that
    user while the user's other tasks still are, and the same delete
    request repeated is answered 500. *)
Theorem owner_delete_then_gone (rt : Runtime) (db : Db) (t : Task.row)
    (uid : string) :
  supabase rt = true -> tasks_read db = true -> tasks_write db = true ->
  tasks_pkey db -> In t (tasks db) ->
  Task.id t <> "" -> uid <> "" -> Task.user_id t = Some uid ->
  let del := TasksRoute.DELETE rt (Str (Task.id t)) (Str uid) (Str "User") in
  fst (del db) = json body_success
  /\ ~ In t (tasks (snd (del db)))
  /\ (forall supervisorId l,
        listed (fst (TasksRoute.GET rt (Str uid) (Str "User") supervisorId db))
        = Some l ->
        listed (fst (TasksRoute.GET rt (Str uid) (Str "User") supervisorId
                       (snd (del db))))
        = Some (filter (fun x => negb (String.eqb (Task.id x) (Task.id t))) l))
  /\ del (snd (del db))
     = (json_status (body_error "Error deleting task") 500, snd (del db)).
Proof.
  intros Hs Htr Htw Hpk Hin Hid Hu Hown del. subst del.
  assert (filter (fun x => col_eq (Some (Task.id x)) (Str (Task.id t)))
            (tasks db) = [t]) as F.
  { change (fun x : Task.row => col_eq (Some (Task.id x)) (Str (Task.id t)))
      with (fun x : Task.row => String.eqb (Task.id x) (Task.id t)).
    now apply filter_key. }
  assert (TasksRoute.DELETE rt (Str (Task.id t)) (Str uid) (Str "User") db
          = (json body_success,
             with_tasks db
               (filter (fun x => negb (col_eq (Some (Task.id x))
                                         (Str (Task.id t)))) (tasks db))))
    as E.
  { apply (DELETE_goes_through rt _ _ _ db t); try assumption;
      try (now apply truthy_Str); try reflexivity.
    intros _. rewrite Hown. unfold of_column, strict_eq.
    apply String.eqb_refl. }
  rewrite E. simpl.
  split; [reflexivity|]. split; [|split].
  - intros H. apply filter_In in H as [_ H].
    unfold col_eq in H. now rewrite String.eqb_refl in H.
  - intros supervisorId l.
    rewrite (GET_User rt db uid supervisorId Hs Htr Hu).
    rewrite (GET_User rt
               (with_tasks db
                  (filter (fun x => negb (col_eq (Some (Task.id x))
                                            (Str (Task.id t)))) (tasks db)))
               uid supervisorId Hs Htr Hu).
    unfold listed. simpl. rewrite !map_row_star. intros [= <-].
    f_equal. apply filter_swap.
  - apply DELETE_missing_task; try assumption; try (now apply truthy_Str);
      try reflexivity.
    intros x Hx. simpl in Hx. apply filter_In in Hx as [_ Hx].
    now apply negb_true_iff in Hx.
Qed.

Lemma owner_delete_then_gone_witness :
  let del := TasksRoute.DELETE Sample.rt (Str "t1") (Str "u1") (Str "User") in
  fst (del Sample.db) = json body_success
  /\ listed (fst (TasksRoute.GET Sample.rt (Str "u1") (Str "User") Null
                    (snd (del Sample.db))))
     = Some [Sample.t4]
  /\ status (fst (del (snd (del Sample.db)))) = 500.
Proof.
  intros del.
  assert (tasks_pkey Sample.db) as Hpk.
  { unfold tasks_pkey. simpl.
    repeat constructor; simpl; intuition discriminate. }
  destruct (owner_delete_then_gone Sample.rt Sample.db Sample.t1 "u1"
              eq_refl eq_refl eq_refl Hpk (or_introl eq_refl)
              ltac:(discriminate) ltac:(discriminate) eq_refl)
    as (H1 & _ & H3 & H4).
  split; [exact H1|]. split.
  - apply (H3 Null [Sample.t1; Sample.t4]). reflexivity.
  - exact (f_equal (fun p : Response * Db => status (fst p)) H4).
Defined.

(** X11. [DELETE] takes the role from the request: under any role
    other than User and Supervisor, Manager or any other non-empty
    text, an existing task is deleted whoever owns it and whatever
    [userId] the request carries. *)
Theorem other_roles_delete_any_task (rt : Runtime) (i : string)
    (userId role : JsStr) (db : Db) (t : Task.row) :
  supabase rt = true -> tasks_read db = true -> tasks_write db = true ->
  tasks_pkey db -> In t (tasks db) -> Task.id t = i -> i <> "" ->
  truthy userId = true -> truthy role = true ->
  role <> Str "User" -> role <> Str "Supervisor" ->
  TasksRoute.DELETE rt (Str i) userId role db
  = (json body_success,
     with_tasks db
       (filter (fun x => negb (String.eqb (Task.id x) i)) (tasks db)))
  /\ ~ In t (tasks (snd (TasksRoute.DELETE rt (Str i) userId role db))).
Proof.
  intros Hs Htr Htw Hpk Hin <- Hid Hu Hr HU HS.
  assert (TasksRoute.DELETE rt (Str (Task.id t)) userId role db
          = (json body_success,
             with_tasks db
               (filter (fun x => negb (String.eqb (Task.id x) (Task.id t)))
                       (tasks db)))) as E.
  { apply (DELETE_goes_through rt (Str (Task.id t)) userId role db t);
      try assumption.
    - now apply truthy_Str.
    - change (fun x : Task.row => col_eq (Some (Task.id x)) (Str (Task.id t)))
        with (fun x : Task.row => String.eqb (Task.id x) (Task.id t)).
      now apply filter_key.
    - now apply eq_lit_false.
    - rewrite (eq_lit_false _ _ HU). discriminate. }
  split; [exact E|]. rewrite E. simpl.
  intros H. apply filter_In in H as [_ H].
  now rewrite String.eqb_refl in H.
Qed.

Lemma other_roles_delete_any_task_witness :
  tasks (snd (TasksRoute.DELETE Sample.rt (Str "t3") (Str "nobody")
                (Str "guest") Sample.db))
  = [Sample.t1; Sample.t2; Sample.t4].
Proof.
  assert (tasks_pkey Sample.db) as Hpk.
  { unfold tasks_pkey. simpl.
    repeat constructor; simpl; intuition discriminate. }
  destruct (other_roles_delete_any_task Sample.rt "t3" (Str "nobody")
              (Str "guest") Sample.db Sample.t3 eq_refl eq_refl eq_refl Hpk
              ltac:(simpl; auto) eq_refl ltac:(discriminate) eq_refl eq_refl
              ltac:(discriminate) ltac:(discriminate)) as [E _].
  rewrite E. reflexivity.
Defined.

(** ** Login and signup *)

Lemma existsb_false_iff {A : Type} (p : A -> bool) (l : list A) :
  existsb p l = false <-> forall x, In x l -> p x = false.
Proof.
  split.
  - intros E x Hin. destruct (p x) eqn:Ep; [|reflexivity].
    assert (existsb p l = true) as C
      by (apply existsb_exists; now exists x).
    congruence.
  - intros H. destruct (existsb p l) eqn:E; [|reflexivity].
    apply existsb_exists in E as (x & Hin & Ep).
    rewrite (H x Hin) in Ep. discriminate.
Qed.

Lemma not_supervisor_or_manager_false (role : string) :
  not_supervisor_or_manager role = false
  <-> role = "Supervisor" \/ role = "Manager".
Proof.
  unfold not_supervisor_or_manager.
  destruct (String.eqb_spec role "Supervisor") as [E1|H1];
    destruct (String.eqb_spec role "Manager") as [E2|H2]; simpl;
    split; intros H; try discriminate H; auto.
  destruct H as [H|H]; contradiction.
Qed.

(** The object the signup flow inserts and the row it becomes. *)
Lemma insert_user_cases (rt : Runtime) (name pw : string) (role sup : JsStr)
    (db : Db) :
  truthy role = true ->
  (exists e,
     insert_user rt true
       {| NewUser.username := Str name;
          NewUser.password_hash := Str pw;
          NewUser.role := role;
          NewUser.supervisor_id := sup |} db = (Val (failed e), db))
  \/ (user_insertable rt db
        {| User.id := uuid_generate_v4 rt;
           User.username := name;
           User.password_hash := pw;
           User.role := AuthRoute.text role;
           User.supervisor_id := to_column sup;
           User.created_at := toISOString rt |}
      /\ insert_user rt true
           {| NewUser.username := Str name;
              NewUser.password_hash := Str pw;
              NewUser.role := role;
              NewUser.supervisor_id := sup |} db
         = (Val (ok [{| User.id := uuid_generate_v4 rt;
                        User.username := name;
                        User.password_hash := pw;
                        User.role := AuthRoute.text role;
                        User.supervisor_id := to_column sup;
                        User.created_at := toISOString rt |}]),
            with_users db
              (users db ++ [{| User.id := uuid_generate_v4 rt;
                               User.username := name;
                               User.password_hash := pw;
                               User.role := AuthRoute.text role;
                               User.supervisor_id := to_column sup;
                               User.created_at := toISOString rt |}]))).
Proof.
  intros Hrole.
  destruct (truthy_inv role Hrole) as (rl & -> & _).
  unfold insert_user, user_insertable. simpl.
  destruct (users_write db); simpl; [|left; eexists; reflexivity].
  destruct (users_read db); simpl; [|left; eexists; reflexivity].
  destruct (fk_ok (users db) (to_column sup)) eqn:F; simpl;
    [|left; eexists; reflexivity].
  destruct (existsb _ (users db)) eqn:Fx; [left; eexists; reflexivity|].
  right. split; [|reflexivity].
  split; [reflexivity|]. split; [reflexivity|]. split; [reflexivity|].
  intros x Hin.
  pose proof (proj1 (existsb_false_iff _ _) Fx x Hin) as Hx.
  simpl in Hx. apply orb_false_iff in Hx as [H1 H2].
  apply String.eqb_neq in H1, H2. now split.
Qed.

Lemma insert_user_accepts (rt : Runtime) (name pw : string) (role sup : JsStr)
    (db : Db) :
  truthy role = true ->
  user_insertable rt db
    {| User.id := uuid_generate_v4 rt;
       User.username := name;
       User.password_hash := pw;
       User.role := AuthRoute.text role;
       User.supervisor_id := to_column sup;
       User.created_at := toISOString rt |} ->
  insert_user rt true
    {| NewUser.username := Str name;
       NewUser.password_hash := Str pw;
       NewUser.role := role;
       NewUser.supervisor_id := sup |} db
  = (Val (ok [{| User.id := uuid_generate_v4 rt;
                 User.username := name;
                 User.password_hash := pw;
                 User.role := AuthRoute.text role;
                 User.supervisor_id := to_column sup;
                 User.created_at := toISOString rt |}]),
     with_users db
       (users db ++ [{| User.id := uuid_generate_v4 rt;
                        User.username := name;
                        User.password_hash := pw;
                        User.role := AuthRoute.text role;
                        User.supervisor_id := to_column sup;
                        User.created_at := toISOString rt |}])).
Proof.
  intros Hrole (Hw & Hr & F & Hfresh).
  destruct (truthy_inv role Hrole) as (rl & -> & _).
  unfold insert_user. simpl in *. rewrite Hw, Hr, F. simpl.
  assert (existsb (fun x => String.eqb (User.id x) (uuid_generate_v4 rt)
                            || String.eqb (User.username x) name)
            (users db) = false) as ->; [|reflexivity].
  apply existsb_false_iff. intros x Hin.
  destruct (Hfresh x Hin) as [H1 H2].
  apply String.eqb_neq in H1, H2. now rewrite H1, H2.
Qed.

Lemma or_User_truthy (role : JsStr) : truthy (AuthRoute.or_User role) = true.
Proof.
  unfold AuthRoute.or_User. destruct (truthy role) eqn:E; [exact E|reflexivity].
Qed.

(** The signup and login handler either leaves the store as it was, or
    it was a signup that passed every test and appended its row. *)
Lemma auth_POST_cases (rt : Runtime) (req : option AuthRoute.PostBody)
    (db : Db) :
  snd (AuthRoute.POST rt req db) = db
  \/ (exists b,
        req = Some b
        /\ AuthRoute.isLogin b = false
        /\ truthy (AuthRoute.username b) = true
        /\ truthy (AuthRoute.password b) = true
        /\ supervisor_accepted db (AuthRoute.supervisorId b)
        /\ user_insertable rt db (registered rt b)
        /\ AuthRoute.POST rt req db
           = (json (body_user (AuthRoute.userWithoutPassword (registered rt b))),
              with_users db (users db ++ [registered rt b]))).
Proof.
  unfold AuthRoute.POST. run.
  destruct (supabase rt); simpl; [|now left].
  destruct req as [b|]; simpl; [|now left].
  destruct (truthy (AuthRoute.username b)) eqn:Hn; simpl; [|now left].
  destruct (truthy (AuthRoute.password b)) eqn:Hp; simpl; [|now left].
  destruct (truthy_inv _ Hn) as (name & En & _).
  destruct (truthy_inv _ Hp) as (pw & Ep & _).
  destruct (AuthRoute.isLogin b) eqn:Hl; simpl.
  { destruct (users_read db); simpl; [|now left].
    destruct (filter _ (users db)) as [|u [|u' more]]; simpl; try now left.
    destruct (compare rt _ _); now left. }
  rewrite ?map_id. rewrite En, Ep. simpl.
  assert (forall a,
            to_column a
            = (if truthy (AuthRoute.supervisorId b)
               then to_column (AuthRoute.supervisorId b) else None) ->
            {| User.id := uuid_generate_v4 rt;
               User.username := name;
               User.password_hash := hash rt pw (genSalt rt);
               User.role := AuthRoute.text (AuthRoute.or_User (AuthRoute.role b));
               User.supervisor_id := to_column a;
               User.created_at := toISOString rt |} = registered rt b) as Hreg.
  { intros a Ha. unfold registered. rewrite En, Ep, Ha. reflexivity. }
  destruct (data (single _)) as [existingUser|]; [now left|].
  destruct (truthy (AuthRoute.supervisorId b)) eqn:Hsup; simpl.
  - destruct (users_read db) eqn:Hur; simpl; [|now left].
    destruct (filter (fun u => col_eq (Some (User.id u))
                                      (AuthRoute.supervisorId b)) (users db))
      as [|s [|s' more]] eqn:Fs; simpl; try now left.
    destruct (not_supervisor_or_manager (User.role s)) eqn:Hrole; simpl;
      [now left|].
    destruct (insert_user_cases rt name (hash rt pw (genSalt rt))
                (AuthRoute.or_User (AuthRoute.role b))
                (AuthRoute.supervisorId b) db (or_User_truthy _))
      as [(e & E) | (Hok & E)]; rewrite E; simpl; [now left|].
    right. exists b. rewrite <- (Hreg (AuthRoute.supervisorId b) eq_refl).
    repeat (split; [first [reflexivity | assumption]|]).
    split; [|split; [exact Hok | reflexivity]].
    right. exists s. split; [exact Fs|].
    now apply not_supervisor_or_manager_false.
  - destruct (insert_user_cases rt name (hash rt pw (genSalt rt))
                (AuthRoute.or_User (AuthRoute.role b))
                Undefined db (or_User_truthy _))
      as [(e & E) | (Hok & E)]; rewrite E; simpl; [now left|].
    right. exists b. rewrite <- (Hreg Undefined eq_refl).
    repeat (split; [first [reflexivity | assumption]|]).
    split; [now left|]. split; [exact Hok | reflexivity].
Qed.

(** X12. Login and signup never touch the tasks table and never change
    or remove a user row; a signup that is accepted appends one row,
    and if every supervisor reference pointed to a Supervisor or a
    Manager before, it does so afterwards. *)
Theorem auth_POST_keeps_supervisors_ok (rt : Runtime)
    (req : option AuthRoute.PostBody) (db : Db) :
  let db' := snd (AuthRoute.POST rt req db) in
  tasks db' = tasks db
  /\ (users db' = users db
      \/ exists r, users db' = (users db ++ [r])%list
                   /\ User.id r = uuid_generate_v4 rt
                   /\ User.username r <> "" /\ User.role r <> "")
  /\ (supervisors_ok (users db) -> supervisors_ok (users db')).
Proof.
  intros db'. subst db'.
  destruct (auth_POST_cases rt req db)
    as [-> | (b & -> & Hl & Hn & Hp & Hacc & Hok & ->)].
  - split; [reflexivity|]. split; [now left | trivial].
  - simpl. split; [reflexivity|]. split.
    + right. exists (registered rt b). split; [reflexivity|].
      split; [reflexivity|]. simpl.
      destruct (truthy_inv _ Hn) as (name & -> & Hname). split; [exact Hname|].
      unfold AuthRoute.or_User.
      destruct (truthy (AuthRoute.role b)) eqn:Hr; [|discriminate].
      now destruct (truthy_inv _ Hr) as (rl & -> & Hrl).
    + intros Hinv u s Hin Hs. apply in_app_or in Hin as [Hin | [<- | []]].
      * destruct (Hinv u s Hin Hs) as (v & Hv & Hid & Hrole).
        exists v. split; [apply in_or_app; now left | now split].
      * simpl in Hs. destruct Hacc as [Hno | (sup & Fs & Hrole)].
        -- rewrite Hno in Hs. discriminate.
        -- assert (In sup (filter (fun u => col_eq (Some (User.id u))
                                     (AuthRoute.supervisorId b)) (users db)))
             as Hsup by (rewrite Fs; now left).
           apply filter_In in Hsup as [Hsup Hid].
           destruct (truthy (AuthRoute.supervisorId b)); [|discriminate].
           destruct (AuthRoute.supervisorId b) as [| |sid];
             try discriminate Hs.
           apply col_eq_Some in Hid. injection Hid as Hid.
           injection Hs as <-.
           exists sup. split; [apply in_or_app; now left | now split].
Qed.

Lemma auth_POST_keeps_supervisors_ok_witness :
  let b := {| AuthRoute.username := Str "zoe";
              AuthRoute.password := Str "secret";
              AuthRoute.isLogin := false;
              AuthRoute.role := Undefined;
              AuthRoute.supervisorId := Str "s1" |} in
  supervisors_ok (users Sample.db)
  /\ supervisors_ok (users (snd (AuthRoute.POST Sample.rt (Some b) Sample.db)))
  /\ length (users (snd (AuthRoute.POST Sample.rt (Some b) Sample.db))) = 5%nat.
Proof.
  intros b.
  assert (supervisors_ok (users Sample.db)) as H.
  { intros u s [<-|[<-|[<-|[<-|[]]]]] Hs; try discriminate Hs.
    injection Hs as <-. exists Sample.sam. simpl. auto 10. }
  split; [exact H|]. split.
  - destruct (auth_POST_keeps_supervisors_ok Sample.rt (Some b) Sample.db)
      as (_ & _ & Hk).
    exact (Hk H).
  - reflexivity.
Defined.

(** X13. A login with both credentials given never writes; it is
    answered 200, with the user row without its password hash, exactly
    when the users table is readable, one row has the username and
    bcrypt accepts the password for that row's hash; every other case
    is answered 401, an unreadable table and an unknown name alike. *)
Theorem login_outcome (rt : Runtime) (b : AuthRoute.PostBody) (db : Db) :
  supabase rt = true -> AuthRoute.isLogin b = true ->
  truthy (AuthRoute.username b) = true ->
  truthy (AuthRoute.password b) = true ->
  let resp := fst (AuthRoute.POST rt (Some b) db) in
  let accepted u :=
    users_read db = true
    /\ filter (fun u => col_eq (Some (User.username u)) (AuthRoute.username b))
              (users db) = [u]
    /\ compare rt (AuthRoute.text (AuthRoute.password b))
         (User.password_hash u) = true in
  snd (AuthRoute.POST rt (Some b) db) = db
  /\ (forall u, accepted u ->
        resp = json (body_user (AuthRoute.userWithoutPassword u)))
  /\ ((forall u, ~ accepted u) ->
      resp = json_status (body_error "Invalid username or password") 401).
Proof.
  intros Hs Hl Hn Hp resp accepted. subst resp accepted.
  unfold AuthRoute.POST. run. rewrite Hs, Hl, Hn, Hp. simpl.
  rewrite ?map_id.
  destruct (users_read db) eqn:Hur; simpl.
  - destruct (filter _ (users db)) as [|u [|u' more]] eqn:F; simpl.
    + split; [reflexivity|]. split; [|reflexivity].
      intros u (_ & [=] & _).
    + destruct (compare rt _ _) eqn:Hc; simpl.
      * split; [reflexivity|]. split.
        -- intros v (_ & [= <-] & _). reflexivity.
        -- intros H. elim (H u). now repeat split.
      * split; [reflexivity|]. split; [|reflexivity].
        intros v (_ & [= <-] & Hc'). congruence.
    + split; [reflexivity|]. split; [|reflexivity].
      intros v (_ & [=] & _).
  - split; [reflexivity|]. split; [|reflexivity].
    intros v ([=] & _).
Qed.

Lemma login_outcome_witness :
  let good := {| AuthRoute.username := Str "uma";
                 AuthRoute.password := Str "uma";
                 AuthRoute.isLogin := true;
                 AuthRoute.role := Undefined;
                 AuthRoute.supervisorId := Undefined |} in
  fst (AuthRoute.POST Sample.rt (Some good) Sample.db)
  = json (body_user (AuthRoute.userWithoutPassword Sample.uma)).
Proof.
  intros good.
  destruct (login_outcome Sample.rt good Sample.db eq_refl eq_refl eq_refl
              eq_refl) as (_ & H & _).
  apply H. repeat split.
Defined.

(** X14. A request without a username or without a password is
    answered 400, login and signup alike, and stores nothing. *)
Theorem auth_requires_credentials (rt : Runtime) (b : AuthRoute.PostBody)
    (db : Db) :
  supabase rt = true ->
  truthy (AuthRoute.username b) = false
  \/ truthy (AuthRoute.password b) = false ->
  AuthRoute.POST rt (Some b) db
  = (json_status (body_error "Username and password are required") 400, db).
Proof.
  intros Hs H. unfold AuthRoute.POST. run. rewrite Hs. simpl.
  destruct H as [-> | ->]; simpl; [reflexivity|].
  now rewrite orb_true_r.
Qed.

Lemma auth_requires_credentials_witness :
  AuthRoute.POST Sample.rt
    (Some {| AuthRoute.username := Str "uma";
             AuthRoute.password := Str "";
             AuthRoute.isLogin := true;
             AuthRoute.role := Undefined;
             AuthRoute.supervisorId := Undefined |}) Sample.db
  = (json_status (body_error "Username and password are required") 400,
     Sample.db).
Proof.
  apply (auth_requires_credentials Sample.rt _ Sample.db eq_refl).
  right. reflexivity.
Defined.

(** A signup that passes every test. *)
Lemma signup_stores (rt : Runtime) (b : AuthRoute.PostBody) (db : Db)
    (name pw : string) :
  supabase rt = true -> AuthRoute.isLogin b = false ->
  AuthRoute.username b = Str name -> name <> "" ->
  AuthRoute.password b = Str pw -> pw <> "" ->
  users_read db = true -> users_write db = true ->
  (forall x, In x (users db) ->
             User.id x <> uuid_generate_v4 rt /\ User.username x <> name) ->
  supervisor_accepted db (AuthRoute.supervisorId b) ->
  AuthRoute.POST rt (Some b) db
  = (json (body_user (AuthRoute.userWithoutPassword (registered rt b))),
     with_users db (users db ++ [registered rt b])).
Proof.
  intros Hs Hl En Hname Ep Hpw Hur Huw Hfresh Hacc.
  assert (filter (fun u => col_eq (Some (User.username u)) (Str name))
            (users db) = []) as Fn.
  { apply filter_nothing. intros x Hin.
    destruct (col_eq (Some (User.username x)) (Str name)) eqn:E;
      [|reflexivity].
    apply col_eq_Some in E. injection E as E.
    now elim (proj2 (Hfresh x Hin)). }
  assert (forall a,
            to_column a
            = (if truthy (AuthRoute.supervisorId b)
               then to_column (AuthRoute.supervisorId b) else None) ->
            fk_ok (users db) (to_column a) = true ->
            insert_user rt true
              {| NewUser.username := Str name;
                 NewUser.password_hash := Str (hash rt pw (genSalt rt));
                 NewUser.role := AuthRoute.or_User (AuthRoute.role b);
                 NewUser.supervisor_id := a |} db
            = (Val (ok [registered rt b]),
               with_users db (users db ++ [registered rt b]))) as Hins.
  { intros a Ha Hfk.
    assert (registered rt b
            = {| User.id := uuid_generate_v4 rt;
                 User.username := name;
                 User.password_hash := hash rt pw (genSalt rt);
                 User.role :=
                   AuthRoute.text (AuthRoute.or_User (AuthRoute.role b));
                 User.supervisor_id := to_column a;
                 User.created_at := toISOString rt |}) as ->.
    { unfold registered. now rewrite En, Ep, Ha. }
    apply insert_user_accepts; [apply or_User_truthy|].
    repeat split; try assumption; now apply Hfresh. }
  unfold AuthRoute.POST. run.
  rewrite Hs, Hl, En, Ep, (truthy_Str _ Hname), (truthy_Str _ Hpw). simpl.
  rewrite ?map_id. rewrite Hur, Fn. simpl.
  destruct (truthy (AuthRoute.supervisorId b)) eqn:T; simpl.
  - destruct Hacc as [Hno | (s & Fs & Hrole)]; [congruence|].
    rewrite Hur. simpl. rewrite Fs. simpl.
    apply not_supervisor_or_manager_false in Hrole. rewrite Hrole. simpl.
    rewrite (Hins (AuthRoute.supervisorId b)); [reflexivity | reflexivity |].
    assert (In s (filter (fun u => col_eq (Some (User.id u))
                            (AuthRoute.supervisorId b)) (users db)))
      as Hin by (rewrite Fs; now left).
    apply filter_In in Hin as [Hin Hid].
    destruct (AuthRoute.supervisorId b) as [| |sid]; try discriminate Hid.
    simpl. unfold has_user. apply existsb_exists. exists s.
    split; [exact Hin | exact Hid].
  - rewrite (Hins Undefined); reflexivity.
Qed.

(** X15. A signup under a fresh username, with no supervisor or with
    an existing Supervisor or Manager as supervisor, stores one new
    user and answers with it, password hash left out: the stored hash
    is bcrypt's hash of the password, and the stored role is whatever
    text the request gives as role, Manager included, or User when it
    gives none. *)
Theorem signup_creates_user (rt : Runtime) (b : AuthRoute.PostBody) (db : Db)
    (name pw : string) :
  supabase rt = true -> AuthRoute.isLogin b = false ->
  AuthRoute.username b = Str name -> name <> "" ->
  AuthRoute.password b = Str pw -> pw <> "" ->
  users_read db = true -> users_write db = true ->
  (forall x, In x (users db) ->
             User.id x <> uuid_generate_v4 rt /\ User.username x <> name) ->
  supervisor_accepted db (AuthRoute.supervisorId b) ->
  exists r,
    AuthRoute.POST rt (Some b) db
    = (json (body_user (AuthRoute.userWithoutPassword r)),
       with_users db (users db ++ [r]))
    /\ User.username r = name
    /\ User.password_hash r = hash rt pw (genSalt rt)
    /\ (forall rl, AuthRoute.role b = Str rl -> rl <> "" -> User.role r = rl)
    /\ (truthy (AuthRoute.role b) = false -> User.role r = "User")
    /\ (truthy (AuthRoute.supervisorId b) = false ->
        User.supervisor_id r = None)
    /\ (forall sid, AuthRoute.supervisorId b = Str sid -> sid <> "" ->
        User.supervisor_id r = Some sid).
Proof.
  intros Hs Hl En Hname Ep Hpw Hur Huw Hfresh Hacc.
  exists (registered rt b). split.
  - now apply (signup_stores rt b db name pw).
  - unfold registered. simpl. rewrite En, Ep. simpl.
    split; [reflexivity|]. split; [reflexivity|]. split; [|split; [|split]].
    + intros rl -> Hrl. unfold AuthRoute.or_User.
      now rewrite (truthy_Str _ Hrl).
    + intros Hno. unfold AuthRoute.or_User. now rewrite Hno.
    + intros ->. reflexivity.
    + intros sid -> Hsid. now rewrite (truthy_Str _ Hsid).
Qed.

Lemma signup_creates_user_witness :
  let b := {| AuthRoute.username := Str "max";
              AuthRoute.password := Str "secret";
              AuthRoute.isLogin := false;
              AuthRoute.role := Str "Manager";
              AuthRoute.supervisorId := Undefined |} in
  exists r,
    users (snd (AuthRoute.POST Sample.rt (Some b) Sample.db))
    = (users Sample.db ++ [r])%list
    /\ User.username r = "max" /\ User.role r = "Manager".
Proof.
  intros b.
  destruct (signup_creates_user Sample.rt b Sample.db "max" "secret")
    as (r & E & Hn & _ & Hr & _); try reflexivity; try discriminate.
  - intros x [<-|[<-|[<-|[<-|[]]]]]; split; discriminate.
  - now left.
  - exists r. rewrite E. split; [reflexivity|]. split; [exact Hn|].
    apply (Hr "Manager"); [reflexivity | discriminate].
Defined.

(** A login that bcrypt accepts. *)
Lemma login_accepts (rt : Runtime) (b : AuthRoute.PostBody) (db : Db)
    (u : User.row) :
  supabase rt = true -> AuthRoute.isLogin b = true ->
  truthy (AuthRoute.username b) = true ->
  truthy (AuthRoute.password b) = true ->
  users_read db = true ->
  filter (fun u => col_eq (Some (User.username u)) (AuthRoute.username b))
         (users db) = [u] ->
  AuthRoute.POST rt (Some b) db
  = (if compare rt (AuthRoute.text (AuthRoute.password b))
          (User.password_hash u)
     then json (body_user (AuthRoute.userWithoutPassword u))
     else json_status (body_error "Invalid username or password") 401,
     db).
Proof.
  intros Hs Hl Hn Hp Hur F.
  unfold AuthRoute.POST. run. rewrite Hs, Hl, Hn, Hp. simpl.
  rewrite ?map_id. rewrite Hur. simpl. rewrite F. simpl.
  now destruct (compare rt _ _).
Qed.

(** X16. After a signup is stored, a login under the same username is
    decided by bcrypt alone: it answers with the new user when bcrypt
    accepts the typed password against the hash the signup stored, so
    with the signup password whenever bcrypt accepts a password
    against its own hash, and it answers 401 when bcrypt rejects. *)
Theorem signup_then_login (rt : Runtime) (b : AuthRoute.PostBody) (db : Db)
    (name pw typed : string) :
  supabase rt = true -> AuthRoute.isLogin b = false ->
  AuthRoute.username b = Str name -> name <> "" ->
  AuthRoute.password b = Str pw -> pw <> "" -> typed <> "" ->
  users_read db = true -> users_write db = true ->
  (forall x, In x (users db) ->
             User.id x <> uuid_generate_v4 rt /\ User.username x <> name) ->
  supervisor_accepted db (AuthRoute.supervisorId b) ->
  let db' := snd (AuthRoute.POST rt (Some b) db) in
  let login := {| AuthRoute.username := Str name;
                  AuthRoute.password := Str typed;
                  AuthRoute.isLogin := true;
                  AuthRoute.role := Undefined;
                  AuthRoute.supervisorId := Undefined |} in
  fst (AuthRoute.POST rt (Some login) db')
  = (if compare rt typed (hash rt pw (genSalt rt))
     then fst (AuthRoute.POST rt (Some b) db)
     else json_status (body_error "Invalid username or password") 401)
  /\ snd (AuthRoute.POST rt (Some login) db') = db'.
Proof.
  intros Hs Hl En Hname Ep Hpw Htyped Hur Huw Hfresh Hacc db' login.
  subst db'.
  rewrite (signup_stores rt b db name pw) by assumption. simpl fst. simpl snd.
  assert (filter (fun u => col_eq (Some (User.username u)) (Str name))
            (users db ++ [registered rt b]) = [registered rt b]) as F.
  { rewrite filter_app.
    rewrite (filter_nothing _ (users db)).
    - assert (col_eq (Some (User.username (registered rt b))) (Str name)
              = true) as Hx.
      { apply col_eq_Some. unfold registered. simpl. now rewrite En. }
      cbn [filter app]. now rewrite Hx.
    - intros x Hin.
      destruct (col_eq (Some (User.username x)) (Str name)) eqn:E;
        [|reflexivity].
      apply col_eq_Some in E. injection E as E.
      now elim (proj2 (Hfresh x Hin)). }
  rewrite (login_accepts rt login
             (with_users db (users db ++ [registered rt b]))
             (registered rt b) Hs eq_refl (truthy_Str _ Hname)
             (truthy_Str _ Htyped) Hur F).
  simpl. rewrite Ep. simpl.
  destruct (compare rt typed (hash rt pw (genSalt rt))); split; reflexivity.
Qed.

Lemma signup_then_login_witness :
  let b := {| AuthRoute.username := Str "max";
              AuthRoute.password := Str "secret";
              AuthRoute.isLogin := false;
              AuthRoute.role := Undefined;
              AuthRoute.supervisorId := Str "s1" |} in
  let db' := snd (AuthRoute.POST Sample.rt (Some b) Sample.db) in
  status (fst (AuthRoute.POST Sample.rt
                 (Some {| AuthRoute.username := Str "max";
                          AuthRoute.password := Str "secret";
                          AuthRoute.isLogin := true;
                          AuthRoute.role := Undefined;
                          AuthRoute.supervisorId := Undefined |}) db')) = 200
  /\ status (fst (AuthRoute.POST Sample.rt
                    (Some {| AuthRoute.username := Str "max";
                             AuthRoute.password := Str "guess";
                             AuthRoute.isLogin := true;
                             AuthRoute.role := Undefined;
                             AuthRoute.supervisorId := Undefined |}) db'))
     = 401.
Proof.
  intros b db'.
  assert (forall x, In x (users Sample.db) ->
                    User.id x <> uuid_generate_v4 Sample.rt
                    /\ User.username x <> "max") as Hfresh.
  { intros x [<-|[<-|[<-|[<-|[]]]]]; split; discriminate. }
  assert (supervisor_accepted Sample.db (AuthRoute.supervisorId b)) as Hacc.
  { right. exists Sample.sam. split; [reflexivity | now left]. }
  split.
  - destruct (signup_then_login Sample.rt b Sample.db "max" "secret" "secret"
                eq_refl eq_refl eq_refl ltac:(discriminate) eq_refl
                ltac:(discriminate) ltac:(discriminate) eq_refl eq_refl
                Hfresh Hacc) as [E _].
    exact (f_equal status E).
  - destruct (signup_then_login Sample.rt b Sample.db "max" "secret" "guess"
                eq_refl eq_refl eq_refl ltac:(discriminate) eq_refl
                ltac:(discriminate) ltac:(discriminate) eq_refl eq_refl
                Hfresh Hacc) as [E _].
    exact (f_equal status E).
Defined.

(** ** The user directory *)

(** X17. The three listing handlers only read: whatever the request
    and the state of the store, the store is returned as it was. *)
Theorem listings_are_read_only (rt : Runtime) (a b c : JsStr) (db : Db) :
  snd (TasksRoute.GET rt a b c db) = db
  /\ snd (AuthRoute.GET rt a b db) = db
  /\ snd (UsersRoute.GET rt a b db) = db.
Proof.
  split; [|split].
  - unfold TasksRoute.GET. run.
    destruct (supabase rt); simpl; [|reflexivity].
    destruct (truthy a); simpl; [|reflexivity].
    destruct (eq_lit b "User"); simpl.
    { now destruct (tasks_read db). }
    destruct (eq_lit b "Supervisor"); simpl.
    { destruct (users_read db) eqn:Hur; simpl; [|reflexivity].
      destruct (map User.id _) as [|i ids]; simpl; [reflexivity|].
      rewrite Hur. now destruct (tasks_read db). }
    destruct (eq_lit b "Manager"); simpl.
    { destruct (truthy c); simpl.
      - destruct (users_read db) eqn:Hur; simpl; [|reflexivity].
        destruct (map User.id _) as [|i ids]; simpl; [reflexivity|].
        rewrite Hur. now destruct (tasks_read db).
      - now destruct (tasks_read db && users_read db). }
    now destruct (tasks_read db).
  - unfold AuthRoute.GET. run.
    destruct (supabase rt); simpl; [|reflexivity].
    destruct (eq_lit a "supervisors"); simpl.
    { now destruct (users_read db). }
    destruct (eq_lit a "supervised" && truthy b); simpl.
    { destruct (users_read db) eqn:Hur; simpl; [|reflexivity].
      destruct (filter _ (users db)) as [|u [|u' more]]; simpl;
        try reflexivity.
      destruct (not_supervisor_or_manager (User.role u)); simpl;
        [reflexivity|]. now rewrite Hur. }
    destruct (eq_lit a "all" && truthy b); simpl; [|reflexivity].
    destruct (users_read db) eqn:Hur; simpl; [|reflexivity].
    destruct (filter _ (users db)) as [|u [|u' more]]; simpl;
      try reflexivity.
    destruct (String.eqb (User.role u) "Manager"); simpl;
      [|reflexivity]. now rewrite Hur.
  - unfold UsersRoute.GET. run.
    destruct (supabase rt); simpl; [|reflexivity].
    destruct (eq_lit a "supervisors"); simpl.
    { now destruct (users_read db). }
    destruct (truthy b); simpl; [|reflexivity].
    destruct (users_read db) eqn:Hur; simpl; [|reflexivity].
    destruct (filter _ (users db)) as [|u [|u' more]]; simpl;
      try reflexivity.
    destruct (eq_lit a "supervised"); simpl.
    { destruct (not_supervisor_or_manager (User.role u)); simpl;
        [reflexivity|]. now rewrite Hur. }
    destruct (eq_lit a "all"); simpl; [|reflexivity].
    destruct (String.eqb (User.role u) "Manager"); simpl;
      [|reflexivity]. now rewrite Hur.
Qed.

Lemma in_role_list (role : string) :
  col_in (Some role) ["Supervisor"; "Manager"] = true
  <-> role = "Supervisor" \/ role = "Manager".
Proof.
  rewrite col_in_spec. split.
  - intros (a & [= <-] & [<- | [<- | []]]); auto.
  - intros [-> | ->]; eexists; split; try reflexivity; simpl; auto.
Qed.

(** X18. Asking for the supervisors needs no requester: both directory
    handlers answer with exactly the users whose role is Supervisor or
    Manager, each as id and username only, and their two responses are
    the same. *)
Theorem supervisors_directory (rt : Runtime) (userId : JsStr) (db : Db) :
  supabase rt = true -> users_read db = true ->
  exists l,
    AuthRoute.GET rt (Str "supervisors") userId db
    = (json (body_supervisors (Some l)), db)
    /\ UsersRoute.GET rt (Str "supervisors") userId db
       = (json (body_supervisors (Some l)), db)
    /\ (forall v, In v l <->
                  exists u, In u (users db)
                            /\ (User.role u = "Supervisor"
                                \/ User.role u = "Manager")
                            /\ v = {| View.id := Some (User.id u);
                                      View.uname := Some (User.username u);
                                      View.urole := None;
                                      View.usupervisor_id := None |}).
Proof.
  intros Hs Hur.
  exists (map id_username
            (filter (fun u => col_in (Some (User.role u))
                                     ["Supervisor"; "Manager"]) (users db))).
  split; [|split].
  - unfold AuthRoute.GET. run. rewrite Hs. simpl.
    change (eq_lit (Str "supervisors") "supervisors") with true. simpl.
    now rewrite Hur.
  - unfold UsersRoute.GET. run. rewrite Hs. simpl.
    change (eq_lit (Str "supervisors") "supervisors") with true. simpl.
    now rewrite Hur.
  - intros v. rewrite in_map_iff. split.
    + intros (u & <- & Hu). apply filter_In in Hu as [Hin Hrole].
      apply in_role_list in Hrole. exists u. now repeat split.
    + intros (u & Hin & Hrole & ->). exists u. split; [reflexivity|].
      apply filter_In. split; [exact Hin|]. now apply in_role_list.
Qed.

Lemma supervisors_directory_witness :
  exists l,
    AuthRoute.GET Sample.rt (Str "supervisors") Null Sample.db
    = (json (body_supervisors (Some l)), Sample.db)
    /\ length l = 2%nat.
Proof.
  destruct (supervisors_directory Sample.rt Null Sample.db eq_refl eq_refl)
    as (l & E & _ & _).
  exists l. split; [exact E|].
  assert (Some l = Some (map id_username [Sample.mia; Sample.sam])) as H.
  { assert (body (fst (AuthRoute.GET Sample.rt (Str "supervisors") Null
                         Sample.db))
            = body_supervisors (Some l)) as B by (now rewrite E).
    simpl in B. now injection B as <-. }
  injection H as ->. reflexivity.
Defined.

(** X19. Listing one's supervisees is for a Supervisor or a Manager
    and listing everybody is for a Manager, going by the role stored
    for the [userId] of the request: a requester with another role is
    answered 403, the right role gets exactly the users whose
    [supervisor_id] is the requester, or all users, and a [userId] that
    no row has is answered 500. *)
Theorem directory_permissions (rt : Runtime) (uid : string) (db : Db) :
  supabase rt = true -> users_read db = true -> uid <> "" ->
  (forall me,
     filter (fun u => col_eq (Some (User.id u)) (Str uid)) (users db) = [me] ->
     AuthRoute.GET rt (Str "supervised") (Str uid) db
     = (if not_supervisor_or_manager (User.role me)
        then json_status (body_error "Unauthorized") 403
        else json (body_users
                     (Some (map id_username_role
                              (filter (fun u => col_eq (User.supervisor_id u)
                                                       (Str uid))
                                      (users db))))), db)
     /\ AuthRoute.GET rt (Str "all") (Str uid) db
        = (if String.eqb (User.role me) "Manager"
           then json (body_users
                        (Some (map id_username_role_supervisor_id (users db))))
           else json_status (body_error "Unauthorized") 403, db))
  /\ (filter (fun u => col_eq (Some (User.id u)) (Str uid)) (users db) = [] ->
      AuthRoute.GET rt (Str "supervised") (Str uid) db
      = (json_status (body_error "Error fetching users") 500, db)
      /\ AuthRoute.GET rt (Str "all") (Str uid) db
         = (json_status (body_error "Error fetching users") 500, db)).
Proof.
  intros Hs Hur Hu.
  assert (filter (fun _ : User.row => true) (users db) = users db) as Hall.
  { induction (users db) as [|a l IH]; simpl; [reflexivity|now rewrite IH]. }
  split; [intros me F; split | intros F; split];
    unfold AuthRoute.GET; run; rewrite Hs; simpl;
    rewrite (truthy_Str _ Hu);
    change (eq_lit (Str "supervised") "supervisors") with false;
    change (eq_lit (Str "supervised") "supervised") with true;
    change (eq_lit (Str "all") "supervisors") with false;
    change (eq_lit (Str "all") "supervised") with false;
    change (eq_lit (Str "all") "all") with true;
    simpl; rewrite Hur; simpl; rewrite F; simpl; try reflexivity.
  - destruct (not_supervisor_or_manager (User.role me)); simpl;
      [reflexivity|]. now rewrite Hur.
  - destruct (String.eqb (User.role me) "Manager"); simpl; [|reflexivity].
    now rewrite Hur, Hall.
Qed.

Lemma directory_permissions_witness :
  status (fst (AuthRoute.GET Sample.rt (Str "all") (Str "s1") Sample.db)) = 403
  /\ AuthRoute.GET Sample.rt (Str "supervised") (Str "s1") Sample.db
     = (json (body_users (Some [id_username_role Sample.uma])), Sample.db).
Proof.
  destruct (directory_permissions Sample.rt "s1" Sample.db eq_refl eq_refl
              ltac:(discriminate)) as [H _].
  destruct (H Sample.sam eq_refl) as [Hsup Hall].
  split.
  - exact (f_equal (fun p : Response * Db => status (fst p)) Hall).
  - exact Hsup.
Defined.

(** X20. For each of the three request kinds the two directory
    handlers answer with the same status, and when that status is 200
    with the same body. *)
Theorem directory_handlers_agree (rt : Runtime) (kind : string)
    (userId : JsStr) (db : Db) :
  In kind ["supervisors"; "supervised"; "all"] ->
  status (fst (AuthRoute.GET rt (Str kind) userId db))
  = status (fst (UsersRoute.GET rt (Str kind) userId db))
  /\ (status (fst (AuthRoute.GET rt (Str kind) userId db)) = 200 ->
      AuthRoute.GET rt (Str kind) userId db
      = UsersRoute.GET rt (Str kind) userId db).
Proof.
  intros [<- | [<- | [<- | []]]];
    unfold AuthRoute.GET, UsersRoute.GET; run;
    (destruct (supabase rt); simpl; [|split; [reflexivity|discriminate]]);
    change (eq_lit (Str "supervisors") "supervisors") with true;
    change (eq_lit (Str "supervised") "supervisors") with false;
    change (eq_lit (Str "supervised") "supervised") with true;
    change (eq_lit (Str "supervised") "all") with false;
    change (eq_lit (Str "all") "supervisors") with false;
    change (eq_lit (Str "all") "supervised") with false;
    change (eq_lit (Str "all") "all") with true;
    simpl.
  - destruct (users_read db); simpl; split; try reflexivity; discriminate.
  - destruct (truthy userId); simpl; [|split; [reflexivity|discriminate]].
    destruct (users_read db) eqn:Hur; simpl;
      [|split; [reflexivity|discriminate]].
    destruct (filter _ (users db)) as [|u [|u' more]]; simpl;
      try (split; [reflexivity|discriminate]).
    destruct (not_supervisor_or_manager (User.role u)); simpl;
      [split; [reflexivity|discriminate]|].
    rewrite Hur. simpl. split; reflexivity.
  - destruct (truthy userId); simpl; [|split; [reflexivity|discriminate]].
    destruct (users_read db) eqn:Hur; simpl;
      [|split; [reflexivity|discriminate]].
    destruct (filter _ (users db)) as [|u [|u' more]]; simpl;
      try (split; [reflexivity|discriminate]).
    destruct (String.eqb (User.role u) "Manager"); simpl;
      [|split; [reflexivity|discriminate]].
    rewrite Hur. simpl. split; reflexivity.
Qed.

Lemma directory_handlers_agree_witness :
  AuthRoute.GET Sample.rt (Str "all") (Str "m1") Sample.db
  = UsersRoute.GET Sample.rt (Str "all") (Str "m1") Sample.db.
Proof.
  destruct (directory_handlers_agree Sample.rt "all" (Str "m1") Sample.db)
    as [_ H].
  - simpl. auto.
  - apply H. reflexivity.
Defined.

(** ** Changing a user's role or supervisor *)

#[local] Arguments UserPatch.apply : simpl never.
#[local] Arguments UsersRoute.updateData : simpl never.

(** The payload of [PUT] never sets the role to NULL. *)
Lemma updateData_role (current : string) (role supervisorId : JsStr) :
  UserPatch.role (UsersRoute.updateData current role supervisorId) <> Null.
Proof.
  unfold UsersRoute.updateData. simpl.
  destruct (truthy role) eqn:T; simpl; [|discriminate].
  destruct (truthy_inv _ T) as (s & -> & _).
  destruct (String.eqb current "Manager"); discriminate.
Qed.

(** The requests the user update lets through. *)
Lemma users_PUT_goes_through (rt : Runtime) (b : UsersRoute.PutBody) (db : Db)
    (me tg : User.row) :
  supabase rt = true -> users_read db = true -> users_write db = true ->
  users_pkey db ->
  In me (users db) -> UsersRoute.userId b = Str (User.id me) ->
  User.id me <> "" ->
  In tg (users db) -> UsersRoute.targetUserId b = Str (User.id tg) ->
  User.id tg <> "" ->
  (truthy (UsersRoute.role b) = true -> User.role me = "Manager") ->
  (User.role me = "Supervisor" ->
   User.supervisor_id tg = Some (User.id me)) ->
  let payload :=
    UsersRoute.updateData (User.role me) (UsersRoute.role b)
      (UsersRoute.supervisorId b) in
  UserPatch.is_empty payload = false ->
  fk_ok (users db) (to_column (UserPatch.supervisor_id payload)) = true ->
  UsersRoute.PUT rt (Some b) db
  = (json (body_user_view
             (Some (id_username_role_supervisor_id
                      (UserPatch.apply payload tg)))),
     with_users db
       (map (fun r => if String.eqb (User.id r) (User.id tg)
                      then UserPatch.apply payload r else r)
            (users db))).
Proof.
  intros Hs Hur Huw Hpk Hme Eu Hmeid Htg Et Htgid Hrole Hsup payload He Hfk.
  assert (filter (fun u => col_eq (Some (User.id u)) (Str (User.id me)))
            (users db) = [me]) as Fme.
  { change (fun u : User.row => col_eq (Some (User.id u)) (Str (User.id me)))
      with (fun u : User.row => String.eqb (User.id u) (User.id me)).
    now apply filter_key. }
  assert (filter (fun u => col_eq (Some (User.id u)) (Str (User.id tg)))
            (users db) = [tg]) as Ftg.
  { change (fun u : User.row => col_eq (Some (User.id u)) (Str (User.id tg)))
      with (fun u : User.row => String.eqb (User.id u) (User.id tg)).
    now apply filter_key. }
  unfold UsersRoute.PUT. run. rewrite Hs, Eu, Et. simpl.
  rewrite (truthy_Str _ Hmeid), (truthy_Str _ Htgid). simpl.
  rewrite Hur. simpl. rewrite Fme. simpl.
  assert (truthy (UsersRoute.role b)
          && negb (String.eqb (User.role me) "Manager") = false) as ->.
  { destruct (truthy (UsersRoute.role b)); [|reflexivity].
    rewrite (Hrole eq_refl). reflexivity. }
  simpl.
  unfold update_users.
  assert (payload
          = UsersRoute.updateData (User.role me) (UsersRoute.role b)
              (UsersRoute.supervisorId b)) as Hpay by reflexivity.
  clearbody payload. rewrite <- Hpay.
  destruct (String.eqb (User.role me) "Supervisor") eqn:Es; simpl.
  - apply String.eqb_eq in Es. rewrite Hur. simpl. rewrite Ftg. simpl.
    rewrite (Hsup Es). simpl.
    assert (strict_eq (Str (User.id me)) (Str (User.id me)) = true) as ->
      by apply String.eqb_refl.
    simpl. rewrite Huw, Hur, He. simpl. rewrite Ftg.
    destruct (UserPatch.role payload) eqn:Er;
      try (rewrite Hpay in Er; now elim (updateData_role _ _ _ Er));
      rewrite Hfk; reflexivity.
  - rewrite Huw, Hur, He. simpl. rewrite Ftg.
    destruct (UserPatch.role payload) eqn:Er;
      try (rewrite Hpay in Er; now elim (updateData_role _ _ _ Er));
      rewrite Hfk; reflexivity.
Qed.

(** An update of [users] leaves the store as it was or rewrites the
    rows its filter selects. *)
Lemma update_users_store {A : Type} (payload : UserPatch.t)
    (p : User.row -> bool) (cols : User.row -> A) (db : Db) :
  snd (update_users payload p cols db) = db
  \/ snd (update_users payload p cols db)
     = with_users db
         (map (fun r => if p r then UserPatch.apply payload r else r)
              (users db)).
Proof.
  unfold update_users.
  destruct (negb (users_write db && users_read db)); [now left|].
  destruct (UserPatch.is_empty payload); [now left|].
  destruct (filter p (users db)); [now left|].
  destruct (UserPatch.role payload); try (now left);
    destruct (negb (fk_ok _ _)); (now left) || (now right).
Qed.

(** Unfolds a handler down to the store operations, which stay
    folded. *)
Ltac walk :=
  repeat progress
    (unfold try_catch, bind, ret, return_, throw_if, throw, when, single_,
       request_json, select_users, select_tasks, all;
     cbv beta);
  repeat rewrite map_id.

(** The user update either leaves the store as it was, or it found the
    requester's row and rewrote the rows with the target id with the
    payload built from the requester's stored role. *)
Lemma users_PUT_cases (rt : Runtime) (req : option UsersRoute.PutBody)
    (db : Db) :
  snd (UsersRoute.PUT rt req db) = db
  \/ (exists b me,
        req = Some b
        /\ In me (users db)
        /\ col_eq (Some (User.id me)) (UsersRoute.userId b) = true
        /\ snd (UsersRoute.PUT rt req db)
           = with_users db
               (map (fun r =>
                       if col_eq (Some (User.id r)) (UsersRoute.targetUserId b)
                       then UserPatch.apply
                              (UsersRoute.updateData (User.role me)
                                 (UsersRoute.role b) (UsersRoute.supervisorId b))
                              r
                       else r)
                    (users db))).
Proof.
  unfold UsersRoute.PUT. walk.
  destruct (supabase rt); simpl; [|now left].
  destruct req as [b|]; simpl; [|now left].
  destruct (negb (truthy (UsersRoute.userId b))
            || negb (truthy (UsersRoute.targetUserId b))); simpl; [now left|].
  destruct (users_read db) eqn:Hur; simpl; [|now left].
  destruct (filter (fun u => col_eq (Some (User.id u)) (UsersRoute.userId b))
              (users db)) as [|me [|me' more]] eqn:Fme; simpl; try now left.
  assert (In me (users db)
          /\ col_eq (Some (User.id me)) (UsersRoute.userId b) = true)
    as [Hme Hid].
  { apply (filter_In (fun u => col_eq (Some (User.id u))
                                      (UsersRoute.userId b))).
    rewrite Fme. now left. }
  destruct (truthy (UsersRoute.role b)
            && negb (String.eqb (User.role me) "Manager")); simpl;
    [now left|].
  pose proof (update_users_store
                (UsersRoute.updateData (User.role me) (UsersRoute.role b)
                   (UsersRoute.supervisorId b))
                (fun u => col_eq (Some (User.id u)) (UsersRoute.targetUserId b))
                id_username_role_supervisor_id db) as Hupd.
  destruct (update_users _ _ _ db) as [o db'] eqn:Eu. simpl in Hupd.
  assert (db' = db
          \/ exists b0 me0,
               Some b = Some b0 /\ In me0 (users db)
               /\ col_eq (Some (User.id me0)) (UsersRoute.userId b0) = true
               /\ db'
                  = with_users db
                      (map (fun r =>
                              if col_eq (Some (User.id r))
                                   (UsersRoute.targetUserId b0)
                              then UserPatch.apply
                                     (UsersRoute.updateData (User.role me0)
                                        (UsersRoute.role b0)
                                        (UsersRoute.supervisorId b0)) r
                              else r)
                           (users db))) as Hgoal.
  { destruct Hupd as [E | E]; [left; exact E|].
    right. exists b, me.
    split; [reflexivity|]. split; [exact Hme|]. split; [exact Hid | exact E]. }
  destruct (String.eqb (User.role me) "Supervisor"); simpl.
  - rewrite Hur. simpl.
    destruct (filter (fun u => col_eq (Some (User.id u))
                                      (UsersRoute.targetUserId b)) (users db))
      as [|tg [|tg' more]]; simpl; try now left.
    destruct (strict_eq (of_column (User.supervisor_id tg))
                (UsersRoute.userId b)); simpl; [|now left].
    rewrite Eu. destruct o as [r|r|e]; simpl; try exact Hgoal.
    destruct (error (single r)); exact Hgoal.
  - rewrite Eu. destruct o as [r|r|e]; simpl; try exact Hgoal.
    destruct (error (single r)); exact Hgoal.
Qed.

Lemma Forall2_user_frame_refl (targeted : User.row -> bool)
    (l : list User.row) :
  Forall2 (user_frame targeted) l l.
Proof.
  induction l as [|a l IH]; constructor; [|exact IH].
  unfold user_frame. repeat split.
Qed.

Lemma Forall2_user_frame_update (payload : UserPatch.t)
    (p : User.row -> bool) (l : list User.row) :
  Forall2 (user_frame p) l
    (map (fun r => if p r then UserPatch.apply payload r else r) l).
Proof.
  induction l as [|a l IH]; simpl; constructor; [|exact IH].
  destruct (p a) eqn:E; unfold user_frame; repeat split; intros; congruence.
Qed.

(** X21. Whatever the user update request, the tasks table is as it
    was and every user row is still there, in place, with its id,
    username, password hash and creation time, and a row with another
    id than the target is unchanged; and unless a row with the
    request's [userId] has role Manager, no role changes at all. *)
Theorem only_managers_change_roles (rt : Runtime)
    (req : option UsersRoute.PutBody) (db : Db) :
  let db' := snd (UsersRoute.PUT rt req db) in
  tasks db' = tasks db
  /\ Forall2
       (user_frame (fun u =>
                      match req with
                      | Some b => col_eq (Some (User.id u))
                                         (UsersRoute.targetUserId b)
                      | None => false
                      end))
       (users db) (users db')
  /\ ((forall b me, req = Some b -> In me (users db) ->
                    UsersRoute.userId b = Str (User.id me) ->
                    User.role me <> "Manager") ->
      map User.role (users db') = map User.role (users db)).
Proof.
  intros db'. subst db'.
  destruct (users_PUT_cases rt req db) as [-> | (b & me & -> & Hme & Hid & ->)].
  - split; [reflexivity|]. split; [apply Forall2_user_frame_refl|]. trivial.
  - simpl. split; [reflexivity|]. split; [apply Forall2_user_frame_update|].
    intros Hnot.
    assert (UsersRoute.userId b = Str (User.id me)) as Eu.
    { destruct (UsersRoute.userId b) as [| |s]; try discriminate Hid.
      apply col_eq_Some in Hid. now injection Hid as ->. }
    pose proof (Hnot b me eq_refl Hme Eu) as Hrole.
    apply String.eqb_neq in Hrole.
    rewrite map_map. apply map_ext. intros r.
    destruct (col_eq (Some (User.id r)) (UsersRoute.targetUserId b));
      [|reflexivity].
    unfold UserPatch.apply, UsersRoute.updateData. simpl.
    rewrite Hrole, andb_false_r. reflexivity.
Qed.

Lemma only_managers_change_roles_witness :
  let b := {| UsersRoute.userId := Str "s1";
              UsersRoute.targetUserId := Str "u1";
              UsersRoute.role := Str "Manager";
              UsersRoute.supervisorId := Undefined;
              UsersRoute.managerId := Undefined |} in
  map User.role (users (snd (UsersRoute.PUT Sample.rt (Some b) Sample.db)))
  = ["Manager"; "Supervisor"; "User"; "User"].
Proof.
  intros b.
  destruct (only_managers_change_roles Sample.rt (Some b) Sample.db)
    as (_ & _ & H).
  rewrite H; [reflexivity|].
  intros b0 me [= <-] [<-|[<-|[<-|[<-|[]]]]] E; try discriminate E.
  discriminate.
Defined.

(** X22. A requester whose stored role is Supervisor changes only
    users assigned to them: for an existing target whose supervisor is
    somebody else, or nobody, the answer is 403 and nothing is
    written. *)
Theorem supervisor_updates_only_assigned_users (rt : Runtime)
    (b : UsersRoute.PutBody) (db : Db) (me tg : User.row) :
  supabase rt = true -> users_read db = true -> users_pkey db ->
  In me (users db) -> UsersRoute.userId b = Str (User.id me) ->
  User.id me <> "" ->
  In tg (users db) -> UsersRoute.targetUserId b = Str (User.id tg) ->
  User.id tg <> "" ->
  User.role me = "Supervisor" ->
  User.supervisor_id tg <> Some (User.id me) ->
  status (fst (UsersRoute.PUT rt (Some b) db)) = 403
  /\ snd (UsersRoute.PUT rt (Some b) db) = db.
Proof.
  intros Hs Hur Hpk Hme Eu Hmeid Htg Et Htgid Hrole Hno.
  assert (filter (fun u => col_eq (Some (User.id u)) (Str (User.id me)))
            (users db) = [me]) as Fme.
  { change (fun u : User.row => col_eq (Some (User.id u)) (Str (User.id me)))
      with (fun u : User.row => String.eqb (User.id u) (User.id me)).
    now apply filter_key. }
  assert (filter (fun u => col_eq (Some (User.id u)) (Str (User.id tg)))
            (users db) = [tg]) as Ftg.
  { change (fun u : User.row => col_eq (Some (User.id u)) (Str (User.id tg)))
      with (fun u : User.row => String.eqb (User.id u) (User.id tg)).
    now apply filter_key. }
  assert (strict_eq (of_column (User.supervisor_id tg)) (Str (User.id me))
          = false) as Hne.
  { destruct (User.supervisor_id tg) as [s|]; [|reflexivity].
    unfold of_column, strict_eq. apply String.eqb_neq.
    intros ->. now apply Hno. }
  unfold UsersRoute.PUT. walk. rewrite Hs, Eu, Et. simpl.
  rewrite (truthy_Str _ Hmeid), (truthy_Str _ Htgid). simpl.
  rewrite Hur. simpl. rewrite Fme. simpl. rewrite Hrole. simpl.
  destruct (truthy (UsersRoute.role b)); simpl; [split; reflexivity|].
  rewrite Hur. simpl. rewrite Ftg. simpl. rewrite Hne. split; reflexivity.
Qed.

Lemma supervisor_updates_only_assigned_users_witness :
  let b := {| UsersRoute.userId := Str "s1";
              UsersRoute.targetUserId := Str "u2";
              UsersRoute.role := Undefined;
              UsersRoute.supervisorId := Str "s1";
              UsersRoute.managerId := Undefined |} in
  status (fst (UsersRoute.PUT Sample.rt (Some b) Sample.db)) = 403
  /\ snd (UsersRoute.PUT Sample.rt (Some b) Sample.db) = Sample.db.
Proof.
  intros b.
  assert (users_pkey Sample.db) as Hpk.
  { unfold users_pkey. simpl.
    repeat constructor; simpl; intuition discriminate. }
  apply (supervisor_updates_only_assigned_users Sample.rt b Sample.db
           Sample.sam Sample.ugo eq_refl eq_refl Hpk
           ltac:(simpl; auto) eq_refl ltac:(discriminate)
           ltac:(simpl; auto) eq_refl ltac:(discriminate) eq_refl
           ltac:(discriminate)).
Defined.

(** X23. Who may reassign a supervisor, and to whom, is not checked
    beyond that: a requester whose stored role is not Supervisor, a
    plain User included, sets the supervisor of any existing user to
    any existing user; and when the new supervisor's role is neither
    Supervisor nor Manager, the store no longer satisfies the rule that
    supervisors have one of these roles. *)
Theorem any_user_reassigns_supervisors (rt : Runtime)
    (b : UsersRoute.PutBody) (db : Db) (me tg : User.row) (sid : string) :
  supabase rt = true -> users_read db = true -> users_write db = true ->
  users_pkey db ->
  In me (users db) -> UsersRoute.userId b = Str (User.id me) ->
  User.id me <> "" ->
  In tg (users db) -> UsersRoute.targetUserId b = Str (User.id tg) ->
  User.id tg <> "" ->
  User.role me <> "Supervisor" ->
  truthy (UsersRoute.role b) = false ->
  UsersRoute.supervisorId b = Str sid -> sid <> "" ->
  has_user (users db) sid = true ->
  let db' := snd (UsersRoute.PUT rt (Some b) db) in
  status (fst (UsersRoute.PUT rt (Some b) db)) = 200
  /\ (exists tg', In tg' (users db')
                  /\ User.id tg' = User.id tg
                  /\ User.role tg' = User.role tg
                  /\ User.supervisor_id tg' = Some sid)
  /\ ((forall v, In v (users db) -> User.id v = sid ->
                 not_supervisor_or_manager (User.role v) = true) ->
      ~ supervisors_ok (users db')).
Proof.
  intros Hs Hur Huw Hpk Hme Eu Hmeid Htg Et Htgid Hrole Hnorole Esup Hsid Hex
    db'. subst db'.
  assert (UsersRoute.updateData (User.role me) (UsersRoute.role b)
            (UsersRoute.supervisorId b)
          = {| UserPatch.role := Undefined;
               UserPatch.supervisor_id := Str sid |}) as Hpay.
  { unfold UsersRoute.updateData. rewrite Hnorole, Esup. simpl.
    f_equal. unfold strict_eq.
    apply String.eqb_neq in Hsid. now rewrite Hsid. }
  rewrite (users_PUT_goes_through rt b db me tg); try assumption.
  - rewrite Hpay. simpl.
    assert (In (UserPatch.apply
                  {| UserPatch.role := Undefined;
                     UserPatch.supervisor_id := Str sid |} tg)
              (map (fun r => if String.eqb (User.id r) (User.id tg)
                             then UserPatch.apply
                                    {| UserPatch.role := Undefined;
                                       UserPatch.supervisor_id := Str sid |} r
                             else r)
                   (users db))) as Hin.
    { apply in_map_iff. exists tg. split; [|exact Htg].
      now rewrite String.eqb_refl. }
    split; [reflexivity|]. split.
    + eexists. split; [exact Hin|]. repeat split.
    + intros Hbad Hinv.
      destruct (Hinv _ sid Hin eq_refl) as (v & Hv & Hvid & Hvrole).
      apply in_map_iff in Hv as (v0 & <- & Hv0).
      assert (User.id (if String.eqb (User.id v0) (User.id tg)
                       then UserPatch.apply
                              {| UserPatch.role := Undefined;
                                 UserPatch.supervisor_id := Str sid |} v0
                       else v0) = User.id v0
              /\ User.role (if String.eqb (User.id v0) (User.id tg)
                            then UserPatch.apply
                                   {| UserPatch.role := Undefined;
                                      UserPatch.supervisor_id := Str sid |} v0
                            else v0) = User.role v0) as [E1 E2].
      { destruct (String.eqb (User.id v0) (User.id tg)); split; reflexivity. }
      rewrite E1 in Hvid. rewrite E2 in Hvrole.
      apply not_supervisor_or_manager_false in Hvrole.
      rewrite (Hbad v0 Hv0 Hvid) in Hvrole. discriminate.
  - intros T. rewrite Hnorole in T. discriminate.
  - intros E. now elim Hrole.
  - rewrite Hpay. reflexivity.
  - rewrite Hpay. simpl. exact Hex.
Qed.

Lemma any_user_reassigns_supervisors_witness :
  let b := {| UsersRoute.userId := Str "u2";
              UsersRoute.targetUserId := Str "u1";
              UsersRoute.role := Undefined;
              UsersRoute.supervisorId := Str "u2";
              UsersRoute.managerId := Undefined |} in
  status (fst (UsersRoute.PUT Sample.rt (Some b) Sample.db)) = 200
  /\ ~ supervisors_ok (users (snd (UsersRoute.PUT Sample.rt (Some b) Sample.db))).
Proof.
  intros b.
  assert (users_pkey Sample.db) as Hpk.
  { unfold users_pkey. simpl.
    repeat constructor; simpl; intuition discriminate. }
  destruct (any_user_reassigns_supervisors Sample.rt b Sample.db
              Sample.ugo Sample.uma "u2" eq_refl eq_refl eq_refl Hpk
              ltac:(simpl; auto) eq_refl ltac:(discriminate)
              ltac:(simpl; auto) eq_refl ltac:(discriminate)
              ltac:(discriminate) eq_refl eq_refl ltac:(discriminate) eq_refl)
    as (H200 & _ & Hbreak).
  split; [exact H200|]. apply Hbreak.
  intros v [<-|[<-|[<-|[<-|[]]]]] E; try discriminate E. reflexivity.
Defined.

(** X24. An empty string as [supervisorId] removes the supervisor:
    the target row is stored with [supervisor_id] NULL, whatever it was
    before. *)
Theorem empty_supervisorId_removes_supervisor (rt : Runtime)
    (b : UsersRoute.PutBody) (db : Db) (me tg : User.row) :
  supabase rt = true -> users_read db = true -> users_write db = true ->
  users_pkey db ->
  In me (users db) -> UsersRoute.userId b = Str (User.id me) ->
  User.id me <> "" ->
  In tg (users db) -> UsersRoute.targetUserId b = Str (User.id tg) ->
  User.id tg <> "" ->
  User.role me <> "Supervisor" ->
  truthy (UsersRoute.role b) = false ->
  UsersRoute.supervisorId b = Str "" ->
  let cleared :=
    {| User.id := User.id tg;
       User.username := User.username tg;
       User.password_hash := User.password_hash tg;
       User.role := User.role tg;
       User.supervisor_id := None;
       User.created_at := User.created_at tg |} in
  fst (UsersRoute.PUT rt (Some b) db)
  = json (body_user_view (Some (id_username_role_supervisor_id cleared)))
  /\ In cleared (users (snd (UsersRoute.PUT rt (Some b) db))).
Proof.
  intros Hs Hur Huw Hpk Hme Eu Hmeid Htg Et Htgid Hrole Hnorole Esup cleared.
  assert (UsersRoute.updateData (User.role me) (UsersRoute.role b)
            (UsersRoute.supervisorId b)
          = {| UserPatch.role := Undefined;
               UserPatch.supervisor_id := Null |}) as Hpay.
  { unfold UsersRoute.updateData. now rewrite Hnorole, Esup. }
  rewrite (users_PUT_goes_through rt b db me tg); try assumption.
  - rewrite Hpay. simpl. split; [reflexivity|].
    apply in_map_iff. exists tg. split; [|exact Htg].
    now rewrite String.eqb_refl.
  - intros T. rewrite Hnorole in T. discriminate.
  - intros E. now elim Hrole.
  - rewrite Hpay. reflexivity.
  - rewrite Hpay. reflexivity.
Qed.

Lemma empty_supervisorId_removes_supervisor_witness :
  let b := {| UsersRoute.userId := Str "m1";
              UsersRoute.targetUserId := Str "u1";
              UsersRoute.role := Undefined;
              UsersRoute.supervisorId := Str "";
              UsersRoute.managerId := Undefined |} in
  In (Sample.user "u1" "uma" "User" None)
     (users (snd (UsersRoute.PUT Sample.rt (Some b) Sample.db))).
Proof.
  intros b.
  assert (users_pkey Sample.db) as Hpk.
  { unfold users_pkey. simpl.
    repeat constructor; simpl; intuition discriminate. }
  destruct (empty_supervisorId_removes_supervisor Sample.rt b Sample.db
              Sample.mia Sample.uma eq_refl eq_refl eq_refl Hpk
              ltac:(simpl; auto) eq_refl ltac:(discriminate)
              ltac:(simpl; auto) eq_refl ltac:(discriminate)
              ltac:(discriminate) eq_refl eq_refl) as [_ Hin].
  exact Hin.
Defined.

(** ** The database check *)

Lemma set_null_other (i : string) (c : option string) :
  c <> Some i -> set_null [i] c = c.
Proof.
  intros H. unfold set_null, col_in. destruct c as [a|]; [|reflexivity].
  simpl. destruct (String.eqb_spec a i) as [->|_]; [now elim H|reflexivity].
Qed.

Lemma map_same {A : Type} (f : A -> A) (l : list A) :
  (forall x, In x l -> f x = x) -> map f l = l.
Proof.
  induction l as [|a l IH]; simpl; intros H; [reflexivity|].
  rewrite (H a (or_introl eq_refl)), IH; [reflexivity|].
  intros x Hx. apply H. now right.
Qed.

Lemma filter_everything {A : Type} (p : A -> bool) (l : list A) :
  (forall x, In x l -> p x = true) -> filter p l = l.
Proof.
  induction l as [|a l IH]; simpl; intros H; [reflexivity|].
  rewrite (H a (or_introl eq_refl)), IH; [reflexivity|].
  intros x Hx. apply H. now right.
Qed.

(** Deleting a user that was just appended, under a name nobody else
    has and an id nothing refers to, gives back the store. *)
Lemma delete_appended_user (db : Db) (r : User.row) :
  users_write db = true ->
  (forall u, In u (users db) ->
             User.username u <> User.username r
             /\ User.supervisor_id u <> Some (User.id r)) ->
  (forall t, In t (tasks db) ->
             Task.user_id t <> Some (User.id r)
             /\ Task.created_by t <> Some (User.id r)) ->
  delete_users (fun u => col_eq (Some (User.username u))
                                (Str (User.username r)))
    (with_users db (users db ++ [r]))
  = (Val done, db).
Proof.
  intros Hw Hu Ht. unfold delete_users. simpl. rewrite Hw. simpl.
  assert (forall u, In u (users db) ->
                    col_eq (Some (User.username u)) (Str (User.username r))
                    = false) as Hp.
  { intros u Hin.
    destruct (col_eq (Some (User.username u)) (Str (User.username r))) eqn:E;
      [|reflexivity].
    apply col_eq_Some in E. injection E as E. now elim (proj1 (Hu u Hin)). }
  assert (col_eq (Some (User.username r)) (Str (User.username r)) = true)
    as Hr by (now apply col_eq_Some).
  rewrite !filter_app. cbn [filter app]. rewrite Hr. simpl.
  rewrite (filter_nothing _ (users db) Hp). simpl.
  rewrite app_nil_r.
  rewrite (filter_everything _ (users db));
    [|intros u Hin; now rewrite (Hp u Hin)].
  f_equal. destruct db as [us ts ur uw tr tw]. simpl in *. f_equal.
  - apply map_same. intros u Hin.
    rewrite (set_null_other _ _ (proj2 (Hu u Hin))). now destruct u.
  - rewrite filter_everything.
    + apply map_same. intros t Hin.
      rewrite (set_null_other _ _ (proj2 (Ht t Hin))). now destruct t.
    + intros t Hin. unfold col_in.
      destruct (Task.user_id t) as [a|] eqn:E; [|reflexivity].
      simpl. destruct (String.eqb_spec a (User.id r)) as [->|_];
        [|reflexivity].
      now elim (proj1 (Ht t Hin)).
  - symmetry. exact Hw.
Qed.

Lemma resolves_probe_users (rt : Runtime) :
  resolves (SetupDbRoute.probe_users rt).
Proof.
  intros db. unfold SetupDbRoute.probe_users, bind, ret.
  destruct (resolves_insert_user rt false
              {| NewUser.username := Str ("test_" ++ Date_now rt);
                 NewUser.password_hash := Str "test_password";
                 NewUser.role := Undefined;
                 NewUser.supervisor_id := Undefined |} db)
    as (a & db1 & ->).
  destruct (error a); [eauto|].
  destruct (resolves_delete_users
              (fun u => col_eq (Some (User.username u))
                               (Str ("test_" ++ Date_now rt))) db1)
    as (x & db2 & ->).
  eauto.
Qed.

Lemma resolves_probe_tasks (rt : Runtime) :
  resolves (SetupDbRoute.probe_tasks rt).
Proof.
  intros db. unfold SetupDbRoute.probe_tasks, bind, ret, single_, select_users.
  destruct (data (single _)) as [i|]; [|eauto].
  destruct (resolves_insert_task rt false
              {| NewTask.title := Str "Test task";
                 NewTask.user_id := Str i;
                 NewTask.created_by := Undefined;
                 NewTask.completed := false |} db)
    as (a & db1 & ->).
  destruct (error a); [eauto|].
  destruct (resolves_delete_tasks
              (fun t => String.eqb (Task.title t) "Test task") db1)
    as (x & db2 & ->).
  eauto.
Qed.

(** X25. Once the client is initialised the database check always
    answers 200 with a report, never with an error: the report says for
    each table whether it could be read, and when the users table could
    not, nothing is probed and the store is as it was. *)
Theorem setup_check_always_reports (rt : Runtime) (db : Db) :
  supabase rt = true ->
  (exists s,
     fst (SetupDbRoute.GET rt db) = json (body_setup s)
     /\ usersTableExists s = users_read db
     /\ tasksTableExists s = tasks_read db
     /\ (users_read db = false -> rlsUserIssue s = false
                                  /\ rlsTaskIssue s = false))
  /\ (users_read db = false -> snd (SetupDbRoute.GET rt db) = db).
Proof.
  intros Hs. unfold SetupDbRoute.GET, try_catch_details. walk.
  rewrite Hs. simpl. unfold limit. simpl.
  destruct (users_read db) eqn:Hur; simpl.
  - destruct (resolves_probe_users rt db) as (pu & db1 & ->).
    destruct (tasks_read db) eqn:Htr; simpl.
    + destruct (resolves_probe_tasks rt db1) as (pt & db2 & ->). simpl.
      split; [|discriminate]. eexists. split; [reflexivity|].
      repeat split; discriminate.
    + split; [|discriminate]. eexists. split; [reflexivity|].
      repeat split; discriminate.
  - destruct (tasks_read db); simpl;
      (split; [|reflexivity]); eexists; (split; [reflexivity|]);
      repeat split; reflexivity.
Qed.

Lemma setup_check_always_reports_witness :
  exists s,
    fst (SetupDbRoute.GET Sample.rt Sample.db) = json (body_setup s)
    /\ usersTableExists s = true /\ tasksTableExists s = true.
Proof.
  destruct (setup_check_always_reports Sample.rt Sample.db eq_refl)
    as ((s & E & Hu & Ht & _) & _).
  exists s. split; [exact E|]. split; [exact Hu | exact Ht].
Defined.

(** The users probe on a store that takes the throw-away user: the
    user is inserted and deleted again, and the store is as before. *)
Lemma probe_users_clean (rt : Runtime) (db : Db) :
  users_write db = true ->
  unused_id db (uuid_generate_v4 rt) ->
  (forall u, In u (users db) ->
             User.username u <> "test_" ++ Date_now rt) ->
  SetupDbRoute.probe_users rt db = (Val None, db).
Proof.
  intros Hw [Hu Ht] Hname.
  unfold SetupDbRoute.probe_users, bind, ret. cbv zeta.
  remember ("test_" ++ Date_now rt) as name eqn:En. clear En.
  assert (insert_user rt false
            {| NewUser.username := Str name;
               NewUser.password_hash := Str "test_password";
               NewUser.role := Undefined;
               NewUser.supervisor_id := Undefined |} db
          = (Val done,
             with_users db
               (users db ++
                [{| User.id := uuid_generate_v4 rt;
                    User.username := name;
                    User.password_hash := "test_password";
                    User.role := "User";
                    User.supervisor_id := None;
                    User.created_at := toISOString rt |}]))) as ->.
  { unfold insert_user. rewrite Hw. simpl.
    assert (existsb (fun x => String.eqb (User.id x) (uuid_generate_v4 rt)
                              || String.eqb (User.username x) name)
              (users db) = false) as ->; [|reflexivity].
    apply existsb_false_iff. intros x Hin.
    destruct (Hu x Hin) as [H1 _]. pose proof (Hname x Hin) as H2.
    apply String.eqb_neq in H1, H2. now rewrite H1, H2. }
  simpl.
  pose proof (delete_appended_user db
                {| User.id := uuid_generate_v4 rt;
                   User.username := name;
                   User.password_hash := "test_password";
                   User.role := "User";
                   User.supervisor_id := None;
                   User.created_at := toISOString rt |} Hw) as Hd.
  simpl in Hd. rewrite Hd.
  - reflexivity.
  - intros u Hin. split; [now apply Hname | now apply Hu].
  - intros t Hin. destruct (Ht t Hin) as (_ & H1 & H2). now split.
Qed.

(** The tasks probe on a store that takes the test task: the task is
    inserted for the first user and then every task of that title is
    deleted. *)
Lemma probe_tasks_sweeps (rt : Runtime) (db : Db) (first : User.row)
    (others : list User.row) :
  users_read db = true -> tasks_write db = true ->
  users db = first :: others ->
  (forall t, In t (tasks db) -> Task.id t <> uuid_generate_v4 rt) ->
  SetupDbRoute.probe_tasks rt db
  = (Val None,
     with_tasks db
       (filter (fun t => negb (String.eqb (Task.title t) "Test task"))
               (tasks db))).
Proof.
  intros Hur Htw Hus Hfresh.
  unfold SetupDbRoute.probe_tasks, bind, ret, single_, select_users, limit.
  rewrite Hur, Hus. simpl.
  unfold insert_task. rewrite Htw. simpl.
  rewrite Hus. simpl. rewrite String.eqb_refl. simpl.
  assert (existsb (fun x => String.eqb (Task.id x) (uuid_generate_v4 rt))
            (tasks db) = false) as ->.
  { apply existsb_false_iff. intros x Hin.
    apply String.eqb_neq. now apply Hfresh. }
  simpl. unfold delete_tasks. simpl. rewrite Htw. simpl.
  rewrite filter_app. simpl. now rewrite app_nil_r.
Qed.

(** X26. On a store that is up and has a user, the database check
    reports no problem and leaves the users table as it was, but its
    cleanup removes every task titled "Test task", not only the one it
    inserted: the tasks table afterwards is the table before without
    the tasks of that title. *)
Theorem setup_check_deletes_test_tasks (rt : Runtime) (db : Db)
    (first : User.row) (others : list User.row) :
  supabase rt = true ->
  users_read db = true -> users_write db = true ->
  tasks_read db = true -> tasks_write db = true ->
  users db = first :: others ->
  unused_id db (uuid_generate_v4 rt) ->
  (forall u, In u (users db) ->
             User.username u <> "test_" ++ Date_now rt) ->
  SetupDbRoute.GET rt db
  = (json (body_setup
             {| usersTableExists := true;
                tasksTableExists := true;
                rlsUserIssue := false;
                rlsTaskIssue := false;
                rlsUserError := None;
                rlsTaskError := None;
                usersError := None;
                tasksError := None |}),
     with_tasks db
       (filter (fun t => negb (String.eqb (Task.title t) "Test task"))
               (tasks db))).
Proof.
  intros Hs Hur Huw Htr Htw Hus Hid Hname.
  unfold SetupDbRoute.GET, try_catch_details. walk.
  rewrite Hs. simpl. unfold limit. simpl. rewrite Hur, Htr. simpl.
  rewrite (probe_users_clean rt db Huw Hid Hname).
  rewrite (probe_tasks_sweeps rt db first others Hur Htw Hus).
  - reflexivity.
  - intros t Hin. now apply (proj2 Hid).
Qed.

Lemma setup_check_deletes_test_tasks_witness :
  let mine := Sample.task "t5" "u2" "u2" "Test task" false in
  let db := with_tasks Sample.db (tasks Sample.db ++ [mine]) in
  In mine (tasks db)
  /\ tasks (snd (SetupDbRoute.GET Sample.rt db)) = tasks Sample.db.
Proof.
  intros mine db. split; [simpl; auto 10|].
  rewrite (setup_check_deletes_test_tasks Sample.rt db Sample.mia
             [Sample.sam; Sample.uma; Sample.ugo]); try reflexivity.
  - split.
    + intros u [<-|[<-|[<-|[<-|[]]]]]; split; discriminate.
    + intros t [<-|[<-|[<-|[<-|[<-|[]]]]]]; repeat split; discriminate.
  - intros u [<-|[<-|[<-|[<-|[]]]]]; discriminate.
Defined.

(** ** Every handler *)

(** X27. When the client could not be created, every handler answers
    every request with status 500 and the same message, and the store
    is not touched. *)
Theorem uninitialised_client_answers_500 (rt : Runtime) (q : Request)
    (db : Db) :
  supabase rt = false ->
  handle rt q db
  = (json_status
       (body_error
          "Supabase client not initialized. Check environment variables.")
       500, db).
Proof.
  intros Hs.
  destruct q; simpl;
    unfold TasksRoute.GET, TasksRoute.POST, TasksRoute.PUT, TasksRoute.DELETE,
      AuthRoute.POST, AuthRoute.GET, UsersRoute.GET, UsersRoute.PUT,
      SetupDbRoute.GET, try_catch, try_catch_details, not_initialized, ret;
    rewrite Hs; reflexivity.
Qed.

Lemma uninitialised_client_answers_500_witness :
  let rt := {| supabase := false;
               toISOString := toISOString Sample.rt;
               Date_now := Date_now Sample.rt;
               uuid_generate_v4 := uuid_generate_v4 Sample.rt;
               genSalt := genSalt Sample.rt;
               hash := hash Sample.rt;
               compare := compare Sample.rt;
               boolin := boolin Sample.rt |} in
  status (fst (handle rt setup_db_GET Sample.db)) = 500
  /\ snd (handle rt (tasks_DELETE (Str "t1") (Str "u1") (Str "User"))
            Sample.db) = Sample.db.
Proof.
  intros rt. split.
  - now rewrite (uninitialised_client_answers_500 rt setup_db_GET Sample.db
                   eq_refl).
  - now rewrite (uninitialised_client_answers_500 rt
                   (tasks_DELETE (Str "t1") (Str "u1") (Str "User"))
                   Sample.db eq_refl).
Defined.

(** X28. The Manager listing does not depend on who asks: any two
    non-empty [userId] values get the same response, so whoever states
    the role Manager reads every task. *)
Theorem manager_listing_ignores_requester (rt : Runtime) (uid uid' : string)
    (supervisorId : JsStr) (db : Db) :
  uid <> "" -> uid' <> "" ->
  TasksRoute.GET rt (Str uid) (Str "Manager") supervisorId db
  = TasksRoute.GET rt (Str uid') (Str "Manager") supervisorId db.
Proof.
  intros Hu Hu'. unfold TasksRoute.GET.
  now rewrite (truthy_Str _ Hu), (truthy_Str _ Hu').
Qed.

Lemma manager_listing_ignores_requester_witness :
  TasksRoute.GET Sample.rt (Str "m1") (Str "Manager") Null Sample.db
  = TasksRoute.GET Sample.rt (Str "u2") (Str "Manager") Null Sample.db.
Proof.
  apply (manager_listing_ignores_requester Sample.rt "m1" "u2" Null Sample.db);
    discriminate.
Defined.
